(** * Business-hours helpers of date-fns: a shallow embedding

    The development follows the three entry points of the repository,
    [isWithinBusinessHours], [businessHoursInInterval] and
    [addBusinessHours], together with the shared calendar engine of
    [_lib/businessHours].

    Conventions of the embedding.
    - A JavaScript time value is [option Z]: [Some t] is [t] milliseconds
      since the epoch, [None] is [NaN] (an Invalid Date).  The range limit of
      ECMAScript time values (8.64e15 ms) is not represented.
    - Local time is read in a host zone with a fixed offset, taken to be
      zero: every calendar day lasts 86400000 ms.
    - A JavaScript number that is not a time value is a [JSNumber]: [NaN],
      the two infinities, or an exact rational.  Rounding of IEEE doubles is
      not represented: arithmetic on finite numbers is exact.
    - A function that may throw returns an [Outcome]; loops run on fuel and
      [Diverges] is what a loop yields when its fuel is used up.
    - An instant is given as a [Date]; timestamps and strings as arguments,
      and the construction context [in], are not represented.
    - [addBusinessHours] is followed twice: on time values, and on a store of
      [Date] objects where [setHours] and [setTime] overwrite a cell.  The
      second is proved to compute what the first computes. *)

From Stdlib Require Import ZArith QArith Qround Qabs List String Ascii Bool Lia
  Lqa.
From Stdlib Require Import SpecFloat.
From stdpp Require Import base list.
Import ListNotations.

Local Open Scope Z_scope.

(** ** JavaScript numbers *)

Inductive JSNumber : Type :=
| NaN
| PosInfinity
| NegInfinity
| Finite (q : Q).

Abbreviation TimeValue := (option Z) (only parsing).

Definition ofInt (z : Z) : JSNumber := Finite (inject_Z z).

(** [Number.isInteger]. *)
Definition isInteger (x : JSNumber) : bool :=
  match x with
  | Finite q => Pos.eqb (Qden (Qred q)) 1
  | _ => false
  end.

(** [a < b] on numbers: every comparison with [NaN] is false. *)
Definition js_lt (a b : JSNumber) : bool :=
  match a, b with
  | Finite p, Finite q => negb (Qle_bool q p)
  | NegInfinity, (Finite _ | PosInfinity) => true
  | Finite _, PosInfinity => true
  | _, _ => false
  end.

(** The comparison of [Array.prototype.includes] (SameValueZero). *)
Definition sameValueZero (a b : JSNumber) : bool :=
  match a, b with
  | NaN, NaN => true
  | PosInfinity, PosInfinity => true
  | NegInfinity, NegInfinity => true
  | Finite p, Finite q => Qeq_bool p q
  | _, _ => false
  end.

Definition includes (l : list JSNumber) (x : JSNumber) : bool :=
  existsb (sameValueZero x) l.

(** Truncation toward zero, as [ToIntegerOrInfinity] does on a finite
    number. *)
Definition Qtrunc (q : Q) : Z :=
  if Qle_bool 0 q then Qfloor q else Qceiling q.

(** ** Errors and outcomes *)

Inductive ErrorClass : Type := TypeError | RangeError.

Inductive Error : Type :=
| TimeNotString             (* TypeError("Time must be a string") *)
| InvalidTimeFormat (time : string)
                            (* RangeError(`Invalid time format: ...`) *)
| InvalidTimeValue (time : string)
                            (* RangeError(`Invalid time value: ...`) *)
| EndNotAfterStart          (* RangeError(`End of day ... must be after ...`) *)
| WorkingDaysNotNonEmptyArray
                  (* RangeError("workingDays must be a non-empty array") *)
| WorkingDaysOutOfRange
                  (* RangeError("workingDays must contain integers ...") *)
| HolidaysNotArray          (* TypeError("holidays must be an array") *)
| StartDateInvalid          (* RangeError("Start date is invalid") *)
| EndDateInvalid            (* RangeError("End date is invalid") *)
| StartAfterEnd
                  (* RangeError("Start date must be before or equal ...") *)
| NoWorkingTimeInRange      (* RangeError("Unable to find working time ...") *)
| MaxIterationsExceeded.    (* RangeError("Exceeded maximum iterations ...") *)

Definition errorClass (e : Error) : ErrorClass :=
  match e with
  | TimeNotString | HolidaysNotArray => TypeError
  | _ => RangeError
  end.

(** The errors of [normalizeBusinessHoursOptions]. *)
Definition isConfigError (e : Error) : bool :=
  match e with
  | TimeNotString | InvalidTimeFormat _ | InvalidTimeValue _
  | EndNotAfterStart | WorkingDaysNotNonEmptyArray | WorkingDaysOutOfRange
  | HolidaysNotArray => true
  | _ => false
  end.

(** The errors [businessHoursInInterval] raises on its interval. *)
Definition isIntervalError (e : Error) : bool :=
  match e with
  | StartDateInvalid | EndDateInvalid | StartAfterEnd => true
  | _ => false
  end.

Inductive Outcome (A : Type) : Type :=
| Returns (a : A)
| Throws (e : Error)
| Diverges.

Arguments Returns {A} a.
Arguments Throws {A} e.
Arguments Diverges {A}.

Definition bind {A B : Type} (m : Outcome A) (k : A -> Outcome B) : Outcome B :=
  match m with
  | Returns a => k a
  | Throws e => Throws e
  | Diverges => Diverges
  end.

Declare Scope outcome_scope.
Delimit Scope outcome_scope with outcome.
Notation "'let*' x ':=' m 'in' k" := (bind m (fun x => k))
  (at level 10, x pattern, m at level 100, k at level 200) : outcome_scope.
Local Open Scope outcome_scope.

(** ** Dates *)

Definition msPerMinute : Z := 60000.
Definition msPerHour : Z := 3600000.
Definition msPerDay : Z := 86400000.

(** Modelled from the spec: the methods of the host [Date] object on a valid
    time value, read in a zone of offset zero ([getDay], [getHours],
    [getMinutes], [setHours(h, m, 0, 0)] and the constructor from local
    fields, which are not part of the repository). *)
Module Date.

Definition dayNumber (t : Z) : Z := t / msPerDay.

Definition msOfDay (t : Z) : Z := t mod msPerDay.

(** 0 is Sunday; the epoch fell on a Thursday. *)
Definition getDay (t : Z) : Z := (dayNumber t + 4) mod 7.

Definition getHours (t : Z) : Z := msOfDay t / msPerHour.

Definition getMinutes (t : Z) : Z := (msOfDay t mod msPerHour) / msPerMinute.

Definition setHours (t : Z) (hours minutes : Z) : Z :=
  dayNumber t * msPerDay + hours * msPerHour + minutes * msPerMinute.

(** Days from the epoch to the civil date [y]-[m]-[d], [m] counted from 1. *)
Definition daysFromCivil (y m d : Z) : Z :=
  let y' := if m <=? 2 then y - 1 else y in
  let era := y' / 400 in
  let yoe := y' - era * 400 in
  let mp := if m <=? 2 then m + 9 else m - 3 in
  let doy := (153 * mp + 2) / 5 + d - 1 in
  let doe := yoe * 365 + yoe / 4 - yoe / 100 + doy in
  era * 146097 + doe - 719468.

(** [new Date(year, monthIndex, day, hours, minutes)]. *)
Definition make (year monthIndex day hours minutes : Z) : Z :=
  daysFromCivil year (monthIndex + 1) day * msPerDay
  + hours * msPerHour + minutes * msPerMinute.

End Date.

(** Modelled from the spec: the date-fns primitives the business-hours code
    imports ([startOfDay], [addDays], [addMinutes], [isSameDay], [isBefore],
    [isAfter], [max], [min]), which the repository keeps outside these
    sources; each is read on valid time values. *)
Module DateFns.

Definition startOfDay (t : Z) : Z := Date.dayNumber t * msPerDay.

Definition addDays (t : Z) (amount : Z) : Z := t + amount * msPerDay.

(** [setTime(getTime() + amount * 60000)]: the sum is clipped to an
    integer. *)
Definition addMinutes (t : Z) (amount : Q) : Z :=
  Qtrunc (inject_Z t + amount * inject_Z msPerMinute)%Q.

Definition isBefore (a b : Z) : bool := a <? b.

Definition isAfter (a b : Z) : bool := b <? a.

(** [+startOfDay(a) === +startOfDay(b)]; an invalid side never matches. *)
Definition isSameDay (a : Z) (b : TimeValue) : bool :=
  match b with
  | Some b' => startOfDay a =? startOfDay b'
  | None => false
  end.

(** [max([a, b])] and [min([a, b])] on two valid dates. *)
Definition max (a b : Z) : Z := if a <? b then b else a.

Definition min (a b : Z) : Z := if b <? a then b else a.

End DateFns.

(** ** [_lib/businessHours]: options and their normalization *)

(** A value that the type of the options announces as a string or as an
    array, and that the code still tests at run time. *)
Inductive TimeArg : Type :=
| TimeString (s : string)
| NotAString.

Inductive ArrayArg (A : Type) : Type :=
| IsArray (l : list A)
| NotAnArray.

Arguments IsArray {A} l.
Arguments NotAnArray {A}.

Record BusinessHoursOptions : Type := {
  opt_startOfDay : option TimeArg;
  opt_endOfDay : option TimeArg;
  opt_workingDays : option (ArrayArg JSNumber);
  opt_holidays : option (ArrayArg TimeValue)
}.

Record NormalizedBusinessHoursOptions : Type := {
  startHour : Z;
  startMinute : Z;
  endHour : Z;
  endMinute : Z;
  workingDays : list JSNumber;
  holidays : list TimeValue
}.

(** [options] left undefined. *)
Definition noOptions : BusinessHoursOptions :=
  {| opt_startOfDay := None; opt_endOfDay := None;
     opt_workingDays := None; opt_holidays := None |}.

(** *** Strings: [split(":")] and [parseInt(_, 10)] *)

Fixpoint split (sep : ascii) (s : string) : list string :=
  match s with
  | EmptyString => [EmptyString]
  | String c rest =>
      if Ascii.eqb c sep then EmptyString :: split sep rest
      else match split sep rest with
           | p :: ps => String c p :: ps
           | [] => [String c EmptyString]
           end
  end.

Definition isWhiteSpace (c : ascii) : bool :=
  let n := nat_of_ascii c in
  ((9 <=? n)%nat && (n <=? 13)%nat) || (n =? 32)%nat.

Fixpoint skipWhiteSpace (s : string) : string :=
  match s with
  | String c rest => if isWhiteSpace c then skipWhiteSpace rest else s
  | EmptyString => s
  end.

Definition digitValue (c : ascii) : option Z :=
  let n := nat_of_ascii c in
  if ((48 <=? n)%nat && (n <=? 57)%nat) then Some (Z.of_nat n - 48) else None.

(** The longest prefix of decimal digits; [acc] is [None] until a digit has
    been read. *)
Fixpoint parseDigits (s : string) (acc : option Z) : option Z :=
  match s with
  | String c rest =>
      match digitValue c with
      | Some d =>
          parseDigits rest
            (Some (10 * (match acc with Some a => a | None => 0 end) + d))
      | None => acc
      end
  | EmptyString => acc
  end.

(** [parseInt(s, 10)]; [None] is [NaN].  White space is the ASCII one. *)
Definition parseInt (s : string) : option Z :=
  match skipWhiteSpace s with
  | String "-" rest => option_map Z.opp (parseDigits rest None)
  | String "+" rest => parseDigits rest None
  | s' => parseDigits s' None
  end.

Definition parseTimeString (time : TimeArg) : Outcome (Z * Z) :=
  match time with
  | NotAString => Throws TimeNotString
  | TimeString s =>
      match split ":" s with
      | [p0; p1] =>
          match parseInt p0, parseInt p1 with
          | Some hours, Some minutes =>
              if (hours <? 0) || (23 <? hours)
                 || (minutes <? 0) || (59 <? minutes)
              then Throws (InvalidTimeValue s)
              else Returns (hours, minutes)
          | _, _ => Throws (InvalidTimeValue s)
          end
      | _ => Throws (InvalidTimeFormat s)
      end
  end.

(** The loop over [workingDays]: the first entry that is not an integer
    between 0 and 6 throws. *)
Definition validWorkingDay (day : JSNumber) : bool :=
  isInteger day && negb (js_lt day (ofInt 0)) && negb (js_lt (ofInt 6) day).

Definition normalizeBusinessHoursOptions (options : BusinessHoursOptions)
  : Outcome NormalizedBusinessHoursOptions :=
  let startOfDay := default (TimeString "09:00") (opt_startOfDay options) in
  let endOfDay := default (TimeString "17:00") (opt_endOfDay options) in
  let workingDays :=
    default (IsArray (map ofInt [1; 2; 3; 4; 5])) (opt_workingDays options) in
  let holidays := default (IsArray []) (opt_holidays options) in
  let* start := parseTimeString startOfDay in
  let* end_ := parseTimeString endOfDay in
  if (fst end_ <? fst start)
     || ((fst end_ =? fst start) && (snd end_ <=? snd start))
  then Throws EndNotAfterStart
  else
    match workingDays with
    | NotAnArray | IsArray [] => Throws WorkingDaysNotNonEmptyArray
    | IsArray days =>
        if forallb validWorkingDay days then
          match holidays with
          | NotAnArray => Throws HolidaysNotArray
          | IsArray hs =>
              Returns {| startHour := fst start; startMinute := snd start;
                         endHour := fst end_; endMinute := snd end_;
                         workingDays := days; holidays := hs |}
          end
        else Throws WorkingDaysOutOfRange
    end.

(** *** Calendar predicates and the daily window *)

Definition isHoliday (date : Z) (holidays : list TimeValue) : bool :=
  existsb (DateFns.isSameDay date) holidays.

Definition isWorkingDay (date : Z) (workingDays : list JSNumber) : bool :=
  let dayOfWeek := Date.getDay date in
  includes workingDays (ofInt dayOfWeek).

(** [None] is the [null] of the source. *)
Definition getWorkingHoursStart (date : Z)
    (normalized : NormalizedBusinessHoursOptions) : option Z :=
  if negb (isWorkingDay date (workingDays normalized))
     || isHoliday date (holidays normalized)
  then None
  else
    Some (Date.setHours date (startHour normalized) (startMinute normalized)).

Definition getWorkingHoursEnd (date : Z)
    (normalized : NormalizedBusinessHoursOptions) : option Z :=
  if negb (isWorkingDay date (workingDays normalized))
     || isHoliday date (holidays normalized)
  then None
  else Some (Date.setHours date (endHour normalized) (endMinute normalized)).

Definition getBusinessHoursPerDay (normalized : NormalizedBusinessHoursOptions)
  : Z :=
  let startMs :=
    startHour normalized * 60 * 60 * 1000
    + startMinute normalized * 60 * 1000 in
  let endMs :=
    endHour normalized * 60 * 60 * 1000 + endMinute normalized * 60 * 1000 in
  endMs - startMs.

(** ** [isWithinBusinessHours] *)

Definition isWithinBusinessHours (date : TimeValue)
    (options : BusinessHoursOptions) : Outcome bool :=
  match date with
  | None => Returns false
  | Some _date =>
      let* normalized := normalizeBusinessHoursOptions options in
      if negb (isWorkingDay _date (workingDays normalized)) then Returns false
      else if isHoliday _date (holidays normalized) then Returns false
      else
        let hours := Date.getHours _date in
        let minutes := Date.getMinutes _date in
        let currentMinutes := hours * 60 + minutes in
        let startMinutes :=
          startHour normalized * 60 + startMinute normalized in
        let endMinutes := endHour normalized * 60 + endMinute normalized in
        Returns ((startMinutes <=? currentMinutes)
                 && (currentMinutes <? endMinutes))
  end.

(** ** [businessHoursInInterval] *)

(** The body of the day loop: the hours the working window of [currentDay]
    shares with the interval, added to [totalHours]. *)
Definition addDayOverlap (normalized : NormalizedBusinessHoursOptions)
    (start end_ currentDay : Z) (totalHours : Q) : Q :=
  match getWorkingHoursStart currentDay normalized,
        getWorkingHoursEnd currentDay normalized with
  | Some workStart, Some workEnd =>
      let overlapStart := DateFns.max start workStart in
      let overlapEnd := DateFns.min end_ workEnd in
      if DateFns.isBefore overlapStart overlapEnd
         || (overlapStart =? overlapEnd)
      then
        let milliseconds := overlapEnd - overlapStart in
        let hours := (inject_Z milliseconds / inject_Z (1000 * 60 * 60))%Q in
        (totalHours + hours)%Q
      else totalHours
  | _, _ => totalHours
  end.

(** [while (isBefore(currentDay, addDays(endDay, 1)))]. *)
Fixpoint dayLoop (fuel : nat) (normalized : NormalizedBusinessHoursOptions)
    (start end_ endDay currentDay : Z) (totalHours : Q) : Outcome Q :=
  match fuel with
  | O => Diverges
  | S fuel' =>
      if DateFns.isBefore currentDay (DateFns.addDays endDay 1) then
        dayLoop fuel' normalized start end_ endDay
          (DateFns.addDays currentDay 1)
          (addDayOverlap normalized start end_ currentDay totalHours)
      else Returns totalHours
  end.

(** Fuel for the day loop: one turn per calendar day of the interval and one
    for the test that leaves the loop. *)
Definition dayLoopFuel (currentDay endDay : Z) : nat :=
  Z.to_nat (Date.dayNumber endDay - Date.dayNumber currentDay + 2).

Definition businessHoursInInterval (start end_ : TimeValue)
    (options : BusinessHoursOptions) : Outcome Q :=
  match start with
  | None => Throws StartDateInvalid
  | Some start =>
      match end_ with
      | None => Throws EndDateInvalid
      | Some end_ =>
          if DateFns.isAfter start end_ then Throws StartAfterEnd
          else
            let* normalized := normalizeBusinessHoursOptions options in
            let totalHours := 0%Q in
            let currentDay := DateFns.startOfDay start in
            let endDay := DateFns.startOfDay end_ in
            dayLoop (dayLoopFuel currentDay endDay) normalized start end_
              endDay currentDay totalHours
      end
  end.

(** ** [addBusinessHours] *)

Definition maxAttempts : Z := 366.
Definition maxIterations : Z := 10000.

(** [result.setHours(dir > 0 ? startHour : endHour, dir > 0 ? startMinute :
    endMinute, 0, 0)]. *)
Definition setBoundary (normalized : NormalizedBusinessHoursOptions)
    (dir : Z) (t : Z) : Z :=
  Date.setHours t
    (if 0 <? dir then startHour normalized else endHour normalized)
    (if 0 <? dir then startMinute normalized else endMinute normalized).

(** The loop of [moveToWorkingTime]; it yields [result] and [attempts] as
    they stand when the loop is left. *)
Fixpoint moveLoop (fuel : nat) (normalized : NormalizedBusinessHoursOptions)
    (dir : Z) (result : Z) (attempts : Z) : Outcome (Z * Z) :=
  match fuel with
  | O => Diverges
  | S fuel' =>
      if attempts <? maxAttempts then
        let attempts := attempts + 1 in
        if negb (isWorkingDay result (workingDays normalized))
           || isHoliday result (holidays normalized)
        then
          moveLoop fuel' normalized dir
            (setBoundary normalized dir (DateFns.addDays result dir)) attempts
        else
          match getWorkingHoursStart result normalized,
                getWorkingHoursEnd result normalized with
          | Some workStart, Some workEnd =>
              if 0 <? dir then
                if DateFns.isBefore result workStart then
                  Returns (workStart, attempts)
                else if DateFns.isAfter result workEnd || (result =? workEnd)
                then
                  moveLoop fuel' normalized dir
                    (Date.setHours (DateFns.addDays result 1)
                       (startHour normalized) (startMinute normalized))
                    attempts
                else Returns (result, attempts)
              else
                if DateFns.isAfter result workEnd || (result =? workEnd) then
                  Returns (workEnd, attempts)
                else if DateFns.isBefore result workStart then
                  moveLoop fuel' normalized dir
                    (Date.setHours (DateFns.addDays result (-1))
                       (endHour normalized) (endMinute normalized))
                    attempts
                else Returns (result, attempts)
          | _, _ =>
              moveLoop fuel' normalized dir
                (setBoundary normalized dir (DateFns.addDays result dir))
                attempts
          end
      else Returns (result, attempts)
  end.

Definition moveToWorkingTime (normalized : NormalizedBusinessHoursOptions)
    (date : Z) (dir : Z) : Outcome Z :=
  let* exit_ := moveLoop (S (Z.to_nat maxAttempts)) normalized dir date 0 in
  let result := fst exit_ in
  let attempts := snd exit_ in
  if maxAttempts <=? attempts then Throws NoWorkingTimeInRange
  else Returns result.

(** The main loop; it yields [currentDate] and [iterations] as they stand
    when the loop is left. *)
Fixpoint consumeLoop (fuel : nat) (normalized : NormalizedBusinessHoursOptions)
    (direction : Z) (currentDate : Z) (remainingMinutes : Q) (iterations : Z)
  : Outcome (Z * Z) :=
  match fuel with
  | O => Diverges
  | S fuel' =>
      if negb (Qle_bool remainingMinutes 0) && (iterations <? maxIterations)
      then
        let iterations := iterations + 1 in
        match getWorkingHoursStart currentDate normalized,
              getWorkingHoursEnd currentDate normalized with
        | Some workStart, Some workEnd =>
            let availableMinutes :=
              if 0 <? direction
              then (inject_Z (workEnd - currentDate) / inject_Z (1000 * 60))%Q
              else (inject_Z (currentDate - workStart) / inject_Z (1000 * 60))%Q
            in
            if Qle_bool remainingMinutes availableMinutes then
              consumeLoop fuel' normalized direction
                (DateFns.addMinutes currentDate
                   (remainingMinutes * inject_Z direction)%Q)
                0%Q iterations
            else
              let remainingMinutes := (remainingMinutes - availableMinutes)%Q in
              let* currentDate :=
                if 0 <? direction then
                  moveToWorkingTime normalized
                    (Date.setHours (DateFns.addDays currentDate 1)
                       (startHour normalized) (startMinute normalized))
                    direction
                else
                  moveToWorkingTime normalized
                    (Date.setHours (DateFns.addDays currentDate (-1))
                       (endHour normalized) (endMinute normalized))
                    direction
              in
              consumeLoop fuel' normalized direction currentDate
                remainingMinutes iterations
        | _, _ =>
            let* currentDate :=
              moveToWorkingTime normalized
                (DateFns.addDays currentDate direction) direction in
            consumeLoop fuel' normalized direction currentDate
              remainingMinutes iterations
        end
      else Returns (currentDate, iterations)
  end.

Definition addBusinessHours (date : TimeValue) (amount : JSNumber)
    (options : BusinessHoursOptions) : Outcome TimeValue :=
  match date with
  | None => Returns None
  | Some _date =>
      match amount with
      | Finite amount =>
          if Qeq_bool amount 0 then Returns (Some _date)
          else
            let* normalized := normalizeBusinessHoursOptions options in
            let remainingMinutes := (amount * 60)%Q in
            let direction := if Qle_bool 0 remainingMinutes then 1 else -1 in
            let remainingMinutes := Qabs remainingMinutes in
            let* currentDate := moveToWorkingTime normalized _date direction in
            let* exit_ :=
              consumeLoop (S (Z.to_nat maxIterations)) normalized direction
                currentDate remainingMinutes 0 in
            let currentDate := fst exit_ in
            let iterations := snd exit_ in
            if maxIterations <=? iterations then Throws MaxIterationsExceeded
            else Returns (Some currentDate)
      | _ => Returns None
      end
  end.

(** ** The arithmetic of the source in IEEE doubles

    A JavaScript number is a binary64 double, and the source divides,
    multiplies, adds and subtracts numbers of hours and of minutes.  The two
    functions that do so are followed a second time here, with every
    operation on numbers rounded to the nearest double, ties to even, as
    [SpecFloat] of the standard library specifies binary64.  Time values stay
    integers: a time value is an integral number below [2 ^ 53] in absolute
    value, and [Double.ofZ] is exact on those. *)

Module Double.

Definition double : Type := spec_float.

Definition prec : Z := 53.
Definition emax : Z := 1024.

(** The double nearest to an integer. *)
Definition ofZ (z : Z) : double := binary_normalize prec emax z 0 false.

Definition add : double -> double -> double := SFadd prec emax.
Definition sub : double -> double -> double := SFsub prec emax.
Definition mul : double -> double -> double := SFmul prec emax.
Definition div : double -> double -> double := SFdiv prec emax.

(** [Math.abs]. *)
Definition abs : double -> double := SFabs.

(** [a === b], [a < b] and [a <= b] on numbers. *)
Definition eqb : double -> double -> bool := SFeqb.
Definition ltb : double -> double -> bool := SFltb.
Definition leb : double -> double -> bool := SFleb.

Definition isNaN (x : double) : bool :=
  match x with S754_nan => true | _ => false end.

Definition isFinite (x : double) : bool :=
  match x with S754_zero _ | S754_finite _ _ _ => true | _ => false end.

(** [ToIntegerOrInfinity] on a finite double: truncation toward zero. *)
Definition trunc (x : double) : Z :=
  match x with
  | S754_finite s m e =>
      cond_Zopp s (if 0 <=? e then Zpos m * 2 ^ e else Zpos m / 2 ^ (- e))
  | _ => 0
  end.

(** The double of value [v / 2 ^ g], when that value is a double. *)
Definition dyadic (g v : Z) : double :=
  binary_normalize prec emax v (- g) false.

End Double.

Module Binary64.

(** Modelled from the spec: [addMinutes] of date-fns,
    [setTime(getTime() + amount * millisecondsInMinute)]; [setTime] clips
    the sum to an integer.  The sum is finite wherever the source calls it:
    the amount is then at most the minutes of one day. *)
Definition addMinutes (t : Z) (amount : Double.double) : Z :=
  Double.trunc
    (Double.add (Double.ofZ t) (Double.mul amount (Double.ofZ msPerMinute))).

(** The body of the day loop of [businessHoursInInterval]. *)
Definition addDayOverlap (normalized : NormalizedBusinessHoursOptions)
    (start end_ currentDay : Z) (totalHours : Double.double)
  : Double.double :=
  match getWorkingHoursStart currentDay normalized,
        getWorkingHoursEnd currentDay normalized with
  | Some workStart, Some workEnd =>
      let overlapStart := DateFns.max start workStart in
      let overlapEnd := DateFns.min end_ workEnd in
      if DateFns.isBefore overlapStart overlapEnd
         || (overlapStart =? overlapEnd)
      then
        let milliseconds :=
          Double.sub (Double.ofZ overlapEnd) (Double.ofZ overlapStart) in
        let hours := Double.div milliseconds (Double.ofZ (1000 * 60 * 60)) in
        Double.add totalHours hours
      else totalHours
  | _, _ => totalHours
  end.

Fixpoint dayLoop (fuel : nat) (normalized : NormalizedBusinessHoursOptions)
    (start end_ endDay currentDay : Z) (totalHours : Double.double)
  : Outcome Double.double :=
  match fuel with
  | O => Diverges
  | S fuel' =>
      if DateFns.isBefore currentDay (DateFns.addDays endDay 1) then
        dayLoop fuel' normalized start end_ endDay
          (DateFns.addDays currentDay 1)
          (addDayOverlap normalized start end_ currentDay totalHours)
      else Returns totalHours
  end.

Definition businessHoursInInterval (start end_ : TimeValue)
    (options : BusinessHoursOptions) : Outcome Double.double :=
  match start with
  | None => Throws StartDateInvalid
  | Some start =>
      match end_ with
      | None => Throws EndDateInvalid
      | Some end_ =>
          if DateFns.isAfter start end_ then Throws StartAfterEnd
          else
            let* normalized := normalizeBusinessHoursOptions options in
            let totalHours := Double.ofZ 0 in
            let currentDay := DateFns.startOfDay start in
            let endDay := DateFns.startOfDay end_ in
            dayLoop (dayLoopFuel currentDay endDay) normalized start end_
              endDay currentDay totalHours
      end
  end.

(** The main loop of [addBusinessHours]. *)
Fixpoint consumeLoop (fuel : nat) (normalized : NormalizedBusinessHoursOptions)
    (direction : Z) (currentDate : Z) (remainingMinutes : Double.double)
    (iterations : Z) : Outcome (Z * Z) :=
  match fuel with
  | O => Diverges
  | S fuel' =>
      if Double.ltb (Double.ofZ 0) remainingMinutes
         && (iterations <? maxIterations)
      then
        let iterations := iterations + 1 in
        match getWorkingHoursStart currentDate normalized,
              getWorkingHoursEnd currentDate normalized with
        | Some workStart, Some workEnd =>
            let availableMinutes :=
              if 0 <? direction
              then
                Double.div
                  (Double.sub (Double.ofZ workEnd) (Double.ofZ currentDate))
                  (Double.ofZ (1000 * 60))
              else
                Double.div
                  (Double.sub (Double.ofZ currentDate) (Double.ofZ workStart))
                  (Double.ofZ (1000 * 60))
            in
            if Double.leb remainingMinutes availableMinutes then
              consumeLoop fuel' normalized direction
                (addMinutes currentDate
                   (Double.mul remainingMinutes (Double.ofZ direction)))
                (Double.ofZ 0) iterations
            else
              let remainingMinutes :=
                Double.sub remainingMinutes availableMinutes in
              let* currentDate :=
                if 0 <? direction then
                  moveToWorkingTime normalized
                    (Date.setHours (DateFns.addDays currentDate 1)
                       (startHour normalized) (startMinute normalized))
                    direction
                else
                  moveToWorkingTime normalized
                    (Date.setHours (DateFns.addDays currentDate (-1))
                       (endHour normalized) (endMinute normalized))
                    direction
              in
              consumeLoop fuel' normalized direction currentDate
                remainingMinutes iterations
        | _, _ =>
            let* currentDate :=
              moveToWorkingTime normalized
                (DateFns.addDays currentDate direction) direction in
            consumeLoop fuel' normalized direction currentDate
              remainingMinutes iterations
        end
      else Returns (currentDate, iterations)
  end.

Definition addBusinessHours (date : TimeValue) (amount : Double.double)
    (options : BusinessHoursOptions) : Outcome TimeValue :=
  match date with
  | None => Returns None
  | Some _date =>
      if Double.isNaN amount || negb (Double.isFinite amount)
      then Returns None
      else if Double.eqb amount (Double.ofZ 0) then Returns (Some _date)
      else
        let* normalized := normalizeBusinessHoursOptions options in
        let remainingMinutes := Double.mul amount (Double.ofZ 60) in
        let direction :=
          if Double.leb (Double.ofZ 0) remainingMinutes then 1 else -1 in
        let remainingMinutes := Double.abs remainingMinutes in
        let* currentDate := moveToWorkingTime normalized _date direction in
        let* exit_ :=
          consumeLoop (S (Z.to_nat maxIterations)) normalized direction
            currentDate remainingMinutes 0 in
        let currentDate := fst exit_ in
        let iterations := snd exit_ in
        if maxIterations <=? iterations then Throws MaxIterationsExceeded
        else Returns (Some currentDate)
  end.

End Binary64.

(** ** The same entry point over a store of [Date] objects

    [addBusinessHours] builds and updates [Date] objects ([new Date],
    [setHours], and the copies date-fns makes in [toDate], [addDays] and
    [addMinutes]).  Here every [Date] is a cell of a store and the code is
    followed statement by statement, so that what happens to the caller's
    object can be stated.  Cells hold any time value, [NaN] included, and
    numbers follow JavaScript on [NaN] and the infinities. *)

Definition js_neg (a : JSNumber) : JSNumber :=
  match a with
  | NaN => NaN
  | PosInfinity => NegInfinity
  | NegInfinity => PosInfinity
  | Finite p => Finite (- p)%Q
  end.

Definition js_add (a b : JSNumber) : JSNumber :=
  match a, b with
  | NaN, _ | _, NaN => NaN
  | Finite p, Finite q => Finite (p + q)%Q
  | PosInfinity, NegInfinity | NegInfinity, PosInfinity => NaN
  | PosInfinity, _ | _, PosInfinity => PosInfinity
  | NegInfinity, _ | _, NegInfinity => NegInfinity
  end.

Definition js_sub (a b : JSNumber) : JSNumber :=
  match a, b with
  | Finite p, Finite q => Finite (p - q)%Q
  | _, _ => js_add a (js_neg b)
  end.

(** [x * direction], where [direction] is 1 or -1. *)
Definition js_scale (a : JSNumber) (direction : Z) : JSNumber :=
  match a with
  | Finite p => Finite (p * inject_Z direction)%Q
  | _ => if 0 <? direction then a else js_neg a
  end.

(** [a >= b]. *)
Definition js_ge (a b : JSNumber) : bool :=
  match a, b with
  | Finite p, Finite q => Qle_bool q p
  | NaN, _ | _, NaN => false
  | PosInfinity, _ | _, NegInfinity => true
  | _, _ => false
  end.

(** [(a.getTime() - b.getTime()) / (1000 * 60)]. *)
Definition minutesBetween (a b : TimeValue) : JSNumber :=
  match a, b with
  | Some x, Some y => Finite (inject_Z (x - y) / inject_Z (1000 * 60))%Q
  | _, _ => NaN
  end.

Module Store.

Definition ref : Type := nat.
Definition heap : Type := list TimeValue.
Definition M (A : Type) : Type := heap -> heap * Outcome A.

Definition ret {A : Type} (a : A) : M A := fun h => (h, Returns a).

Definition throw {A : Type} (e : Error) : M A := fun h => (h, Throws e).

Definition diverge {A : Type} : M A := fun h => (h, Diverges).

Definition bind {A B : Type} (m : M A) (k : A -> M B) : M B :=
  fun h =>
    match m h with
    | (h', Returns a) => k a h'
    | (h', Throws e) => (h', Throws e)
    | (h', Diverges) => (h', Diverges)
    end.

Definition lift {A : Type} (o : Outcome A) : M A := fun h => (h, o).

Declare Scope store_scope.
Delimit Scope store_scope with store.
Notation "'let!' x ':=' m 'in' k" := (bind m (fun x => k))
  (at level 10, x pattern, m at level 100, k at level 200) : store_scope.
Local Open Scope store_scope.

(** *** The [Date] object *)

(** Modelled from the spec: the host [Date] object, as one cell holding its
    time value. *)

(** [new Date(value)]: a fresh cell. *)
Definition newDate (value : TimeValue) : M ref :=
  fun h => (h ++ [value], Returns (length h)).

(** [date.getTime()]. *)
Definition getTime (date : ref) : M TimeValue :=
  fun h => (h, Returns (default None (h !! date))).

(** [date.setTime(value)]: the cell is overwritten. *)
Definition setTime (date : ref) (value : TimeValue) : M unit :=
  fun h => (<[date := value]> h, Returns tt).

(** [date.setHours(hours, minutes, 0, 0)]. *)
Definition setHours (date : ref) (hours minutes : Z) : M unit :=
  let! value := getTime date in
  setTime date (option_map (fun t => Date.setHours t hours minutes) value).

(** [new Date(date)]. *)
Definition copyDate (date : ref) : M ref :=
  let! value := getTime date in
  newDate value.

(** *** date-fns *)

(** Modelled from the spec: [toDate], [constructFrom], [addDays],
    [addMinutes], [isBefore] and [isAfter] of date-fns, which are not among
    these sources.  [toDate(date)] and [constructFrom(date, value)] on a
    [Date] argument both build a new object; [addDays] and [addMinutes]
    change the copy [toDate] gave them; the comparisons only read. *)
Definition toDate (date : ref) : M ref := copyDate date.

Definition constructFrom (value : TimeValue) : M ref := newDate value.

(** [addDays]: a copy, moved by [setDate(getDate() + amount)]. *)
Definition addDays (date : ref) (amount : Z) : M ref :=
  let! _date := toDate date in
  let! value := getTime _date in
  let! _ :=
    setTime _date (option_map (fun t => DateFns.addDays t amount) value) in
  ret _date.

(** [addMinutes]: a copy, moved by [setTime]. *)
Definition addMinutes (date : ref) (amount : JSNumber) : M ref :=
  let! _date := toDate date in
  let! value := getTime _date in
  let! _ :=
    setTime _date
      (match value, amount with
       | Some t, Finite q => Some (DateFns.addMinutes t q)
       | _, _ => None
       end) in
  ret _date.

Definition isBefore (a b : ref) : M bool :=
  let! x := getTime a in
  let! y := getTime b in
  ret (match x, y with
       | Some x, Some y => DateFns.isBefore x y
       | _, _ => false
       end).

Definition isAfter (a b : ref) : M bool :=
  let! x := getTime a in
  let! y := getTime b in
  ret (match x, y with
       | Some x, Some y => DateFns.isAfter x y
       | _, _ => false
       end).

(** [a.getTime() === b.getTime()]. *)
Definition sameTime (a b : ref) : M bool :=
  let! x := getTime a in
  let! y := getTime b in
  ret (match x, y with
       | Some x, Some y => x =? y
       | _, _ => false
       end).

(** *** [_lib/businessHours] *)

Definition isHoliday (date : ref) (holidays : list TimeValue) : M bool :=
  let! value := getTime date in
  ret (match value with
       | Some t => existsb (DateFns.isSameDay t) holidays
       | None => false
       end).

Definition isWorkingDay (date : ref) (workingDays : list JSNumber)
  : M bool :=
  let! value := getTime date in
  let dayOfWeek :=
    match value with
    | Some t => ofInt (Date.getDay t)
    | None => NaN
    end in
  ret (includes workingDays dayOfWeek).

Definition isNonWorking (date : ref)
    (normalized : NormalizedBusinessHoursOptions) : M bool :=
  let! working := isWorkingDay date (workingDays normalized) in
  if negb working then ret true
  else isHoliday date (holidays normalized).

Definition getWorkingHoursStart (date : ref)
    (normalized : NormalizedBusinessHoursOptions) : M (option ref) :=
  let! off := isNonWorking date normalized in
  if off then ret None
  else
    let! result := copyDate date in
    let! _ :=
      setHours result (startHour normalized) (startMinute normalized) in
    ret (Some result).

Definition getWorkingHoursEnd (date : ref)
    (normalized : NormalizedBusinessHoursOptions) : M (option ref) :=
  let! off := isNonWorking date normalized in
  if off then ret None
  else
    let! result := copyDate date in
    let! _ := setHours result (endHour normalized) (endMinute normalized) in
    ret (Some result).

(** *** [addBusinessHours] *)

(** [result = addDays(result, dir); result.setHours(...)]. *)
Definition stepDay (normalized : NormalizedBusinessHoursOptions)
    (dir : Z) (result : ref) : M ref :=
  let! result := addDays result dir in
  let! _ :=
    setHours result
      (if 0 <? dir then startHour normalized else endHour normalized)
      (if 0 <? dir then startMinute normalized else endMinute normalized) in
  ret result.

Fixpoint moveLoop (fuel : nat) (normalized : NormalizedBusinessHoursOptions)
    (dir : Z) (result : ref) (attempts : Z) : M (ref * Z) :=
  match fuel with
  | O => diverge
  | S fuel' =>
      if attempts <? maxAttempts then
        let attempts := attempts + 1 in
        let! off := isNonWorking result normalized in
        if off then
          let! result := stepDay normalized dir result in
          moveLoop fuel' normalized dir result attempts
        else
          let! workStart := getWorkingHoursStart result normalized in
          let! workEnd := getWorkingHoursEnd result normalized in
          match workStart, workEnd with
          | Some workStart, Some workEnd =>
              if 0 <? dir then
                let! before := isBefore result workStart in
                if before then
                  let! result := copyDate workStart in
                  ret (result, attempts)
                else
                  let! after := isAfter result workEnd in
                  let! same := sameTime result workEnd in
                  if after || same then
                    let! result := addDays result 1 in
                    let! _ :=
                      setHours result (startHour normalized)
                        (startMinute normalized) in
                    moveLoop fuel' normalized dir result attempts
                  else ret (result, attempts)
              else
                let! after := isAfter result workEnd in
                let! same := sameTime result workEnd in
                if after || same then
                  let! result := copyDate workEnd in
                  ret (result, attempts)
                else
                  let! before := isBefore result workStart in
                  if before then
                    let! result := addDays result (-1) in
                    let! _ :=
                      setHours result (endHour normalized)
                        (endMinute normalized) in
                    moveLoop fuel' normalized dir result attempts
                  else ret (result, attempts)
          | _, _ =>
              let! result := stepDay normalized dir result in
              moveLoop fuel' normalized dir result attempts
          end
      else ret (result, attempts)
  end.

Definition moveToWorkingTime (normalized : NormalizedBusinessHoursOptions)
    (date : ref) (dir : Z) : M ref :=
  let! result := copyDate date in
  let! exit_ :=
    moveLoop (S (Z.to_nat maxAttempts)) normalized dir result 0 in
  let result := fst exit_ in
  let attempts := snd exit_ in
  if maxAttempts <=? attempts then throw NoWorkingTimeInRange
  else ret result.

Fixpoint consumeLoop (fuel : nat)
    (normalized : NormalizedBusinessHoursOptions) (direction : Z)
    (currentDate : ref) (remainingMinutes : JSNumber) (iterations : Z)
  : M (ref * Z) :=
  match fuel with
  | O => diverge
  | S fuel' =>
      if js_lt (ofInt 0) remainingMinutes && (iterations <? maxIterations)
      then
        let iterations := iterations + 1 in
        let! workStart := getWorkingHoursStart currentDate normalized in
        let! workEnd := getWorkingHoursEnd currentDate normalized in
        match workStart, workEnd with
        | Some workStart, Some workEnd =>
            let! current := getTime currentDate in
            let! startTime := getTime workStart in
            let! endTime := getTime workEnd in
            let availableMinutes :=
              if 0 <? direction then minutesBetween endTime current
              else minutesBetween current startTime in
            if js_ge availableMinutes remainingMinutes then
              let! currentDate :=
                addMinutes currentDate
                  (js_scale remainingMinutes direction) in
              consumeLoop fuel' normalized direction currentDate (ofInt 0)
                iterations
            else
              let remainingMinutes :=
                js_sub remainingMinutes availableMinutes in
              if 0 <? direction then
                let! currentDate := addDays currentDate 1 in
                let! _ :=
                  setHours currentDate (startHour normalized)
                    (startMinute normalized) in
                let! currentDate :=
                  moveToWorkingTime normalized currentDate direction in
                consumeLoop fuel' normalized direction currentDate
                  remainingMinutes iterations
              else
                let! currentDate := addDays currentDate (-1) in
                let! _ :=
                  setHours currentDate (endHour normalized)
                    (endMinute normalized) in
                let! currentDate :=
                  moveToWorkingTime normalized currentDate direction in
                consumeLoop fuel' normalized direction currentDate
                  remainingMinutes iterations
        | _, _ =>
            let! currentDate := addDays currentDate direction in
            let! currentDate :=
              moveToWorkingTime normalized currentDate direction in
            consumeLoop fuel' normalized direction currentDate
              remainingMinutes iterations
        end
      else ret (currentDate, iterations)
  end.

Definition addBusinessHours (date : ref) (amount : JSNumber)
    (options : BusinessHoursOptions) : M ref :=
  let! _date := toDate date in
  let! value := getTime _date in
  match value with
  | None => constructFrom None
  | Some _ =>
      match amount with
      | Finite q =>
          if Qeq_bool q 0 then
            let! value := getTime _date in
            constructFrom value
          else
            let! normalized := lift (normalizeBusinessHoursOptions options) in
            let remainingMinutes := (q * 60)%Q in
            let direction := if Qle_bool 0 remainingMinutes then 1 else -1 in
            let remainingMinutes := Finite (Qabs remainingMinutes) in
            let! currentDate := copyDate _date in
            let! currentDate :=
              moveToWorkingTime normalized currentDate direction in
            let! exit_ :=
              consumeLoop (S (Z.to_nat maxIterations)) normalized direction
                currentDate remainingMinutes 0 in
            let currentDate := fst exit_ in
            let iterations := snd exit_ in
            if maxIterations <=? iterations
            then throw MaxIterationsExceeded
            else
              let! value := getTime currentDate in
              constructFrom value
      | _ => constructFrom None
      end
  end.

(** *** A store against the value model *)

(** The object [r] holds the valid time value [t]. *)
Definition cell (h : heap) (r : ref) (t : Z) : Prop :=
  h !! r = Some (Some t).

(** A run of the store model against an outcome of the value model. *)
Definition agrees {A : Type} (h' : heap) (o' : Outcome (ref * A))
    (o : Outcome (Z * A)) : Prop :=
  match o, o' with
  | Returns (t, a), Returns (r, a') => a' = a /\ cell h' r t
  | Throws e, Throws e' => e' = e
  | Diverges, Diverges => True
  | _, _ => False
  end.

(** From [h], the run [m] keeps every object of [h] as it is and ends as
    the value model does. *)
Definition simulates {A : Type} (m : M (ref * A)) (h : heap)
    (o : Outcome (Z * A)) : Prop :=
  exists h' o', m h = (h', o') /\ h `prefix_of` h' /\ agrees h' o' o.

(** The same, for a run that returns one object. *)
Definition agrees1 (h' : heap) (o' : Outcome ref) (o : Outcome Z) : Prop :=
  match o, o' with
  | Returns t, Returns r => cell h' r t
  | Throws e, Throws e' => e' = e
  | Diverges, Diverges => True
  | _, _ => False
  end.

(** The outcome of a run against the outcome of the value model: the
    object returned is a new one, which holds the value. *)
Definition returnsNew (h h' : heap) (o' : Outcome ref)
    (o : Outcome TimeValue) : Prop :=
  match o, o' with
  | Returns v, Returns r' => h' !! r' = Some v /\ (length h <= r')%nat
  | Throws e, Throws e' => e' = e
  | Diverges, Diverges => True
  | _, _ => False
  end.

End Store.

(** * Vocabulary of the properties *)

(** An amount of [h] hours. *)
Definition hours (h : Z) : JSNumber := ofInt h.

(** The minute of the day as [isWithinBusinessHours] computes it. *)
Definition minuteOfDay (t : Z) : Z := Date.getHours t * 60 + Date.getMinutes t.

(** The two ends of the daily window, in minutes after midnight. *)
Definition startMinuteOfDay (n : NormalizedBusinessHoursOptions) : Z :=
  startHour n * 60 + startMinute n.

Definition endMinuteOfDay (n : NormalizedBusinessHoursOptions) : Z :=
  endHour n * 60 + endMinute n.

(** What the specification calls a time string of two numeric fields: two
    fields around one colon, each a non-empty run of decimal digits. *)
Fixpoint allDigits (s : string) : bool :=
  match s with
  | EmptyString => true
  | String c rest =>
      match digitValue c with
      | Some _ => allDigits rest
      | None => false
      end
  end.

Definition spec_numericField (s : string) : bool :=
  match s with
  | EmptyString => false
  | _ => allDigits s
  end.

Definition spec_twoNumericFields (s : string) : bool :=
  match split ":" s with
  | [p0; p1] => spec_numericField p0 && spec_numericField p1
  | _ => false
  end.

(** A configuration as normalization lets it through. *)
Record validConfig (n : NormalizedBusinessHoursOptions) : Prop := {
  valid_startHour : 0 <= startHour n <= 23;
  valid_startMinute : 0 <= startMinute n <= 59;
  valid_endHour : 0 <= endHour n <= 23;
  valid_endMinute : 0 <= endMinute n <= 59;
  valid_order : startMinuteOfDay n < endMinuteOfDay n;
  valid_workingDays : forallb validWorkingDay (workingDays n) = true;
  valid_nonempty : workingDays n <> []
}.

(** Options that normalization rejects: the day ends before it starts and
    the working days are out of range. *)
Definition malformedOptions : BusinessHoursOptions :=
  {| opt_startOfDay := Some (TimeString "17:00");
     opt_endOfDay := Some (TimeString "09:00");
     opt_workingDays := Some (IsArray [ofInt 7; ofInt 8]);
     opt_holidays := None |}.

(** Default options with one holiday, entered at 23:30 on 2 January 2023. *)
Definition januarySecondOff : BusinessHoursOptions :=
  {| opt_startOfDay := None; opt_endOfDay := None; opt_workingDays := None;
     opt_holidays := Some (IsArray [Some (Date.make 2023 0 2 23 30)]) |}.

(** A day on which [moveToWorkingTime] steps to the neighbouring day. *)
Definition nonWorking (n : NormalizedBusinessHoursOptions) (t : Z) : bool :=
  negb (isWorkingDay t (workingDays n)) || isHoliday t (holidays n).

(** What an outcome of the walk may be: a value, or the advance-limit
    error. *)
Definition walkOutcome {A : Type} (o : Outcome A) : Prop :=
  match o with
  | Returns _ => True
  | Throws e => e = NoWorkingTimeInRange
  | Diverges => False
  end.

(** Every day from 365 days before [t] to 365 days after it is closed: the
    whole reach of one run of the snap loop, in both directions. *)
Definition horizonClosed (n : NormalizedBusinessHoursOptions) (t : Z) : bool :=
  forallb (fun k => nonWorking n (DateFns.addDays t (Z.of_nat k - 365)))
    (seq 0 731).

(** A year of holidays on either side of 2 January 2023. *)
Definition closedYears : BusinessHoursOptions :=
  {| opt_startOfDay := None; opt_endOfDay := None; opt_workingDays := None;
     opt_holidays :=
       Some (IsArray
               (map (fun k => Some (Date.make 2023 0 2 0 0
                                    + (Z.of_nat k - 365) * msPerDay))
                  (seq 0 731))) |}.

(** What normalization makes of [closedYears]. *)
Definition closedYearsNormalized : NormalizedBusinessHoursOptions :=
  {| startHour := 9; startMinute := 0; endHour := 17; endMinute := 0;
     workingDays := map ofInt [1; 2; 3; 4; 5];
     holidays :=
       map (fun k => Some (Date.make 2023 0 2 0 0
                           + (Z.of_nat k - 365) * msPerDay))
         (seq 0 731) |}.

(** The minutes left in the window of [c] in the direction of travel. *)
Definition availableMinutes (n : NormalizedBusinessHoursOptions)
    (direction c : Z) : Q :=
  if 0 <? direction
  then (inject_Z (Date.setHours c (endHour n) (endMinute n) - c)
        / inject_Z (1000 * 60))%Q
  else (inject_Z (c - Date.setHours c (startHour n) (startMinute n))
        / inject_Z (1000 * 60))%Q.

(** The end of the window three days before an instant at 09:00: Friday
    17:00 for a Monday. *)
Definition friday17 (t : Z) : Z := t - 3 * msPerDay + 8 * msPerHour.

(** The boundary of the neighbouring day from which the walk goes on. *)
Definition nextBoundary (n : NormalizedBusinessHoursOptions)
    (direction c : Z) : Z :=
  if 0 <? direction
  then Date.setHours (DateFns.addDays c 1) (startHour n) (startMinute n)
  else Date.setHours (DateFns.addDays c (-1)) (endHour n) (endMinute n).

(** What normalization makes of absent options: 09:00 to 17:00, Monday to
    Friday, no holiday. *)
Definition defaultNormalized : NormalizedBusinessHoursOptions :=
  {| startHour := 9; startMinute := 0; endHour := 17; endMinute := 0;
     workingDays := map ofInt [1; 2; 3; 4; 5]; holidays := [] |}.

(** [milliseconds / (1000 * 60 * 60)]. *)
Definition msToHours (ms : Z) : Q :=
  (inject_Z ms / inject_Z (1000 * 60 * 60))%Q.

(** The two ends of the daily window, in milliseconds after midnight. *)
Definition startMs (n : NormalizedBusinessHoursOptions) : Z :=
  startHour n * msPerHour + startMinute n * msPerMinute.

Definition endMs (n : NormalizedBusinessHoursOptions) : Z :=
  endHour n * msPerHour + endMinute n * msPerMinute.

(** The milliseconds day [k] shares with the interval from [s] to [e]. *)
Definition dayOverlapMs (n : NormalizedBusinessHoursOptions) (s e k : Z) : Z :=
  if nonWorking n (k * msPerDay) then 0
  else Z.max 0 (Z.min e (k * msPerDay + endMs n)
                - Z.max s (k * msPerDay + startMs n)).

(** The sum of [f] over the [count] days from day [k] on. *)
Fixpoint sumDays (f : Z -> Z) (count : nat) (k : Z) : Z :=
  match count with
  | O => 0
  | S count' => f k + sumDays f count' (k + 1)
  end.

(** The two ends of the window of the day of [t]. *)
Definition windowStart (n : NormalizedBusinessHoursOptions) (t : Z) : Z :=
  Date.setHours t (startHour n) (startMinute n).

Definition windowEnd (n : NormalizedBusinessHoursOptions) (t : Z) : Z :=
  Date.setHours t (endHour n) (endMinute n).

(** [t] is on an open day, between the two ends of its window, the end
    included. *)
Definition inWindow (n : NormalizedBusinessHoursOptions) (t : Z) : Prop :=
  nonWorking n t = false /\ windowStart n t <= t <= windowEnd n t.

(** The milliseconds of business time from [a] to [c]: the sum the day loop
    of [businessHoursInInterval] builds, before the division into hours. *)
Definition businessMs (n : NormalizedBusinessHoursOptions) (a c : Z) : Z :=
  sumDays (dayOverlapMs n a c)
    (Z.to_nat (Date.dayNumber c + 1 - Date.dayNumber a)) (Date.dayNumber a).

(** A number below 100 written with two decimal digits, and a time of day
    written as the options expect it. *)
Definition twoDigits (k : nat) : string :=
  String (ascii_of_nat (48 + k / 10))
    (String (ascii_of_nat (48 + k mod 10)) EmptyString).

Definition timeString (h m : nat) : string :=
  (twoDigits h ++ ":" ++ twoDigits m)%string.

(** Options that differ from [opts] by their holidays only. *)
Definition withHolidays (opts : BusinessHoursOptions)
    (hs : list TimeValue) : BusinessHoursOptions :=
  {| opt_startOfDay := opt_startOfDay opts;
     opt_endOfDay := opt_endOfDay opts;
     opt_workingDays := opt_workingDays opts;
     opt_holidays := Some (IsArray hs) |}.

(** [b] is not behind [a] in the direction of travel. *)
Definition ahead (dir a b : Z) : Prop :=
  if 0 <? dir then a <= b else b <= a.

(** Where the snap phase may stop: on an open day, at or after the start of
    the window, and before its end when walking forward, at or before its
    end when walking backward. *)
Definition snapped (n : NormalizedBusinessHoursOptions) (dir t : Z) : Prop :=
  nonWorking n t = false
  /\ windowStart n t <= t
  /\ if 0 <? dir then t < windowEnd n t else t <= windowEnd n t.

(** The business time crossed when going from [a] to [b] in the direction
    of travel, in milliseconds. *)
Definition walked (n : NormalizedBusinessHoursOptions) (dir a b : Z) : Z :=
  if 0 <? dir then businessMs n a b else businessMs n b a.

(** The minutes available, in milliseconds. *)
Definition availableMs (n : NormalizedBusinessHoursOptions)
    (dir cur : Z) : Z :=
  if 0 <? dir then windowEnd n cur - cur else cur - windowStart n cur.

(** Where the consuming phase may stop after crossing some business time:
    in the window of an open day, past its start when walking forward,
    before its end when walking backward. *)
Definition landed (n : NormalizedBusinessHoursOptions) (dir t : Z) : Prop :=
  inWindow n t
  /\ if 0 <? dir then windowStart n t < t else t < windowEnd n t.

(** Every run of [w] consecutive days has a day with a window. *)
Definition opensWithin (n : NormalizedBusinessHoursOptions) (w : Z) : Prop :=
  forall x, exists k,
    0 <= k < w /\ nonWorking n (DateFns.addDays x k) = false.

(** The end of the window of its day at which the walk enters the day: the
    start when walking forward, the end when walking backward. *)
Definition atBoundary (n : NormalizedBusinessHoursOptions) (dir t : Z)
  : Prop :=
  t = if 0 <? dir then windowStart n t else windowEnd n t.

(** A time value in the range of ECMAScript: at most 8.64e15 ms on either
    side of the epoch. *)
Definition validTime (t : Z) : Prop := Z.abs t <= 8640000000000000.

(** * Properties *)

(** ** The tests of the repository, replayed on the model *)

Example test_within_default_hours :
  isWithinBusinessHours (Some (Date.make 2023 0 3 10 0)) noOptions
  = Returns true
  /\ isWithinBusinessHours (Some (Date.make 2023 0 3 16 59)) noOptions
     = Returns true
  /\ isWithinBusinessHours (Some (Date.make 2023 0 3 17 0)) noOptions
     = Returns false
  /\ isWithinBusinessHours (Some (Date.make 2023 0 3 8 0)) noOptions
     = Returns false
  /\ isWithinBusinessHours (Some (Date.make 2023 0 7 10 0)) noOptions
     = Returns false
  /\ isWithinBusinessHours (Some (Date.make 2023 0 8 10 0)) noOptions
     = Returns false.
Proof. repeat split. Qed.

Example test_interval_three_days :
  exists x,
    businessHoursInInterval (Some (Date.make 2023 0 2 9 0))
      (Some (Date.make 2023 0 4 17 0)) noOptions = Returns x
    /\ (x == 24)%Q.
Proof. eexists. split; [vm_compute; reflexivity|reflexivity]. Qed.

Example test_interval_partial_day :
  exists x,
    businessHoursInInterval (Some (Date.make 2023 0 2 10 0))
      (Some (Date.make 2023 0 2 15 30)) noOptions = Returns x
    /\ (x == 11 # 2)%Q.
Proof. eexists. split; [vm_compute; reflexivity|reflexivity]. Qed.

Example test_interval_over_weekend :
  exists x,
    businessHoursInInterval (Some (Date.make 2023 0 6 14 0))
      (Some (Date.make 2023 0 8 10 0)) noOptions = Returns x
    /\ (x == 3)%Q.
Proof. eexists. split; [vm_compute; reflexivity|reflexivity]. Qed.

Example test_add_crossing_weekend :
  addBusinessHours (Some (Date.make 2023 0 6 15 0)) (hours 4) noOptions
  = Returns (Some (Date.make 2023 0 9 11 0)).
Proof. vm_compute. reflexivity. Qed.

Example test_add_fifty_hours :
  addBusinessHours (Some (Date.make 2023 0 2 9 0)) (hours 50) noOptions
  = Returns (Some (Date.make 2023 0 10 11 0)).
Proof. vm_compute. reflexivity. Qed.

Example test_subtract_crossing_weekend :
  addBusinessHours (Some (Date.make 2023 0 9 11 0)) (hours (-4)) noOptions
  = Returns (Some (Date.make 2023 0 6 15 0)).
Proof. vm_compute. reflexivity. Qed.

Example test_add_fraction :
  addBusinessHours (Some (Date.make 2023 0 2 10 0)) (Finite (3 # 2)) noOptions
  = Returns (Some (Date.make 2023 0 2 11 30)).
Proof. vm_compute. reflexivity. Qed.

Example test_add_after_hours :
  addBusinessHours (Some (Date.make 2023 0 2 19 0)) (hours 3) noOptions
  = Returns (Some (Date.make 2023 0 3 12 0)).
Proof. vm_compute. reflexivity. Qed.

Example test_add_over_holiday :
  addBusinessHours (Some (Date.make 2023 0 2 15 0)) (hours 10)
    {| opt_startOfDay := None; opt_endOfDay := None;
       opt_workingDays := None;
       opt_holidays := Some (IsArray [Some (Date.make 2023 0 3 0 0)]) |}
  = Returns (Some (Date.make 2023 0 4 17 0)).
Proof. vm_compute. reflexivity. Qed.

(** The same run on the store: the caller's object is cell 0 and the result
    is a new cell. *)
Example test_store_crossing_weekend :
  exists h',
    Store.addBusinessHours 0%nat (hours 4) noOptions
      [Some (Date.make 2023 0 6 15 0)] = (h', Returns 17%nat)
    /\ h' !! 0%nat = Some (Some (Date.make 2023 0 6 15 0))
    /\ h' !! 17%nat = Some (Some (Date.make 2023 0 9 11 0)).
Proof. eexists. split; [vm_compute; reflexivity|]. split; reflexivity. Qed.

(** ** Calendar arithmetic *)

Ltac unfold_ms := unfold msPerDay, msPerHour, msPerMinute in *.

Ltac unfold_date :=
  unfold Date.setHours, Date.getDay, Date.getHours, Date.getMinutes,
    Date.msOfDay, Date.dayNumber, DateFns.startOfDay, DateFns.addDays,
    DateFns.isBefore, DateFns.isAfter, DateFns.max, DateFns.min in *;
  unfold_ms.

Lemma dayNumber_bounds (t : Z) :
  Date.dayNumber t * msPerDay <= t < Date.dayNumber t * msPerDay + msPerDay.
Proof. unfold_date. Z.div_mod_to_equations. lia. Qed.

Lemma dayNumber_unique (t d : Z) :
  d * msPerDay <= t < d * msPerDay + msPerDay -> Date.dayNumber t = d.
Proof. unfold_date. intros H. Z.div_mod_to_equations. lia. Qed.

Lemma dayNumber_addDays (t k : Z) :
  Date.dayNumber (DateFns.addDays t k) = Date.dayNumber t + k.
Proof.
  apply dayNumber_unique. pose proof (dayNumber_bounds t).
  unfold DateFns.addDays. lia.
Qed.

Lemma dayNumber_startOfDay (t : Z) :
  Date.dayNumber (DateFns.startOfDay t) = Date.dayNumber t.
Proof.
  apply dayNumber_unique. unfold DateFns.startOfDay. unfold_ms. lia.
Qed.

Lemma dayNumber_setHours (t h m : Z) :
  0 <= h <= 23 -> 0 <= m <= 59 ->
  Date.dayNumber (Date.setHours t h m) = Date.dayNumber t.
Proof.
  intros Hh Hm. apply dayNumber_unique. unfold Date.setHours. unfold_ms. lia.
Qed.

Lemma isSameDay_iff (a b : Z) :
  DateFns.isSameDay a (Some b) = true <-> Date.dayNumber a = Date.dayNumber b.
Proof.
  unfold DateFns.isSameDay, DateFns.startOfDay. rewrite Z.eqb_eq.
  unfold_ms. lia.
Qed.

(** Every function of the day alone agrees on two instants of one day. *)
Lemma isHoliday_same_day (a b : Z) (hs : list TimeValue) :
  Date.dayNumber a = Date.dayNumber b -> isHoliday a hs = isHoliday b hs.
Proof.
  intros H. unfold isHoliday. induction hs as [|x hs IH]; [reflexivity|].
  cbn [existsb]. rewrite IH. f_equal.
  unfold DateFns.isSameDay, DateFns.startOfDay. now rewrite H.
Qed.

Lemma isWorkingDay_same_day (a b : Z) (wd : list JSNumber) :
  Date.dayNumber a = Date.dayNumber b -> isWorkingDay a wd = isWorkingDay b wd.
Proof. intros H. unfold isWorkingDay, Date.getDay. now rewrite H. Qed.

Lemma isHoliday_In (d th : Z) (hs : list TimeValue) :
  In (Some th) hs -> Date.dayNumber d = Date.dayNumber th ->
  isHoliday d hs = true.
Proof.
  intros Hin Hday. unfold isHoliday. apply existsb_exists.
  exists (Some th). split; [exact Hin|]. now apply isSameDay_iff.
Qed.

(** ** Normalization *)

Lemma parseTimeString_range (time : TimeArg) (h m : Z) :
  parseTimeString time = Returns (h, m) -> 0 <= h <= 23 /\ 0 <= m <= 59.
Proof.
  unfold parseTimeString. destruct time as [s|]; [|discriminate].
  destruct (split ":" s) as [|p0 [|p1 [|p2 ps]]]; try discriminate.
  destruct (parseInt p0) as [x|]; [|discriminate].
  destruct (parseInt p1) as [y|]; [|discriminate].
  destruct ((x <? 0) || (23 <? x) || (y <? 0) || (59 <? y)) eqn:E;
    [discriminate|].
  intros [= <- <-]. repeat (apply orb_false_elim in E; destruct E as [E ?]).
  lia.
Qed.

Lemma parseTimeString_throws (time : TimeArg) (e : Error) :
  parseTimeString time = Throws e -> isConfigError e = true.
Proof.
  unfold parseTimeString. destruct time as [s|]; [|now intros [= <-]].
  destruct (split ":" s) as [|p0 [|p1 [|p2 ps]]]; try now intros [= <-].
  destruct (parseInt p0) as [x|]; [|now intros [= <-]].
  destruct (parseInt p1) as [y|]; [|now intros [= <-]].
  destruct ((x <? 0) || (23 <? x) || (y <? 0) || (59 <? y));
    [now intros [= <-]|discriminate].
Qed.

Lemma parseTimeString_converges (time : TimeArg) :
  parseTimeString time <> Diverges.
Proof.
  unfold parseTimeString. destruct time as [s|]; [|discriminate].
  destruct (split ":" s) as [|p0 [|p1 [|p2 ps]]]; try discriminate.
  destruct (parseInt p0) as [x|]; [|discriminate].
  destruct (parseInt p1) as [y|]; [|discriminate].
  destruct ((x <? 0) || (23 <? x) || (y <? 0) || (59 <? y)); discriminate.
Qed.

Ltac normalize_cases H :=
  unfold normalizeBusinessHoursOptions in H;
  match type of H with
  | context [parseTimeString ?a] =>
      let Es := fresh "Es" in
      destruct (parseTimeString a) as [[sh sm]| |] eqn:Es; cbn [bind] in H
  end;
  [ match type of H with
    | context [parseTimeString ?a] =>
        let Ee := fresh "Ee" in
        destruct (parseTimeString a) as [[eh em]| |] eqn:Ee; cbn [bind] in H
    end;
    [ cbn [fst snd] in H | | ]
  | | ].

Lemma normalize_valid (opts : BusinessHoursOptions)
    (n : NormalizedBusinessHoursOptions) :
  normalizeBusinessHoursOptions opts = Returns n -> validConfig n.
Proof.
  intros H. normalize_cases H; try discriminate.
  destruct ((eh <? sh) || ((eh =? sh) && (em <=? sm))) eqn:Eord;
    [discriminate|].
  destruct (default (IsArray (map ofInt [1; 2; 3; 4; 5]))
              (opt_workingDays opts)) as [[|d ds]|]; try discriminate.
  destruct (forallb validWorkingDay (d :: ds)) eqn:Ewd; [|discriminate].
  destruct (default (IsArray []) (opt_holidays opts)) as [hs|];
    [|discriminate].
  injection H as <-.
  apply parseTimeString_range in Es, Ee.
  apply orb_false_elim in Eord. destruct Eord as [E1 E2].
  constructor; cbn; unfold startMinuteOfDay, endMinuteOfDay; cbn;
    try tauto; try assumption; try discriminate.
  apply andb_false_iff in E2. lia.
Qed.

Lemma normalize_throws (opts : BusinessHoursOptions) (e : Error) :
  normalizeBusinessHoursOptions opts = Throws e -> isConfigError e = true.
Proof.
  intros H. normalize_cases H.
  - destruct ((eh <? sh) || ((eh =? sh) && (em <=? sm)));
      [now injection H as <-|].
    destruct (default (IsArray (map ofInt [1; 2; 3; 4; 5]))
                (opt_workingDays opts)) as [[|d ds]|];
      try now injection H as <-.
    destruct (forallb validWorkingDay (d :: ds)); [|now injection H as <-].
    destruct (default (IsArray []) (opt_holidays opts)) as [hs|];
      [discriminate|now injection H as <-].
  - injection H as <-. eapply parseTimeString_throws; eassumption.
  - discriminate.
  - injection H as <-. eapply parseTimeString_throws; eassumption.
  - discriminate.
Qed.

Lemma normalize_converges (opts : BusinessHoursOptions) :
  normalizeBusinessHoursOptions opts <> Diverges.
Proof.
  intros H. normalize_cases H.
  - destruct ((eh <? sh) || ((eh =? sh) && (em <=? sm))); [discriminate|].
    destruct (default (IsArray (map ofInt [1; 2; 3; 4; 5]))
                (opt_workingDays opts)) as [[|d ds]|]; try discriminate.
    destruct (forallb validWorkingDay (d :: ds)); [|discriminate].
    destruct (default (IsArray []) (opt_holidays opts)); discriminate.
  - discriminate.
  - now apply parseTimeString_converges in Ee.
  - discriminate.
  - now apply parseTimeString_converges in Es.
Qed.

(** ** [parseTimeString] *)

(** C7, as the specification words it, fails: a string of two fields that are
    not numeric is not rejected with the format error but with the value
    error. *)
Lemma parseTimeString_format_counterexample :
  spec_twoNumericFields "ab:cd" = false
  /\ parseTimeString (TimeString "ab:cd") = Throws (InvalidTimeValue "ab:cd")
  /\ parseTimeString (TimeString "ab:cd")
     <> Throws (InvalidTimeFormat "ab:cd").
Proof. split; [reflexivity|split; [reflexivity|discriminate]]. Qed.

(** C7 (amended): the two failures are told apart by the number of fields.
    The format error is raised exactly when splitting on the colon does not
    give two fields.  With two fields the value error, another [RangeError]
    with another message, is raised when [parseInt] finds no number at the
    head of a field, or when the hour read is outside 0-23 or the minute read
    outside 0-59. *)
Theorem parseTimeString_errors (s : string) :
  (parseTimeString (TimeString s) = Throws (InvalidTimeFormat s)
   <-> length (split ":" s) <> 2%nat)
  /\ (forall p0 p1, split ":" s = [p0; p1] ->
      (parseInt p0 = None \/ parseInt p1 = None
       \/ exists h m, parseInt p0 = Some h /\ parseInt p1 = Some m
                      /\ ~ (0 <= h <= 23 /\ 0 <= m <= 59)) ->
      parseTimeString (TimeString s) = Throws (InvalidTimeValue s))
  /\ InvalidTimeFormat s <> InvalidTimeValue s
  /\ errorClass (InvalidTimeFormat s) = RangeError
  /\ errorClass (InvalidTimeValue s) = RangeError.
Proof.
  split; [|split; [|repeat split; discriminate]].
  - unfold parseTimeString.
    destruct (split ":" s) as [|p0 [|p1 [|p2 ps]]]; cbn [length];
      try (split; [intros _; lia | reflexivity]).
    split; [|lia].
    destruct (parseInt p0), (parseInt p1); try discriminate.
    destruct (_ || _); discriminate.
  - intros p0 p1 Hs H. unfold parseTimeString. rewrite Hs.
    destruct (parseInt p0) as [h|] eqn:E0; [|reflexivity].
    destruct (parseInt p1) as [m|] eqn:E1; [|reflexivity].
    destruct ((h <? 0) || (23 <? h) || (m <? 0) || (59 <? m)) eqn:E;
      [reflexivity|].
    exfalso.
    destruct H as [H|[H|(h' & m' & [= <-] & [= <-] & H)]]; try discriminate.
    apply H. repeat (apply orb_false_elim in E; destruct E as [E ?]). lia.
Qed.

Lemma parseTimeString_errors_witness :
  parseTimeString (TimeString "25:00") = Throws (InvalidTimeValue "25:00")
  /\ parseTimeString (TimeString "12:61") = Throws (InvalidTimeValue "12:61")
  /\ parseTimeString (TimeString "12:30:00")
     = Throws (InvalidTimeFormat "12:30:00").
Proof.
  split; [|split].
  - apply (parseTimeString_errors "25:00") with (p0 := "25"%string)
                                                (p1 := "00"%string);
      [reflexivity|].
    right. right. exists 25, 0. split; [reflexivity|]. split; [reflexivity|].
    lia.
  - apply (parseTimeString_errors "12:61") with (p0 := "12"%string)
                                                (p1 := "61"%string);
      [reflexivity|].
    right. right. exists 12, 61. split; [reflexivity|]. split; [reflexivity|].
    lia.
  - apply (parseTimeString_errors "12:30:00"). cbn. lia.
Defined.

(** ** [isWithinBusinessHours] *)

(** C3: on a valid configuration the test answers, and answers true exactly
    for a valid instant on a working day that is no holiday, with its minute
    of the day in the half-open window; with the default times 09:00 and
    17:00, minute 540 of such a day is inside and minute 1020 is outside. *)
Theorem isWithinBusinessHours_iff (d : TimeValue)
    (opts : BusinessHoursOptions) (n : NormalizedBusinessHoursOptions) :
  normalizeBusinessHoursOptions opts = Returns n ->
  exists b : bool,
    isWithinBusinessHours d opts = Returns b
    /\ (b = true <->
        exists t, d = Some t
                  /\ isWorkingDay t (workingDays n) = true
                  /\ isHoliday t (holidays n) = false
                  /\ startMinuteOfDay n <= minuteOfDay t < endMinuteOfDay n)
    /\ (opt_startOfDay opts = None -> opt_endOfDay opts = None ->
        forall t, d = Some t ->
                  isWorkingDay t (workingDays n) = true ->
                  isHoliday t (holidays n) = false ->
                  (minuteOfDay t = 540 -> b = true)
                  /\ (minuteOfDay t = 1020 -> b = false)).
Proof.
  intros Hn. unfold isWithinBusinessHours. destruct d as [t|].
  - rewrite Hn. cbn [bind].
    fold (minuteOfDay t) (startMinuteOfDay n) (endMinuteOfDay n).
    assert (Hdef : opt_startOfDay opts = None -> opt_endOfDay opts = None ->
                   startMinuteOfDay n = 540 /\ endMinuteOfDay n = 1020).
    { intros Hs He. unfold normalizeBusinessHoursOptions in Hn.
      rewrite Hs, He in Hn. cbn [default] in Hn.
      change (parseTimeString (TimeString "09:00")) with (Returns (9, 0)) in Hn.
      change (parseTimeString (TimeString "17:00")) with (Returns (17, 0))
        in Hn.
      cbn [bind fst snd] in Hn.
      change ((17 <? 9) || (17 =? 9) && (0 <=? 0)) with false in Hn.
      cbv iota in Hn.
      destruct (default _ (opt_workingDays opts)) as [[|x xs]|];
        try discriminate.
      destruct (forallb validWorkingDay (x :: xs)); [|discriminate].
      destruct (default _ (opt_holidays opts)); [|discriminate].
      injection Hn as <-. split; reflexivity. }
    destruct (isWorkingDay t (workingDays n)) eqn:Ew; cbn [negb].
    + destruct (isHoliday t (holidays n)) eqn:Eh.
      * exists false. split; [reflexivity|]. split.
        -- split; [discriminate|]. intros (t' & [= <-] & _ & Hh & _).
           congruence.
        -- intros _ _ t' [= <-] _ Hh. congruence.
      * eexists. split; [reflexivity|]. split.
        -- rewrite andb_true_iff, Z.leb_le, Z.ltb_lt. split.
           ++ intros H. exists t. auto.
           ++ intros (t' & [= <-] & _ & _ & H). exact H.
        -- intros Hs He t' [= <-] _ _. destruct (Hdef Hs He) as [-> ->].
           split; intros ->; reflexivity.
    + exists false. split; [reflexivity|]. split.
      * split; [discriminate|]. intros (t' & [= <-] & Hw & _). congruence.
      * intros _ _ t' [= <-] Hw. congruence.
  - exists false. split; [reflexivity|]. split.
    + split; [discriminate|]. intros (t & Ht & _). discriminate.
    + intros _ _ t Ht. discriminate.
Qed.

Lemma isWithinBusinessHours_iff_witness :
  isWithinBusinessHours (Some (Date.make 2023 0 3 9 0)) noOptions
  = Returns true.
Proof.
  destruct (isWithinBusinessHours_iff (Some (Date.make 2023 0 3 9 0))
              noOptions _ eq_refl) as (b & Hb & _ & Hdef).
  rewrite Hb. f_equal.
  apply (Hdef eq_refl eq_refl _ eq_refl); reflexivity.
Defined.

(** ** Invalid operands *)

(** C6: an invalid instant makes the membership test false and the offset an
    Invalid Date, and so does an amount that is [NaN] or infinite; nothing is
    thrown, whatever the options are. *)
Theorem invalid_input_propagates (d : TimeValue) (amount : JSNumber)
    (opts : BusinessHoursOptions) :
  isWithinBusinessHours None opts = Returns false
  /\ addBusinessHours None amount opts = Returns None
  /\ addBusinessHours d NaN opts = Returns None
  /\ addBusinessHours d PosInfinity opts = Returns None
  /\ addBusinessHours d NegInfinity opts = Returns None.
Proof. repeat split; try reflexivity; destruct d; reflexivity. Qed.

(** ** [businessHoursInInterval]: the checks on the interval *)

Lemma dayLoop_no_throw (fuel : nat) (n : NormalizedBusinessHoursOptions)
    (start end_ endDay currentDay : Z) (total : Q) (e : Error) :
  dayLoop fuel n start end_ endDay currentDay total <> Throws e.
Proof.
  revert currentDay total.
  induction fuel as [|fuel IH]; intros currentDay total; cbn [dayLoop];
    [discriminate|].
  destruct (DateFns.isBefore currentDay (DateFns.addDays endDay 1));
    [apply IH|discriminate].
Qed.

(** C8: an invalid start, then an invalid end, then a start after the end
    are reported by three different errors, whatever the options are, and an
    interval of two valid instants in order raises none of them. *)
Theorem businessHoursInInterval_interval_errors (s e : Z)
    (end_ : TimeValue) (opts : BusinessHoursOptions) :
  businessHoursInInterval None end_ opts = Throws StartDateInvalid
  /\ businessHoursInInterval (Some s) None opts = Throws EndDateInvalid
  /\ (e < s ->
      businessHoursInInterval (Some s) (Some e) opts = Throws StartAfterEnd)
  /\ (s <= e ->
      forall err, businessHoursInInterval (Some s) (Some e) opts = Throws err ->
                  isIntervalError err = false)
  /\ StartDateInvalid <> EndDateInvalid
  /\ StartDateInvalid <> StartAfterEnd
  /\ EndDateInvalid <> StartAfterEnd.
Proof.
  split; [reflexivity|]. split; [reflexivity|]. split; [|split].
  - intros H. unfold businessHoursInInterval, DateFns.isAfter.
    now replace (e <? s) with true by (symmetry; apply Z.ltb_lt; exact H).
  - intros H err. unfold businessHoursInInterval, DateFns.isAfter.
    replace (e <? s) with false by (symmetry; apply Z.ltb_ge; exact H).
    destruct (normalizeBusinessHoursOptions opts) as [n|e'|] eqn:En;
      cbn [bind].
    + intros Hloop. now apply dayLoop_no_throw in Hloop.
    + intros [= <-]. apply normalize_throws in En.
      destruct e'; try discriminate; reflexivity.
    + discriminate.
  - repeat split; discriminate.
Qed.

Lemma businessHoursInInterval_interval_errors_witness :
  businessHoursInInterval (Some (Date.make 2023 0 4 9 0))
    (Some (Date.make 2023 0 2 17 0)) noOptions = Throws StartAfterEnd
  /\ (forall err,
        businessHoursInInterval (Some (Date.make 2023 0 2 9 0))
          (Some (Date.make 2023 0 2 9 0)) noOptions = Throws err ->
        isIntervalError err = false).
Proof.
  split.
  - apply (businessHoursInInterval_interval_errors
             (Date.make 2023 0 4 9 0) (Date.make 2023 0 2 17 0) None noOptions).
    vm_compute. reflexivity.
  - apply (businessHoursInInterval_interval_errors
             (Date.make 2023 0 2 9 0) (Date.make 2023 0 2 9 0) None noOptions).
    vm_compute. discriminate.
Defined.

(** ** Operand checks come before the options are read *)

(** C10: with options that normalization rejects, an invalid instant still
    makes the membership test false; an invalid instant, an amount that is
    not finite or an amount of zero still make the offset return its Invalid
    Date or its copy; an invalid or inverted interval still raises its
    interval error.  None of these outcomes is the configuration error. *)
Theorem operand_checks_precede_config (opts : BusinessHoursOptions)
    (err : Error) (t s e : Z) (d end_ : TimeValue) (amount : JSNumber) (q : Q) :
  normalizeBusinessHoursOptions opts = Throws err ->
  isWithinBusinessHours None opts = Returns false
  /\ addBusinessHours None amount opts = Returns None
  /\ addBusinessHours d NaN opts = Returns None
  /\ addBusinessHours d PosInfinity opts = Returns None
  /\ addBusinessHours d NegInfinity opts = Returns None
  /\ ((q == 0)%Q ->
      addBusinessHours (Some t) (Finite q) opts = Returns (Some t))
  /\ businessHoursInInterval None end_ opts = Throws StartDateInvalid
  /\ businessHoursInInterval (Some s) None opts = Throws EndDateInvalid
  /\ (e < s ->
      businessHoursInInterval (Some s) (Some e) opts = Throws StartAfterEnd)
  /\ isConfigError err = true
  /\ isConfigError StartDateInvalid = false
  /\ isConfigError EndDateInvalid = false
  /\ isConfigError StartAfterEnd = false
  (* and the checks do matter: without them the options are read *)
  /\ isWithinBusinessHours (Some t) opts = Throws err
  /\ (~ (q == 0)%Q -> addBusinessHours (Some t) (Finite q) opts = Throws err)
  /\ (s <= e -> businessHoursInInterval (Some s) (Some e) opts = Throws err).
Proof.
  intros Hn.
  repeat match goal with |- _ /\ _ => split end;
    try reflexivity; try (destruct d; reflexivity).
  - intros Hq. unfold addBusinessHours.
    now replace (Qeq_bool q 0) with true by (symmetry; now apply Qeq_bool_iff).
  - intros H. unfold businessHoursInInterval, DateFns.isAfter.
    now replace (e <? s) with true by (symmetry; apply Z.ltb_lt; exact H).
  - eapply normalize_throws; eassumption.
  - unfold isWithinBusinessHours. now rewrite Hn.
  - intros Hq. unfold addBusinessHours.
    destruct (Qeq_bool q 0) eqn:E; [now apply Qeq_bool_iff in E|].
    now rewrite Hn.
  - intros H. unfold businessHoursInInterval, DateFns.isAfter.
    replace (e <? s) with false by (symmetry; apply Z.ltb_ge; exact H).
    now rewrite Hn.
Qed.

Lemma operand_checks_precede_config_witness :
  normalizeBusinessHoursOptions malformedOptions = Throws EndNotAfterStart
  /\ addBusinessHours (Some (Date.make 2023 0 2 10 0)) (hours 0)
       malformedOptions
     = Returns (Some (Date.make 2023 0 2 10 0))
  /\ businessHoursInInterval (Some (Date.make 2023 0 4 9 0))
       (Some (Date.make 2023 0 2 17 0)) malformedOptions
     = Throws StartAfterEnd
  /\ addBusinessHours (Some (Date.make 2023 0 2 10 0)) (hours 1)
       malformedOptions
     = Throws EndNotAfterStart
  /\ businessHoursInInterval (Some (Date.make 2023 0 2 9 0))
       (Some (Date.make 2023 0 4 17 0)) malformedOptions
     = Throws EndNotAfterStart.
Proof.
  pose proof (operand_checks_precede_config malformedOptions EndNotAfterStart
                (Date.make 2023 0 2 10 0) (Date.make 2023 0 4 9 0)
                (Date.make 2023 0 2 17 0) None None NaN 0%Q eq_refl) as H.
  pose proof (operand_checks_precede_config malformedOptions EndNotAfterStart
                (Date.make 2023 0 2 10 0) (Date.make 2023 0 2 9 0)
                (Date.make 2023 0 4 17 0) None None NaN 1%Q eq_refl) as H'.
  split; [reflexivity|]. split; [|split; [|split]].
  - apply H. reflexivity.
  - apply H. vm_compute. reflexivity.
  - apply H'. intros E. discriminate E.
  - apply H'. vm_compute. discriminate.
Defined.

(** ** Holidays *)

Lemma getWorkingHours_holiday (n : NormalizedBusinessHoursOptions) (d : Z) :
  isHoliday d (holidays n) = true ->
  getWorkingHoursStart d n = None /\ getWorkingHoursEnd d n = None.
Proof.
  intros H. unfold getWorkingHoursStart, getWorkingHoursEnd. rewrite H.
  now rewrite orb_true_r.
Qed.

Lemma dayLoopFuel_one_day (a c : Z) :
  Date.dayNumber a = Date.dayNumber c ->
  dayLoopFuel (DateFns.startOfDay a) (DateFns.startOfDay c) = 2%nat.
Proof.
  intros H. unfold dayLoopFuel. rewrite !dayNumber_startOfDay, H.
  now replace (Date.dayNumber c - Date.dayNumber c + 2) with 2 by lia.
Qed.

(** C4: a holiday entry removes its whole calendar day, whatever the time of
    day of the entry and of the instant: on every instant [d] of the day of
    an entry [th], [isHoliday] is true, the day has neither a window start
    nor a window end, the membership test is false, the day loop adds nothing
    for that day, and an interval inside that day counts zero hours. *)
Theorem holiday_removes_day (opts : BusinessHoursOptions)
    (n : NormalizedBusinessHoursOptions) (th d : Z) :
  normalizeBusinessHoursOptions opts = Returns n ->
  In (Some th) (holidays n) ->
  Date.dayNumber d = Date.dayNumber th ->
  isHoliday d (holidays n) = true
  /\ getWorkingHoursStart d n = None
  /\ getWorkingHoursEnd d n = None
  /\ isWithinBusinessHours (Some d) opts = Returns false
  /\ (forall start end_ total,
        addDayOverlap n start end_ (DateFns.startOfDay d) total = total)
  /\ (forall c, d <= c -> Date.dayNumber c = Date.dayNumber th ->
        businessHoursInInterval (Some d) (Some c) opts = Returns 0%Q).
Proof.
  intros Hn Hin Hday.
  assert (Hhol : forall x, Date.dayNumber x = Date.dayNumber th ->
                           isHoliday x (holidays n) = true).
  { intros x Hx. eapply isHoliday_In; eassumption. }
  assert (Hover : forall start end_ total,
            addDayOverlap n start end_ (DateFns.startOfDay d) total = total).
  { intros start end_ total. unfold addDayOverlap.
    destruct (getWorkingHours_holiday n (DateFns.startOfDay d)) as [-> _];
      [|reflexivity].
    apply Hhol. now rewrite dayNumber_startOfDay. }
  destruct (getWorkingHours_holiday n d (Hhol d Hday)) as [Hs He].
  repeat match goal with |- _ /\ _ => split end; auto.
  - unfold isWithinBusinessHours. rewrite Hn. cbn [bind].
    rewrite (Hhol d Hday). now destruct (negb _).
  - intros c Hle Hc. unfold businessHoursInInterval, DateFns.isAfter.
    replace (c <? d) with false by (symmetry; apply Z.ltb_ge; exact Hle).
    rewrite Hn. cbn [bind].
    rewrite dayLoopFuel_one_day by congruence.
    cbn [dayLoop]. rewrite Hover.
    assert (E : DateFns.startOfDay c = DateFns.startOfDay d).
    { unfold DateFns.startOfDay. congruence. }
    rewrite E. unfold DateFns.isBefore, DateFns.addDays. unfold_ms.
    replace (_ <? _) with true by (symmetry; apply Z.ltb_lt; lia).
    now replace (_ <? _) with false by (symmetry; apply Z.ltb_ge; lia).
Qed.

Lemma holiday_removes_day_witness :
  isWithinBusinessHours (Some (Date.make 2023 0 2 10 0)) januarySecondOff
  = Returns false
  /\ businessHoursInInterval (Some (Date.make 2023 0 2 10 0))
       (Some (Date.make 2023 0 2 16 0)) januarySecondOff
     = Returns 0%Q.
Proof.
  pose proof (holiday_removes_day januarySecondOff _
                (Date.make 2023 0 2 23 30) (Date.make 2023 0 2 10 0)
                eq_refl (or_introl eq_refl) eq_refl) as H.
  split.
  - apply H.
  - apply H; [vm_compute; discriminate | reflexivity].
Defined.

(** ** [addBusinessHours]: the two bounded loops *)

Lemma nonWorking_same_day (n : NormalizedBusinessHoursOptions) (a b : Z) :
  Date.dayNumber a = Date.dayNumber b -> nonWorking n a = nonWorking n b.
Proof.
  intros H. unfold nonWorking.
  now rewrite (isWorkingDay_same_day a b), (isHoliday_same_day a b).
Qed.

Lemma getWorkingHours_nonWorking (n : NormalizedBusinessHoursOptions) (t : Z) :
  nonWorking n t = true ->
  getWorkingHoursStart t n = None /\ getWorkingHoursEnd t n = None.
Proof.
  unfold nonWorking, getWorkingHoursStart, getWorkingHoursEnd.
  now intros ->.
Qed.

Lemma getWorkingHours_working (n : NormalizedBusinessHoursOptions) (t : Z) :
  nonWorking n t = false ->
  getWorkingHoursStart t n
  = Some (Date.setHours t (startHour n) (startMinute n))
  /\ getWorkingHoursEnd t n
     = Some (Date.setHours t (endHour n) (endMinute n)).
Proof.
  unfold nonWorking, getWorkingHoursStart, getWorkingHoursEnd.
  now intros ->.
Qed.

(** The snap loop leaves through its own test or a [break] before its fuel
    is spent: [maxAttempts - attempts] turns are enough. *)
Lemma moveLoop_returns (fuel : nat) (n : NormalizedBusinessHoursOptions)
    (dir result attempts : Z) :
  (Z.to_nat (maxAttempts - attempts) < fuel)%nat ->
  exists r a, moveLoop fuel n dir result attempts = Returns (r, a)
              /\ (attempts <= maxAttempts -> a <= maxAttempts)
              /\ attempts <= a.
Proof.
  revert result attempts.
  induction fuel as [|fuel IH]; intros result attempts Hfuel; [lia|].
  assert (Hrec : forall r', exists r a,
             attempts < maxAttempts ->
             moveLoop fuel n dir r' (attempts + 1) = Returns (r, a)
             /\ (attempts <= maxAttempts -> a <= maxAttempts)
             /\ attempts <= a).
  { intros r'. destruct (Z.ltb_spec attempts maxAttempts) as [Hlt|Hge].
    - destruct (IH r' (attempts + 1)) as (r & a & E & Hmax & Hle); [lia|].
      exists r, a. intros _. repeat split; [exact E|lia|lia].
    - exists 0, 0. lia. }
  cbn [moveLoop].
  destruct (Z.ltb_spec attempts maxAttempts) as [Hlt|Hge].
  - assert (Hret : forall r' : Z, exists r a : Z,
               @Returns (Z * Z) (r', attempts + 1) = Returns (r, a)
               /\ (attempts <= maxAttempts -> a <= maxAttempts)
               /\ attempts <= a).
    { intros r'. exists r', (attempts + 1). repeat split; lia. }
    repeat match goal with
           | |- context [if ?b then _ else _] => destruct b
           | |- context [match ?o with Some _ => _ | None => _ end] =>
               destruct o
           end;
      try apply Hret;
      match goal with
      | |- context [moveLoop fuel n dir ?r' _] =>
          destruct (Hrec r') as (r & a & H); exists r, a; apply H; exact Hlt
      end.
  - exists result, attempts. repeat split; lia.
Qed.

Lemma moveToWorkingTime_outcome (n : NormalizedBusinessHoursOptions)
    (date dir : Z) :
  walkOutcome (moveToWorkingTime n date dir).
Proof.
  unfold moveToWorkingTime.
  destruct (moveLoop_returns (S (Z.to_nat maxAttempts)) n dir date 0)
    as (r & a & -> & _); [lia|].
  cbn [bind fst snd]. now destruct (maxAttempts <=? a).
Qed.

(** The consuming loop, likewise: [maxIterations - iterations] turns are
    enough, and the only error that crosses it is the advance limit. *)
Lemma consumeLoop_outcome (fuel : nat) (n : NormalizedBusinessHoursOptions)
    (direction currentDate : Z) (remaining : Q) (iterations : Z) :
  (Z.to_nat (maxIterations - iterations) < fuel)%nat ->
  walkOutcome
    (consumeLoop fuel n direction currentDate remaining iterations).
Proof.
  revert currentDate remaining iterations.
  induction fuel as [|fuel IH]; intros currentDate remaining iterations Hfuel;
    [lia|].
  cbn [consumeLoop].
  destruct (negb (Qle_bool remaining 0)); cbn [andb]; [|exact I].
  destruct (Z.ltb_spec iterations maxIterations) as [Hlt|Hge]; [|exact I].
  assert (Hrec : forall c r,
             walkOutcome (consumeLoop fuel n direction c r (iterations + 1))).
  { intros c r. apply IH. lia. }
  assert (Hmove : forall x,
             walkOutcome
               (let* c := moveToWorkingTime n x direction in
                consumeLoop fuel n direction c
                  (remaining
                   - (if 0 <? direction
                      then inject_Z (Date.setHours currentDate (endHour n)
                                       (endMinute n) - currentDate)
                           / inject_Z (1000 * 60)
                      else inject_Z (currentDate
                                     - Date.setHours currentDate (startHour n)
                                         (startMinute n))
                           / inject_Z (1000 * 60)))%Q
                  (iterations + 1))).
  { intros x. pose proof (moveToWorkingTime_outcome n x direction) as Hx.
    destruct (moveToWorkingTime n x direction); cbn [bind];
      [apply Hrec|exact Hx|exact Hx]. }
  destruct (nonWorking n currentDate) eqn:Eoff.
  - destruct (getWorkingHours_nonWorking n currentDate Eoff) as [-> _].
    pose proof (moveToWorkingTime_outcome n
                  (DateFns.addDays currentDate direction) direction) as Hx.
    destruct (moveToWorkingTime n _ direction); cbn [bind];
      [apply Hrec|exact Hx|exact Hx].
  - destruct (getWorkingHours_working n currentDate Eoff) as [-> ->].
    destruct (Qle_bool remaining _); [apply Hrec|].
    destruct (0 <? direction) eqn:Edir; apply Hmove.
Qed.

Lemma horizonClosed_day (n : NormalizedBusinessHoursOptions) (t x : Z) :
  horizonClosed n t = true ->
  -366 < Date.dayNumber x - Date.dayNumber t < 366 ->
  nonWorking n x = true.
Proof.
  intros H Hx. unfold horizonClosed in H. rewrite forallb_forall in H.
  specialize (H (Z.to_nat (Date.dayNumber x - Date.dayNumber t + 365))).
  rewrite <- H.
  - apply nonWorking_same_day. rewrite dayNumber_addDays. lia.
  - apply in_seq. lia.
Qed.

Lemma moveLoop_all_closed (fuel : nat) (n : NormalizedBusinessHoursOptions)
    (dir result attempts : Z) :
  validConfig n -> dir = 1 \/ dir = -1 ->
  0 <= attempts <= maxAttempts ->
  (Z.to_nat (maxAttempts - attempts) < fuel)%nat ->
  (forall k x, 0 <= k < maxAttempts - attempts ->
               Date.dayNumber x = Date.dayNumber result + dir * k ->
               nonWorking n x = true) ->
  exists r, moveLoop fuel n dir result attempts = Returns (r, maxAttempts).
Proof.
  intros Hv Hdir. revert result attempts.
  induction fuel as [|fuel IH]; intros result attempts Ha Hfuel Hoff; [lia|].
  cbn [moveLoop]. destruct (Z.ltb_spec attempts maxAttempts) as [Hlt|Hge].
  - fold (nonWorking n result).
    rewrite (Hoff 0 result) by lia.
    apply IH; [lia|lia|].
    intros k x Hk Hx. apply (Hoff (k + 1)); [lia|].
    rewrite Hx. unfold setBoundary. destruct Hv.
    rewrite dayNumber_setHours, dayNumber_addDays;
      [lia|destruct (0 <? dir); assumption..].
  - exists result. repeat f_equal. lia.
Qed.

(** C5: on a valid instant, a finite amount other than zero and a valid
    configuration, [addBusinessHours] ends.  The snap loop is left within
    its 366 attempts and the consuming loop within its 10000 turns, the fuel
    each is run on; the call returns an instant or throws one of the two
    limit errors, both of class [RangeError]; and when every day of the
    search horizon is closed the call throws the advance-limit error. *)
Theorem addBusinessHours_terminates (t : Z) (q : Q)
    (opts : BusinessHoursOptions) (n : NormalizedBusinessHoursOptions) :
  normalizeBusinessHoursOptions opts = Returns n ->
  ~ (q == 0)%Q ->
  (forall dir x, exists r a,
      moveLoop (S (Z.to_nat maxAttempts)) n dir x 0 = Returns (r, a)
      /\ a <= maxAttempts)
  /\ (forall dir x rem,
        walkOutcome
          (consumeLoop (S (Z.to_nat maxIterations)) n dir x rem 0))
  /\ ((exists t', addBusinessHours (Some t) (Finite q) opts
                  = Returns (Some t'))
      \/ addBusinessHours (Some t) (Finite q) opts
         = Throws NoWorkingTimeInRange
      \/ addBusinessHours (Some t) (Finite q) opts
         = Throws MaxIterationsExceeded)
  /\ (horizonClosed n t = true ->
      addBusinessHours (Some t) (Finite q) opts = Throws NoWorkingTimeInRange)
  /\ errorClass NoWorkingTimeInRange = RangeError
  /\ errorClass MaxIterationsExceeded = RangeError.
Proof.
  intros Hn Hq.
  assert (Eq0 : Qeq_bool q 0 = false).
  { destruct (Qeq_bool q 0) eqn:E; [|reflexivity].
    now apply Qeq_bool_iff in E. }
  split; [|split; [|split; [|split; [|split; reflexivity]]]].
  - intros dir x.
    destruct (moveLoop_returns (S (Z.to_nat maxAttempts)) n dir x 0)
      as (r & a & E & Hmax & _); [lia|].
    exists r, a. split; [exact E|]. apply Hmax. unfold maxAttempts. lia.
  - intros dir x rem. apply consumeLoop_outcome. lia.
  - unfold addBusinessHours. rewrite Eq0, Hn. cbn [bind].
    set (direction := if Qle_bool 0 (q * 60) then 1 else -1).
    pose proof (moveToWorkingTime_outcome n t direction) as Hm.
    destruct (moveToWorkingTime n t direction) as [c|e|]; cbn [bind].
    + pose proof (consumeLoop_outcome (S (Z.to_nat maxIterations)) n
                    direction c (Qabs (q * 60)) 0) as Hc.
      destruct (consumeLoop _ n direction c _ 0) as [[c' i]|e|];
        cbn [bind fst snd].
      * destruct (maxIterations <=? i); [right; right; reflexivity|].
        left. now exists c'.
      * right. left. f_equal. apply Hc. lia.
      * exfalso. apply Hc. lia.
    + right. left. now f_equal.
    + contradiction.
  - intros Hclosed. unfold addBusinessHours. rewrite Eq0, Hn. cbn [bind].
    set (direction := if Qle_bool 0 (q * 60) then 1 else -1).
    assert (Hdir : direction = 1 \/ direction = -1).
    { unfold direction. destruct (Qle_bool 0 (q * 60)); auto. }
    unfold moveToWorkingTime.
    destruct (moveLoop_all_closed (S (Z.to_nat maxAttempts)) n direction t 0)
      as (r & ->); try assumption.
    + eapply normalize_valid; eassumption.
    + unfold maxAttempts. lia.
    + lia.
    + intros k x Hk Hx. apply (horizonClosed_day n t x Hclosed).
      unfold maxAttempts in Hk. lia.
    + reflexivity.
Qed.

Lemma closedYears_horizon :
  horizonClosed closedYearsNormalized (Date.make 2023 0 2 10 0) = true.
Proof.
  apply forallb_forall. intros k Hk. unfold nonWorking.
  apply orb_true_intro. right.
  apply (isHoliday_In _
           (DateFns.addDays (Date.make 2023 0 2 0 0) (Z.of_nat k - 365))).
  - apply (in_map (fun k => Some (Date.make 2023 0 2 0 0
                                  + (Z.of_nat k - 365) * msPerDay))).
    exact Hk.
  - rewrite !dayNumber_addDays. reflexivity.
Qed.

Lemma addBusinessHours_terminates_witness :
  addBusinessHours (Some (Date.make 2023 0 2 10 0)) (hours 5) closedYears
  = Throws NoWorkingTimeInRange.
Proof.
  assert (En : normalizeBusinessHoursOptions closedYears
               = Returns closedYearsNormalized).
  { vm_compute. reflexivity. }
  assert (Hq : ~ (5 == 0)%Q) by (intros H; discriminate H).
  destruct (addBusinessHours_terminates (Date.make 2023 0 2 10 0) 5
              closedYears closedYearsNormalized En Hq)
    as (_ & _ & _ & H & _).
  apply H. exact closedYears_horizon.
Defined.

(** ** One turn of each loop *)

Section LoopTurns.

Variable n : NormalizedBusinessHoursOptions.
Variables (fuel : nat) (dir : Z).

Lemma moveLoop_closed (r a : Z) :
  a < maxAttempts -> nonWorking n r = true ->
  moveLoop (S fuel) n dir r a
  = moveLoop fuel n dir (setBoundary n dir (DateFns.addDays r dir)) (a + 1).
Proof.
  intros Ha Hoff. cbn [moveLoop].
  replace (a <? maxAttempts) with true by (symmetry; now apply Z.ltb_lt).
  fold (nonWorking n r). now rewrite Hoff.
Qed.

Lemma moveLoop_backward_after (r a : Z) :
  a < maxAttempts -> nonWorking n r = false -> dir <= 0 ->
  Date.setHours r (endHour n) (endMinute n) <= r ->
  moveLoop (S fuel) n dir r a
  = Returns (Date.setHours r (endHour n) (endMinute n), a + 1).
Proof.
  intros Ha Hon Hdir Hend. cbn [moveLoop].
  replace (a <? maxAttempts) with true by (symmetry; now apply Z.ltb_lt).
  fold (nonWorking n r). rewrite Hon.
  destruct (getWorkingHours_working n r Hon) as [-> ->].
  replace (0 <? dir) with false by (symmetry; now apply Z.ltb_ge).
  unfold DateFns.isAfter.
  destruct (Z.ltb_spec (Date.setHours r (endHour n) (endMinute n)) r)
    as [H|H]; [reflexivity|].
  cbn [orb].
  now replace (r =? Date.setHours r (endHour n) (endMinute n)) with true
    by (symmetry; apply Z.eqb_eq; lia).
Qed.

Lemma moveLoop_backward_inside (r a : Z) :
  a < maxAttempts -> nonWorking n r = false -> dir <= 0 ->
  Date.setHours r (startHour n) (startMinute n) <= r
  < Date.setHours r (endHour n) (endMinute n) ->
  moveLoop (S fuel) n dir r a = Returns (r, a + 1).
Proof.
  intros Ha Hon Hdir Hin. cbn [moveLoop].
  replace (a <? maxAttempts) with true by (symmetry; now apply Z.ltb_lt).
  fold (nonWorking n r). rewrite Hon.
  destruct (getWorkingHours_working n r Hon) as [-> ->].
  replace (0 <? dir) with false by (symmetry; now apply Z.ltb_ge).
  unfold DateFns.isAfter, DateFns.isBefore.
  replace (Date.setHours r (endHour n) (endMinute n) <? r) with false
    by (symmetry; apply Z.ltb_ge; lia).
  replace (r =? Date.setHours r (endHour n) (endMinute n)) with false
    by (symmetry; apply Z.eqb_neq; lia).
  now replace (r <? Date.setHours r (startHour n) (startMinute n)) with false
    by (symmetry; apply Z.ltb_ge; lia).
Qed.

Lemma consumeLoop_done (c : Z) (rem : Q) (i : Z) :
  Qle_bool rem 0 = true ->
  consumeLoop (S fuel) n dir c rem i = Returns (c, i).
Proof. intros H. cbn [consumeLoop]. now rewrite H. Qed.

Lemma consumeLoop_fits (c : Z) (rem : Q) (i : Z) :
  Qle_bool rem 0 = false -> i < maxIterations -> nonWorking n c = false ->
  Qle_bool rem (availableMinutes n dir c) = true ->
  consumeLoop (S fuel) n dir c rem i
  = consumeLoop fuel n dir (DateFns.addMinutes c (rem * inject_Z dir)) 0
      (i + 1).
Proof.
  intros Hrem Hi Hon Hfit. cbn [consumeLoop]. rewrite Hrem.
  replace (i <? maxIterations) with true by (symmetry; now apply Z.ltb_lt).
  cbn [negb andb].
  destruct (getWorkingHours_working n c Hon) as [-> ->].
  fold (availableMinutes n dir c). now rewrite Hfit.
Qed.

Lemma consumeLoop_spills (c : Z) (rem : Q) (i : Z) :
  Qle_bool rem 0 = false -> i < maxIterations -> nonWorking n c = false ->
  Qle_bool rem (availableMinutes n dir c) = false ->
  consumeLoop (S fuel) n dir c rem i
  = (let* c' := moveToWorkingTime n (nextBoundary n dir c) dir in
     consumeLoop fuel n dir c' (rem - availableMinutes n dir c)%Q (i + 1)).
Proof.
  intros Hrem Hi Hon Hfit. cbn [consumeLoop]. rewrite Hrem.
  replace (i <? maxIterations) with true by (symmetry; now apply Z.ltb_lt).
  cbn [negb andb].
  destruct (getWorkingHours_working n c Hon) as [-> ->].
  fold (availableMinutes n dir c). rewrite Hfit.
  unfold nextBoundary. now destruct (0 <? dir).
Qed.

End LoopTurns.

(** ** The default calendar *)

Lemma normalize_noOptions :
  normalizeBusinessHoursOptions noOptions = Returns defaultNormalized.
Proof. reflexivity. Qed.

Lemma getDay_range (t : Z) : 0 <= Date.getDay t < 7.
Proof. unfold Date.getDay. apply Z.mod_pos_bound. lia. Qed.

Lemma nonWorking_default (t : Z) :
  nonWorking defaultNormalized t
  = negb ((1 <=? Date.getDay t) && (Date.getDay t <=? 5)).
Proof.
  unfold nonWorking, isWorkingDay. cbn [holidays workingDays defaultNormalized].
  pose proof (getDay_range t) as H.
  assert (E : Date.getDay t = 0 \/ Date.getDay t = 1 \/ Date.getDay t = 2
              \/ Date.getDay t = 3 \/ Date.getDay t = 4 \/ Date.getDay t = 5
              \/ Date.getDay t = 6) by lia.
  destruct E as [-> | [-> | [-> | [-> | [-> | [-> | ->]]]]]]; reflexivity.
Qed.

Lemma getDay_addDays (t k : Z) :
  Date.getDay (DateFns.addDays t k) = (Date.getDay t + k) mod 7.
Proof.
  unfold Date.getDay. rewrite dayNumber_addDays.
  Z.div_mod_to_equations. lia.
Qed.

Lemma getDay_setHours (t h m : Z) :
  0 <= h <= 23 -> 0 <= m <= 59 ->
  Date.getDay (Date.setHours t h m) = Date.getDay t.
Proof.
  intros Hh Hm. unfold Date.getDay. now rewrite dayNumber_setHours.
Qed.

Lemma instant_split (t : Z) :
  t = Date.dayNumber t * msPerDay + Date.msOfDay t.
Proof.
  unfold Date.dayNumber, Date.msOfDay. unfold_ms.
  Z.div_mod_to_equations. lia.
Qed.

Lemma msOfDay_unique (t d m : Z) :
  t = d * msPerDay + m -> 0 <= m < msPerDay -> Date.msOfDay t = m.
Proof.
  unfold Date.msOfDay. unfold_ms. intros -> H.
  Z.div_mod_to_equations. lia.
Qed.

(** ** Monday 09:00 minus five hours *)

Section MondayMorning.

Variable t : Z.
Hypothesis monday : Date.getDay t = 1.
Hypothesis nine : Date.msOfDay t = 9 * msPerHour.

Lemma monday_split : t = Date.dayNumber t * msPerDay + 9 * msPerHour.
Proof using nine. rewrite <- nine. apply instant_split. Qed.

Lemma monday_window :
  Date.setHours t 9 0 = t /\ Date.setHours t 17 0 = t + 8 * msPerHour.
Proof using nine.
  pose proof monday_split as H. unfold Date.setHours.
  revert H. generalize (Date.dayNumber t). intros d H. unfold_ms. lia.
Qed.

Lemma monday_open : nonWorking defaultNormalized t = false.
Proof using monday. rewrite nonWorking_default, monday. reflexivity. Qed.

(** The snap phase leaves Monday 09:00 where it is. *)
Lemma monday_snap : moveToWorkingTime defaultNormalized t (-1) = Returns t.
Proof using monday nine.
  unfold moveToWorkingTime.
  rewrite moveLoop_backward_inside;
    [reflexivity|reflexivity|exact monday_open|lia|].
  cbn [startHour startMinute endHour endMinute defaultNormalized].
  destruct monday_window as [-> ->]. unfold_ms. lia.
Qed.

(** Nothing is available before the start of Monday's window. *)
Lemma monday_available :
  availableMinutes defaultNormalized (-1) t = (0 # 60000)%Q.
Proof using nine.
  unfold availableMinutes.
  cbn [startHour startMinute endHour endMinute defaultNormalized].
  destruct monday_window as [-> _].
  replace (t - t) with 0 by lia. reflexivity.
Qed.

Lemma sunday17 :
  nextBoundary defaultNormalized (-1) t = t - msPerDay + 8 * msPerHour.
Proof using nine.
  unfold nextBoundary, DateFns.addDays, Date.setHours.
  cbn [startHour startMinute endHour endMinute defaultNormalized Z.ltb
       Z.compare].
  replace (Date.dayNumber (t + -1 * msPerDay)) with (Date.dayNumber t - 1).
  - pose proof monday_split as H. revert H.
    generalize (Date.dayNumber t). intros d H. unfold_ms. lia.
  - symmetry. apply dayNumber_unique. pose proof (dayNumber_bounds t). lia.
Qed.

Lemma back_day (x : Z) (k : Z) :
  x = t - k * msPerDay + 8 * msPerHour ->
  setBoundary defaultNormalized (-1) (DateFns.addDays x (-1))
  = t - (k + 1) * msPerDay + 8 * msPerHour
  /\ Date.getDay x = (1 - k) mod 7
  /\ Date.setHours x 17 0 = x
  /\ Date.setHours x 9 0 = x - 8 * msPerHour.
Proof using monday nine.
  intros ->. pose proof monday_split as H.
  assert (Hd : forall j, Date.dayNumber (t - j * msPerDay + 8 * msPerHour)
                         = Date.dayNumber t - j).
  { intros j. apply dayNumber_unique. revert H.
    generalize (Date.dayNumber t). intros d H. unfold_ms. lia. }
  unfold setBoundary, DateFns.addDays, Date.setHours.
  cbn [startHour startMinute endHour endMinute defaultNormalized Z.ltb
       Z.compare].
  replace (t - k * msPerDay + 8 * msPerHour + -1 * msPerDay)
    with (t - (k + 1) * msPerDay + 8 * msPerHour) by lia.
  rewrite !Hd. unfold Date.getDay in *. rewrite Hd.
  revert H monday. generalize (Date.dayNumber t). intros d H Hm.
  repeat split; try (unfold_ms; lia).
  Z.div_mod_to_equations. lia.
Qed.

(** From Sunday 17:00 the snap phase crosses the weekend and stops at the
    end of Friday's window. *)
Lemma weekend_crossed :
  moveToWorkingTime defaultNormalized
    (nextBoundary defaultNormalized (-1) t) (-1)
  = Returns (friday17 t).
Proof using monday nine.
  unfold moveToWorkingTime. rewrite sunday17.
  change (Z.to_nat maxAttempts) with (S (S (Z.to_nat 364))).
  destruct (back_day (t - msPerDay + 8 * msPerHour) 1) as (E1 & D1 & _);
    [lia|].
  destruct (back_day (t - 2 * msPerDay + 8 * msPerHour) 2)
    as (E2 & D2 & _); [lia|].
  destruct (back_day (t - 3 * msPerDay + 8 * msPerHour) 3)
    as (_ & D3 & W3 & _); [lia|].
  rewrite moveLoop_closed;
    [|reflexivity|rewrite nonWorking_default, D1; reflexivity].
  rewrite E1. change (1 + 1) with 2.
  rewrite moveLoop_closed;
    [|reflexivity|rewrite nonWorking_default, D2; reflexivity].
  rewrite E2. change (2 + 1) with 3.
  rewrite moveLoop_backward_after;
    [|reflexivity|rewrite nonWorking_default, D3; reflexivity|lia|].
  - cbn [endHour endMinute defaultNormalized bind fst snd]. rewrite W3.
    reflexivity.
  - cbn [endHour endMinute defaultNormalized]. rewrite W3. lia.
Qed.

Lemma friday_available :
  nonWorking defaultNormalized (friday17 t) = false
  /\ availableMinutes defaultNormalized (-1) (friday17 t)
     = (28800000 # 60000)%Q.
Proof using monday nine.
  destruct (back_day (friday17 t) 3) as (_ & D3 & _ & W9); [reflexivity|].
  split.
  - rewrite nonWorking_default, D3. reflexivity.
  - unfold availableMinutes.
    cbn [startHour startMinute endHour endMinute defaultNormalized Z.ltb
         Z.compare].
    rewrite W9.
    replace (friday17 t - (friday17 t - 8 * msPerHour)) with 28800000
      by (unfold_ms; lia).
    reflexivity.
Qed.

(** C1: on the default calendar without holidays, five hours back from a
    Monday at 09:00 end on the Friday before at 12:00.  The snap phase
    keeps Monday 09:00, where no minute is available; the walk crosses the
    weekend to the end of Friday's window at 17:00 and the five hours are
    taken from there. *)
Theorem monday_minus_five_hours :
  moveToWorkingTime defaultNormalized t (-1) = Returns t
  /\ (availableMinutes defaultNormalized (-1) t == 0)%Q
  /\ moveToWorkingTime defaultNormalized
       (nextBoundary defaultNormalized (-1) t) (-1)
     = Returns (t - 3 * msPerDay + 8 * msPerHour)
  /\ addBusinessHours (Some t) (hours (-5)) noOptions
     = Returns (Some (t - 3 * msPerDay + 3 * msPerHour))
  /\ Date.getDay (t - 3 * msPerDay + 3 * msPerHour) = 5
  /\ Date.msOfDay (t - 3 * msPerDay + 3 * msPerHour) = 12 * msPerHour
  /\ Date.dayNumber (t - 3 * msPerDay + 3 * msPerHour)
     = Date.dayNumber t - 3.
Proof using monday nine.
  split; [exact monday_snap|].
  split; [rewrite monday_available; reflexivity|].
  split; [exact weekend_crossed|].
  assert (Hres : t - 3 * msPerDay + 3 * msPerHour
                 = (Date.dayNumber t - 3) * msPerDay + 12 * msPerHour).
  { pose proof monday_split as H. revert H.
    generalize (Date.dayNumber t). intros d H. unfold_ms. lia. }
  assert (Hday : Date.dayNumber (t - 3 * msPerDay + 3 * msPerHour)
                 = Date.dayNumber t - 3).
  { apply dayNumber_unique. rewrite Hres. unfold_ms. lia. }
  split; [|split; [|split]].
  - unfold addBusinessHours, hours, ofInt.
    change (Qeq_bool (inject_Z (-5)) 0) with false. cbv iota.
    rewrite normalize_noOptions. cbn [bind].
    change (Qle_bool 0 (inject_Z (-5) * 60)) with false. cbv iota.
    rewrite monday_snap. cbn [bind].
    change (Z.to_nat maxIterations) with (S (S (Z.to_nat 9998))).
    rewrite consumeLoop_spills;
      [|reflexivity|reflexivity|exact monday_open
       |rewrite monday_available; reflexivity].
    rewrite weekend_crossed. cbn [bind]. rewrite monday_available.
    destruct friday_available as [Hopen Havail].
    rewrite consumeLoop_fits;
      [|reflexivity|reflexivity|exact Hopen|rewrite Havail; reflexivity].
    rewrite consumeLoop_done by reflexivity.
    cbn [bind fst snd]. change (maxIterations <=? 0 + 1 + 1) with false.
    cbv iota. do 2 f_equal.
    unfold DateFns.addMinutes, friday17.
    set (back := ((Qabs (inject_Z (-5) * 60) - (0 # 60000))
                  * inject_Z (-1) * inject_Z msPerMinute)%Q).
    assert (Hback : (back == inject_Z (-18000000))%Q) by reflexivity.
    assert (E : (inject_Z (t - 3 * msPerDay + 8 * msPerHour) + back
                 == inject_Z (t - 3 * msPerDay + 3 * msPerHour))%Q).
    { rewrite Hback, <- inject_Z_plus.
      replace (t - 3 * msPerDay + 8 * msPerHour + -18000000)
        with (t - 3 * msPerDay + 3 * msPerHour) by (unfold_ms; lia).
      reflexivity. }
    unfold Qtrunc.
    rewrite (Qfloor_comp _ _ E), (Qceiling_comp _ _ E), Qfloor_Z, Qceiling_Z.
    now destruct (Qle_bool 0 _).
  - unfold Date.getDay. rewrite Hday. unfold Date.getDay in monday.
    Z.div_mod_to_equations. lia.
  - apply (msOfDay_unique _ (Date.dayNumber t - 3)); [exact Hres|].
    unfold_ms. lia.
  - exact Hday.
Qed.

End MondayMorning.

Lemma monday_minus_five_hours_witness :
  addBusinessHours (Some (Date.make 2023 0 2 9 0)) (hours (-5)) noOptions
  = Returns (Some (Date.make 2022 11 30 12 0)).
Proof.
  apply (monday_minus_five_hours (Date.make 2023 0 2 9 0));
    vm_compute; reflexivity.
Defined.

(** ** [businessHoursInInterval] as a sum over days *)

Lemma msToHours_plus (a b : Z) :
  (msToHours (a + b) == msToHours a + msToHours b)%Q.
Proof. unfold msToHours. rewrite inject_Z_plus. field. discriminate. Qed.

Lemma msToHours_zero : (msToHours 0 == 0)%Q.
Proof. reflexivity. Qed.

Lemma sumDays_ext (f g : Z -> Z) (count : nat) (k : Z) :
  (forall j, k <= j < k + Z.of_nat count -> f j = g j) ->
  sumDays f count k = sumDays g count k.
Proof.
  revert k. induction count as [|count IH]; intros k H; [reflexivity|].
  cbn [sumDays]. rewrite (H k) by lia. f_equal. apply IH.
  intros j Hj. apply H. lia.
Qed.

Lemma sumDays_app (f : Z -> Z) (c1 c2 : nat) (k : Z) :
  sumDays f (c1 + c2) k = sumDays f c1 k + sumDays f c2 (k + Z.of_nat c1).
Proof.
  revert k. induction c1 as [|c1 IH]; intros k.
  - cbn [sumDays Nat.add]. replace (k + Z.of_nat 0) with k by lia. lia.
  - cbn [sumDays Nat.add]. rewrite IH.
    replace (k + 1 + Z.of_nat c1) with (k + Z.of_nat (S c1)) by lia. lia.
Qed.

Lemma valid_window (n : NormalizedBusinessHoursOptions) :
  validConfig n -> 0 <= startMs n < endMs n /\ endMs n < msPerDay.
Proof.
  intros [? ? ? ? Hord _ _]. unfold startMs, endMs.
  unfold startMinuteOfDay, endMinuteOfDay in Hord. unfold_ms. lia.
Qed.

Lemma dayNumber_dayStart (k : Z) : Date.dayNumber (k * msPerDay) = k.
Proof. apply dayNumber_unique. unfold_ms. lia. Qed.

Lemma addDayOverlap_spec (n : NormalizedBusinessHoursOptions)
    (s e k : Z) (total : Q) :
  (addDayOverlap n s e (k * msPerDay) total
   == total + msToHours (dayOverlapMs n s e k))%Q.
Proof.
  unfold addDayOverlap, dayOverlapMs.
  destruct (nonWorking n (k * msPerDay)) eqn:Eoff.
  - destruct (getWorkingHours_nonWorking n _ Eoff) as [-> _].
    rewrite msToHours_zero. ring.
  - destruct (getWorkingHours_working n _ Eoff) as [-> ->].
    unfold Date.setHours. rewrite dayNumber_dayStart.
    fold (startMs n). rewrite <- !Z.add_assoc. fold (startMs n) (endMs n).
    unfold DateFns.max, DateFns.min, DateFns.isBefore.
    set (ws := k * msPerDay + startMs n). set (we := k * msPerDay + endMs n).
    set (os := if s <? ws then ws else s).
    set (oe := if we <? e then we else e).
    assert (Hos : os = Z.max s ws).
    { unfold os. destruct (Z.ltb_spec s ws); lia. }
    assert (Hoe : oe = Z.min e we).
    { unfold oe. destruct (Z.ltb_spec we e); lia. }
    rewrite <- Hos, <- Hoe.
    destruct (Z.ltb_spec os oe) as [Hlt|Hge]; cbn [orb].
    + unfold msToHours. now replace (Z.max 0 (oe - os)) with (oe - os) by lia.
    + destruct (Z.eqb_spec os oe) as [Heq|Hne].
      * unfold msToHours.
        now replace (Z.max 0 (oe - os)) with (oe - os) by lia.
      * replace (Z.max 0 (oe - os)) with 0 by lia.
        rewrite msToHours_zero. ring.
Qed.

(** The day loop leaves through its test before its fuel is spent, with the
    sum of the overlaps of the days it went through. *)
Lemma dayLoop_spec (n : NormalizedBusinessHoursOptions) (s e ke : Z)
    (fuel : nat) (k : Z) (total : Q) :
  k <= ke + 1 -> (Z.to_nat (ke + 1 - k) < fuel)%nat ->
  exists x,
    dayLoop fuel n s e (ke * msPerDay) (k * msPerDay) total = Returns x
    /\ (x == total
             + msToHours (sumDays (dayOverlapMs n s e)
                            (Z.to_nat (ke + 1 - k)) k))%Q.
Proof.
  revert k total. induction fuel as [|fuel IH]; intros k total Hk Hfuel;
    [lia|].
  cbn [dayLoop]. unfold DateFns.isBefore, DateFns.addDays.
  destruct (Z.ltb_spec (k * msPerDay) (ke * msPerDay + 1 * msPerDay))
    as [Hlt|Hge].
  - assert (Hle : k <= ke) by (unfold_ms; lia).
    replace (k * msPerDay + 1 * msPerDay) with ((k + 1) * msPerDay) by lia.
    destruct (IH (k + 1) (addDayOverlap n s e (k * msPerDay) total))
      as (x & Hx & Hsum); [lia|lia|].
    exists x. split; [exact Hx|].
    rewrite Hsum, addDayOverlap_spec.
    replace (Z.to_nat (ke + 1 - k)) with (S (Z.to_nat (ke + 1 - (k + 1))))
      by lia.
    cbn [sumDays]. rewrite msToHours_plus. ring.
  - assert (Hk' : k = ke + 1) by (unfold_ms; lia).
    exists total. split; [reflexivity|].
    replace (Z.to_nat (ke + 1 - k)) with O by lia.
    cbn [sumDays]. rewrite msToHours_zero. ring.
Qed.

(** The hours of a valid interval, on a valid configuration. *)
Lemma businessHoursInInterval_sum (opts : BusinessHoursOptions)
    (n : NormalizedBusinessHoursOptions) (a c : Z) :
  normalizeBusinessHoursOptions opts = Returns n -> a <= c ->
  exists x,
    businessHoursInInterval (Some a) (Some c) opts = Returns x
    /\ (x == msToHours
               (sumDays (dayOverlapMs n a c)
                  (Z.to_nat (Date.dayNumber c + 1 - Date.dayNumber a))
                  (Date.dayNumber a)))%Q.
Proof.
  intros Hn Hac. unfold businessHoursInInterval, DateFns.isAfter.
  replace (c <? a) with false by (symmetry; apply Z.ltb_ge; exact Hac).
  rewrite Hn. cbn [bind]. unfold DateFns.startOfDay at 3 4.
  assert (Hday : Date.dayNumber a <= Date.dayNumber c).
  { pose proof (dayNumber_bounds a). pose proof (dayNumber_bounds c).
    unfold_ms. lia. }
  destruct (dayLoop_spec n a c (Date.dayNumber c)
              (dayLoopFuel (DateFns.startOfDay a) (DateFns.startOfDay c))
              (Date.dayNumber a) 0) as (x & Hx & Hsum).
  - lia.
  - unfold dayLoopFuel. rewrite !dayNumber_startOfDay. lia.
  - exists x. split; [exact Hx|]. rewrite Hsum. ring.
Qed.

Lemma sumDays_plus (f g : Z -> Z) (count : nat) (k : Z) :
  sumDays (fun j => f j + g j) count k = sumDays f count k + sumDays g count k.
Proof.
  revert k. induction count as [|count IH]; intros k; [reflexivity|].
  cbn [sumDays]. rewrite IH. lia.
Qed.

Lemma sumDays_zero (f : Z -> Z) (count : nat) (k : Z) :
  (forall j, k <= j < k + Z.of_nat count -> f j = 0) ->
  sumDays f count k = 0.
Proof.
  revert k. induction count as [|count IH]; intros k H; [reflexivity|].
  cbn [sumDays]. rewrite (H k) by lia. rewrite IH; [lia|].
  intros j Hj. apply H. lia.
Qed.

Section Additivity.

Variable n : NormalizedBusinessHoursOptions.
Hypothesis valid : validConfig n.
Variables a b c : Z.
Hypothesis ab : a <= b.
Hypothesis bc : b <= c.

(** On every day, the window shares with [a, c] what it shares with
    [a, b] and with [b, c] together. *)
Lemma dayOverlapMs_additive (k : Z) :
  dayOverlapMs n a c k = dayOverlapMs n a b k + dayOverlapMs n b c k.
Proof using valid ab bc.
  unfold dayOverlapMs. destruct (nonWorking n (k * msPerDay)); [reflexivity|].
  pose proof (valid_window n valid). lia.
Qed.

(** A day after the day of [b] shares nothing with [a, b]. *)
Lemma dayOverlapMs_later (k : Z) :
  Date.dayNumber b < k -> dayOverlapMs n a b k = 0.
Proof using valid.
  intros Hk. unfold dayOverlapMs.
  destruct (nonWorking n (k * msPerDay)); [reflexivity|].
  pose proof (valid_window n valid). pose proof (dayNumber_bounds b).
  unfold_ms. lia.
Qed.

(** A day before the day of [b] shares nothing with [b, c]. *)
Lemma dayOverlapMs_earlier (k : Z) :
  k < Date.dayNumber b -> dayOverlapMs n b c k = 0.
Proof using valid.
  intros Hk. unfold dayOverlapMs.
  destruct (nonWorking n (k * msPerDay)); [reflexivity|].
  pose proof (valid_window n valid). pose proof (dayNumber_bounds b).
  unfold_ms. lia.
Qed.

Lemma dayNumber_mono (x y : Z) :
  x <= y -> Date.dayNumber x <= Date.dayNumber y.
Proof.
  intros H. pose proof (dayNumber_bounds x). pose proof (dayNumber_bounds y).
  unfold_ms. lia.
Qed.

Lemma sumDays_additive :
  sumDays (dayOverlapMs n a c)
    (Z.to_nat (Date.dayNumber c + 1 - Date.dayNumber a)) (Date.dayNumber a)
  = sumDays (dayOverlapMs n a b)
      (Z.to_nat (Date.dayNumber b + 1 - Date.dayNumber a)) (Date.dayNumber a)
    + sumDays (dayOverlapMs n b c)
        (Z.to_nat (Date.dayNumber c + 1 - Date.dayNumber b))
        (Date.dayNumber b).
Proof using valid ab bc.
  pose proof (dayNumber_mono a b ab) as Hab.
  pose proof (dayNumber_mono b c bc) as Hbc.
  set (ka := Date.dayNumber a) in *. set (kb := Date.dayNumber b) in *.
  set (kc := Date.dayNumber c) in *.
  rewrite (sumDays_ext (dayOverlapMs n a c)
             (fun j => dayOverlapMs n a b j + dayOverlapMs n b c j))
    by (intros j _; apply dayOverlapMs_additive).
  rewrite sumDays_plus. f_equal.
  - replace (Z.to_nat (kc + 1 - ka))
      with (Z.to_nat (kb + 1 - ka) + Z.to_nat (kc - kb))%nat by lia.
    rewrite sumDays_app.
    rewrite (sumDays_zero _ (Z.to_nat (kc - kb))); [lia|].
    intros j Hj. apply dayOverlapMs_later. fold kb. lia.
  - replace (Z.to_nat (kc + 1 - ka))
      with (Z.to_nat (kb - ka) + Z.to_nat (kc + 1 - kb))%nat by lia.
    rewrite sumDays_app.
    rewrite (sumDays_zero _ (Z.to_nat (kb - ka)));
      [replace (ka + Z.of_nat (Z.to_nat (kb - ka))) with kb by lia; lia|].
    intros j Hj. apply dayOverlapMs_earlier. fold kb. lia.
Qed.

End Additivity.



(** ** The store model against the value model

    A run of the store model only adds cells to the store, and what it
    returns is what the value model computes from the time value of the
    object it was given. *)

Module StoreFacts.

Lemma bind_returns {A B : Type} (m : Store.M A) (k : A -> Store.M B)
    (h h' : Store.heap) (a : A) :
  m h = (h', Returns a) -> Store.bind m k h = k a h'.
Proof. intros H. unfold Store.bind. now rewrite H. Qed.

Ltac run H := rewrite (bind_returns _ _ _ _ _ H).

Lemma cell_grows (h ext : Store.heap) (r : Store.ref) (t : Z) :
  Store.cell h r t -> Store.cell (h ++ ext) r t.
Proof. apply lookup_app_l_Some. Qed.

Lemma cell_new (h : Store.heap) (t : Z) :
  Store.cell (h ++ [Some t]) (length h) t.
Proof. now apply list_lookup_middle. Qed.

Lemma run_getTime (h : Store.heap) (r : Store.ref) (t : Z) :
  Store.cell h r t -> Store.getTime r h = (h, Returns (Some t)).
Proof. intros H. unfold Store.getTime. now rewrite H. Qed.

Lemma run_copyDate (h : Store.heap) (r : Store.ref) (t : Z) :
  Store.cell h r t -> Store.copyDate r h = (h ++ [Some t], Returns (length h)).
Proof.
  intros H. unfold Store.copyDate. now run (run_getTime h r t H).
Qed.

Lemma run_setTime_new (h : Store.heap) (v v' : TimeValue) :
  Store.setTime (length h) v' (h ++ [v]) = (h ++ [v'], Returns tt).
Proof.
  unfold Store.setTime, Store.heap, Store.ref. f_equal.
  rewrite insert_app_r_alt by lia. now rewrite Nat.sub_diag.
Qed.

Lemma run_setHours_new (h : Store.heap) (t hh mm : Z) :
  Store.setHours (length h) hh mm (h ++ [Some t])
  = (h ++ [Some (Date.setHours t hh mm)], Returns tt).
Proof.
  unfold Store.setHours. run (run_getTime _ _ _ (cell_new h t)).
  apply run_setTime_new.
Qed.

Lemma run_addDays (h : Store.heap) (r : Store.ref) (t k : Z) :
  Store.cell h r t ->
  Store.addDays r k h = (h ++ [Some (DateFns.addDays t k)], Returns (length h)).
Proof.
  intros H. unfold Store.addDays, Store.toDate. run (run_copyDate h r t H).
  run (run_getTime _ _ _ (cell_new h t)).
  now run (run_setTime_new h (Some t) (Some (DateFns.addDays t k))).
Qed.

Lemma run_addMinutes (h : Store.heap) (r : Store.ref) (t : Z) (q : Q) :
  Store.cell h r t ->
  Store.addMinutes r (Finite q) h
  = (h ++ [Some (DateFns.addMinutes t q)], Returns (length h)).
Proof.
  intros H. unfold Store.addMinutes, Store.toDate. run (run_copyDate h r t H).
  run (run_getTime _ _ _ (cell_new h t)).
  now run (run_setTime_new h (Some t) (Some (DateFns.addMinutes t q))).
Qed.

Lemma run_isWorkingDay (wd : list JSNumber) (h : Store.heap) (r : Store.ref)
    (t : Z) :
  Store.cell h r t ->
  Store.isWorkingDay r wd h = (h, Returns (isWorkingDay t wd)).
Proof. intros H. unfold Store.isWorkingDay. now run (run_getTime h r t H). Qed.

Lemma run_isHoliday (hs : list TimeValue) (h : Store.heap) (r : Store.ref)
    (t : Z) :
  Store.cell h r t -> Store.isHoliday r hs h = (h, Returns (isHoliday t hs)).
Proof. intros H. unfold Store.isHoliday. now run (run_getTime h r t H). Qed.

Lemma run_isNonWorking (n : NormalizedBusinessHoursOptions)
    (h : Store.heap) (r : Store.ref) (t : Z) :
  Store.cell h r t -> Store.isNonWorking r n h = (h, Returns (nonWorking n t)).
Proof.
  intros H. unfold Store.isNonWorking, nonWorking.
  run (run_isWorkingDay (workingDays n) h r t H).
  destruct (isWorkingDay t (workingDays n)); cbn [negb orb].
  - apply run_isHoliday, H.
  - reflexivity.
Qed.

Lemma run_getWorkingHoursStart (n : NormalizedBusinessHoursOptions)
    (h : Store.heap) (r : Store.ref) (t : Z) :
  Store.cell h r t ->
  Store.getWorkingHoursStart r n h
  = if nonWorking n t then (h, Returns None)
    else (h ++ [Some (Date.setHours t (startHour n) (startMinute n))],
          Returns (Some (length h))).
Proof.
  intros H. unfold Store.getWorkingHoursStart. run (run_isNonWorking n h r t H).
  destruct (nonWorking n t); [reflexivity|].
  run (run_copyDate h r t H).
  now run (run_setHours_new h t (startHour n) (startMinute n)).
Qed.

Lemma run_getWorkingHoursEnd (n : NormalizedBusinessHoursOptions)
    (h : Store.heap) (r : Store.ref) (t : Z) :
  Store.cell h r t ->
  Store.getWorkingHoursEnd r n h
  = if nonWorking n t then (h, Returns None)
    else (h ++ [Some (Date.setHours t (endHour n) (endMinute n))],
          Returns (Some (length h))).
Proof.
  intros H. unfold Store.getWorkingHoursEnd. run (run_isNonWorking n h r t H).
  destruct (nonWorking n t); [reflexivity|].
  run (run_copyDate h r t H).
  now run (run_setHours_new h t (endHour n) (endMinute n)).
Qed.

Lemma run_stepDay (n : NormalizedBusinessHoursOptions) (dir : Z)
    (h : Store.heap) (r : Store.ref) (t : Z) :
  Store.cell h r t ->
  Store.stepDay n dir r h
  = (h ++ [Some (setBoundary n dir (DateFns.addDays t dir))],
     Returns (length h)).
Proof.
  intros H. unfold Store.stepDay. run (run_addDays h r t dir H).
  now run (run_setHours_new h (DateFns.addDays t dir)
             (if 0 <? dir then startHour n else endHour n)
             (if 0 <? dir then startMinute n else endMinute n)).
Qed.

Lemma run_isBefore (h : Store.heap) (a b : Store.ref) (x y : Z) :
  Store.cell h a x -> Store.cell h b y ->
  Store.isBefore a b h = (h, Returns (DateFns.isBefore x y)).
Proof.
  intros Ha Hb. unfold Store.isBefore. run (run_getTime h a x Ha).
  now run (run_getTime h b y Hb).
Qed.

Lemma run_isAfter (h : Store.heap) (a b : Store.ref) (x y : Z) :
  Store.cell h a x -> Store.cell h b y ->
  Store.isAfter a b h = (h, Returns (DateFns.isAfter x y)).
Proof.
  intros Ha Hb. unfold Store.isAfter. run (run_getTime h a x Ha).
  now run (run_getTime h b y Hb).
Qed.

Lemma run_sameTime (h : Store.heap) (a b : Store.ref) (x y : Z) :
  Store.cell h a x -> Store.cell h b y ->
  Store.sameTime a b h = (h, Returns (x =? y)).
Proof.
  intros Ha Hb. unfold Store.sameTime. run (run_getTime h a x Ha).
  now run (run_getTime h b y Hb).
Qed.

Lemma run_addDays_setHours {B : Type} (K : Store.ref -> Store.M B)
    (h : Store.heap) (r : Store.ref) (t k hh mm : Z) :
  Store.cell h r t ->
  Store.bind (Store.addDays r k)
    (fun result =>
       Store.bind (Store.setHours result hh mm) (fun _ => K result)) h
  = K (length h) (h ++ [Some (Date.setHours (DateFns.addDays t k) hh mm)]).
Proof.
  intros H. run (run_addDays h r t k H).
  now run (run_setHours_new h (DateFns.addDays t k) hh mm).
Qed.

Ltac prefix_tac := repeat (apply prefix_app_r); reflexivity.

Ltac cell_tac :=
  first [assumption | apply cell_new | apply cell_grows; cell_tac].

Ltac finish_ret :=
  eexists _, _;
  split; [reflexivity
         |split; [prefix_tac|split; [reflexivity|cell_tac]]].

Lemma moveLoop_sim (n : NormalizedBusinessHoursOptions) (dir : Z)
    (fuel : nat) (h : Store.heap) (r : Store.ref) (t a : Z) :
  Store.cell h r t ->
  Store.simulates (Store.moveLoop fuel n dir r a) h (moveLoop fuel n dir t a).
Proof.
  revert h r t a. induction fuel as [|fuel IH]; intros h r t a Hc.
  - exists h, Diverges. split; [reflexivity|split; [reflexivity|exact I]].
  - assert (Hrec : forall ext t',
               exists h' o',
                 Store.moveLoop fuel n dir (length (h ++ ext)) (a + 1)
                   ((h ++ ext) ++ [Some t']) = (h', o')
                 /\ h `prefix_of` h'
                 /\ Store.agrees h' o' (moveLoop fuel n dir t' (a + 1))).
    { intros ext t'.
      destruct (IH _ _ _ (a + 1) (cell_new (h ++ ext) t'))
        as (h' & o' & E & P & Ag).
      exists h', o'. split; [exact E|]. split; [|exact Ag].
      etrans; [|exact P]. prefix_tac. }
    cbn [Store.moveLoop moveLoop]. unfold Store.simulates.
    destruct (a <? maxAttempts); [|finish_ret].
    run (run_isNonWorking n h r t Hc). fold (nonWorking n t).
    destruct (nonWorking n t) eqn:Eoff.
    + run (run_stepDay n dir h r t Hc).
      pose proof (Hrec [] (setBoundary n dir (DateFns.addDays t dir))) as H0.
      rewrite app_nil_r in H0. exact H0.
    + destruct (getWorkingHours_working n t Eoff) as [-> ->].
      pose proof (run_getWorkingHoursStart n h r t Hc) as Hs.
      rewrite Eoff in Hs. run Hs.
      set (ws := Date.setHours t (startHour n) (startMinute n)).
      set (we := Date.setHours t (endHour n) (endMinute n)).
      assert (Hc1 : Store.cell (h ++ [Some ws]) r t) by cell_tac.
      pose proof (run_getWorkingHoursEnd n _ r t Hc1) as He.
      rewrite Eoff in He. run He. fold we.
      assert (Hc2 : Store.cell ((h ++ [Some ws]) ++ [Some we]) r t) by cell_tac.
      assert (Hws : Store.cell ((h ++ [Some ws]) ++ [Some we]) (length h) ws)
        by cell_tac.
      assert (Hwe : Store.cell ((h ++ [Some ws]) ++ [Some we])
                      (length (h ++ [Some ws])) we) by cell_tac.
      destruct (0 <? dir).
      * run (run_isBefore _ _ _ _ _ Hc2 Hws).
        destruct (DateFns.isBefore t ws).
        { run (run_copyDate _ _ _ Hws). finish_ret. }
        run (run_isAfter _ _ _ _ _ Hc2 Hwe).
        run (run_sameTime _ _ _ _ _ Hc2 Hwe).
        destruct (DateFns.isAfter t we || (t =? we)); [|finish_ret].
        rewrite (run_addDays_setHours
                   (fun result => Store.moveLoop fuel n dir result (a + 1))
                   _ r t 1 _ _ Hc2).
        rewrite <- app_assoc. apply Hrec.
      * run (run_isAfter _ _ _ _ _ Hc2 Hwe).
        run (run_sameTime _ _ _ _ _ Hc2 Hwe).
        destruct (DateFns.isAfter t we || (t =? we)).
        { run (run_copyDate _ _ _ Hwe). finish_ret. }
        run (run_isBefore _ _ _ _ _ Hc2 Hws).
        destruct (DateFns.isBefore t ws); [|finish_ret].
        rewrite (run_addDays_setHours
                   (fun result => Store.moveLoop fuel n dir result (a + 1))
                   _ r t (-1) _ _ Hc2).
        rewrite <- app_assoc. apply Hrec.
Qed.

Lemma moveToWorkingTime_sim (n : NormalizedBusinessHoursOptions) (dir : Z)
    (h : Store.heap) (r : Store.ref) (t : Z) :
  Store.cell h r t ->
  exists h' o',
    Store.moveToWorkingTime n r dir h = (h', o')
    /\ h `prefix_of` h'
    /\ Store.agrees1 h' o' (moveToWorkingTime n t dir).
Proof.
  intros Hc. unfold Store.moveToWorkingTime, moveToWorkingTime.
  run (run_copyDate h r t Hc).
  destruct (moveLoop_sim n dir (S (Z.to_nat maxAttempts)) _ _ t 0
              (cell_new h t)) as (h' & o' & E & P & Ag).
  unfold Store.bind. rewrite E.
  assert (Hp : h `prefix_of` h') by (etrans; [|exact P]; prefix_tac).
  destruct (moveLoop (S (Z.to_nat maxAttempts)) n dir t 0)
    as [[t' a']|e|]; destruct o' as [[r' a'']|e'|]; try contradiction;
    cbn [bind fst snd].
  - destruct Ag as [-> Hc']. destruct (maxAttempts <=? a').
    + exists h', (Throws NoWorkingTimeInRange). now repeat split.
    + exists h', (Returns r'). now repeat split.
  - exists h', (Throws e'). now repeat split.
  - exists h', Diverges. now repeat split.
Qed.

Lemma consumeLoop_sim (n : NormalizedBusinessHoursOptions) (dir : Z)
    (fuel : nat) (h : Store.heap) (r : Store.ref) (t : Z) (rem : Q) (i : Z) :
  Store.cell h r t ->
  Store.simulates (Store.consumeLoop fuel n dir r (Finite rem) i) h
    (consumeLoop fuel n dir t rem i).
Proof.
  revert h r t rem i. induction fuel as [|fuel IH]; intros h r t rem i Hc.
  - exists h, Diverges. split; [reflexivity|split; [reflexivity|exact I]].
  - assert (Hrec : forall h1 r1 t1 rem1,
               h `prefix_of` h1 -> Store.cell h1 r1 t1 ->
               exists h' o',
                 Store.consumeLoop fuel n dir r1 (Finite rem1) (i + 1) h1
                 = (h', o')
                 /\ h `prefix_of` h'
                 /\ Store.agrees h' o'
                      (consumeLoop fuel n dir t1 rem1 (i + 1))).
    { intros h1 r1 t1 rem1 Hp Hc1.
      destruct (IH h1 r1 t1 rem1 (i + 1) Hc1) as (h' & o' & E & P & Ag).
      exists h', o'. split; [exact E|]. split; [|exact Ag].
      etrans; eassumption. }
    assert (Hmove : forall h1 r1 t1 rem1,
               h `prefix_of` h1 -> Store.cell h1 r1 t1 ->
               exists h' o',
                 Store.bind (Store.moveToWorkingTime n r1 dir)
                   (fun currentDate =>
                      Store.consumeLoop fuel n dir currentDate (Finite rem1)
                        (i + 1)) h1
                 = (h', o')
                 /\ h `prefix_of` h'
                 /\ Store.agrees h' o'
                      (bind (moveToWorkingTime n t1 dir)
                         (fun c => consumeLoop fuel n dir c rem1 (i + 1)))).
    { intros h1 r1 t1 rem1 Hp Hc1.
      destruct (moveToWorkingTime_sim n dir h1 r1 t1 Hc1)
        as (h2 & o2 & E2 & P2 & Ag2).
      unfold Store.bind. rewrite E2.
      assert (Hp2 : h `prefix_of` h2) by (etrans; eassumption).
      destruct (moveToWorkingTime n t1 dir) as [t2|e|];
        destruct o2 as [r2|e2|]; try contradiction; cbn [bind].
      - apply Hrec; assumption.
      - exists h2, (Throws e2). now repeat split.
      - exists h2, Diverges. now repeat split. }
    cbn [Store.consumeLoop consumeLoop]. unfold Store.simulates.
    change (js_lt (ofInt 0) (Finite rem)) with (negb (Qle_bool rem 0)).
    destruct (negb (Qle_bool rem 0) && (i <? maxIterations)); [|finish_ret].
    pose proof (run_getWorkingHoursStart n h r t Hc) as Hs.
    destruct (nonWorking n t) eqn:Eoff; run Hs; clear Hs.
    + destruct (getWorkingHours_nonWorking n t Eoff) as [-> _].
      pose proof (run_getWorkingHoursEnd n h r t Hc) as He.
      rewrite Eoff in He. run He. clear He.
      run (run_addDays h r t dir Hc).
      apply Hmove; [prefix_tac|cell_tac].
    + destruct (getWorkingHours_working n t Eoff) as [-> ->].
      set (ws := Date.setHours t (startHour n) (startMinute n)).
      set (we := Date.setHours t (endHour n) (endMinute n)).
      assert (Hc1 : Store.cell (h ++ [Some ws]) r t) by cell_tac.
      pose proof (run_getWorkingHoursEnd n _ r t Hc1) as He.
      rewrite Eoff in He. run He. clear He. fold we.
      assert (Hc2 : Store.cell ((h ++ [Some ws]) ++ [Some we]) r t) by cell_tac.
      assert (Hws : Store.cell ((h ++ [Some ws]) ++ [Some we]) (length h) ws)
        by cell_tac.
      assert (Hwe : Store.cell ((h ++ [Some ws]) ++ [Some we])
                      (length (h ++ [Some ws])) we) by cell_tac.
      run (run_getTime _ _ _ Hc2). run (run_getTime _ _ _ Hws).
      run (run_getTime _ _ _ Hwe).
      destruct (0 <? dir); cbn [minutesBetween js_ge js_sub js_scale].
      * destruct (Qle_bool rem _).
        { run (run_addMinutes _ _ _ (rem * inject_Z dir)%Q Hc2).
          apply (Hrec _ _ _ 0%Q); [prefix_tac|cell_tac]. }
        rewrite (run_addDays_setHours
                   (fun c => Store.bind (Store.moveToWorkingTime n c dir)
                               (fun c' => Store.consumeLoop fuel n dir c' _
                                            (i + 1)))
                   _ r t 1 _ _ Hc2).
        apply Hmove; [prefix_tac|cell_tac].
      * destruct (Qle_bool rem _).
        { run (run_addMinutes _ _ _ (rem * inject_Z dir)%Q Hc2).
          apply (Hrec _ _ _ 0%Q); [prefix_tac|cell_tac]. }
        rewrite (run_addDays_setHours
                   (fun c => Store.bind (Store.moveToWorkingTime n c dir)
                               (fun c' => Store.consumeLoop fuel n dir c' _
                                            (i + 1)))
                   _ r t (-1) _ _ Hc2).
        apply Hmove; [prefix_tac|cell_tac].
Qed.

Lemma run_getTime_any (h : Store.heap) (r : Store.ref) (v : TimeValue) :
  h !! r = Some v -> Store.getTime r h = (h, Returns v).
Proof.
  intros H. unfold Store.getTime. do 2 f_equal.
  transitivity (default None (Some v)); [f_equal; exact H|reflexivity].
Qed.

Lemma run_copyDate_any (h : Store.heap) (r : Store.ref) (v : TimeValue) :
  h !! r = Some v -> Store.copyDate r h = (h ++ [v], Returns (length h)).
Proof.
  intros H. unfold Store.copyDate. now run (run_getTime_any h r v H).
Qed.

Lemma run_constructFrom (h0 h : Store.heap) (v : TimeValue) :
  h0 `prefix_of` h ->
  exists h' o',
    Store.constructFrom v h = (h', o')
    /\ h0 `prefix_of` h' /\ Store.returnsNew h0 h' o' (Returns v).
Proof.
  intros Hp. exists (h ++ [v]), (Returns (length h)).
  split; [reflexivity|]. split; [now apply prefix_app_r|]. split.
  - now apply list_lookup_middle.
  - now apply prefix_length.
Qed.

Lemma addBusinessHours_sim (h : Store.heap) (r : Store.ref) (d : TimeValue)
    (amount : JSNumber) (opts : BusinessHoursOptions) :
  h !! r = Some d ->
  exists h' o',
    Store.addBusinessHours r amount opts h = (h', o')
    /\ h `prefix_of` h'
    /\ Store.returnsNew h h' o' (addBusinessHours d amount opts).
Proof.
  intros Hr. unfold Store.addBusinessHours, addBusinessHours, Store.toDate.
  run (run_copyDate_any h r d Hr).
  assert (Hd : (h ++ [d]) !! length h = Some d)
    by now apply list_lookup_middle.
  run (run_getTime_any _ _ _ Hd).
  assert (Hp : h `prefix_of` h ++ [d]) by prefix_tac.
  destruct d as [t|]; [|now apply run_constructFrom].
  destruct amount as [| | |q]; try now apply run_constructFrom.
  destruct (Qeq_bool q 0).
  { run (run_getTime_any _ _ _ Hd). now apply run_constructFrom. }
  unfold Store.bind at 1, Store.lift.
  destruct (normalizeBusinessHoursOptions opts) as [n|e|]; cbn [bind].
  2:{ exists (h ++ [Some t]), (Throws e). now repeat split. }
  2:{ exists (h ++ [Some t]), Diverges. now repeat split. }
  set (dir := if Qle_bool 0 (q * 60) then 1 else -1).
  run (run_copyDate _ _ _ Hd).
  destruct (moveToWorkingTime_sim n dir _ _ t
              (cell_new (h ++ [Some t]) t)) as (h1 & o1 & E1 & P1 & Ag1).
  unfold Store.bind at 1. rewrite E1.
  assert (Hp1 : h `prefix_of` h1) by (etrans; [|exact P1]; prefix_tac).
  destruct (moveToWorkingTime n t dir) as [t1|e|];
    destruct o1 as [r1|e1|]; try contradiction; cbn [bind].
  2:{ exists h1, (Throws e1). now repeat split. }
  2:{ exists h1, Diverges. now repeat split. }
  destruct (consumeLoop_sim n dir (S (Z.to_nat maxIterations)) h1 r1 t1
              (Qabs (q * 60)) 0 Ag1) as (h2 & o2 & E2 & P2 & Ag2).
  unfold Store.bind at 1. rewrite E2.
  assert (Hp2 : h `prefix_of` h2) by (etrans; eassumption).
  destruct (consumeLoop (S (Z.to_nat maxIterations)) n dir t1 _ 0)
    as [[t2 i2]|e|]; destruct o2 as [[r2 i2']|e2|]; try contradiction;
    cbn [bind fst snd].
  2:{ exists h2, (Throws e2). now repeat split. }
  2:{ exists h2, Diverges. now repeat split. }
  destruct Ag2 as [-> Hc2].
  destruct (maxIterations <=? i2).
  { exists h2, (Throws MaxIterationsExceeded). now repeat split. }
  run (run_getTime _ _ _ Hc2). now apply run_constructFrom.
Qed.
End StoreFacts.

(** ** An amount of zero, and the caller's object *)

(** C9: whatever the amount and the options, a run of [addBusinessHours]
    on the object [r] only adds objects to the store: the object it was given
    holds afterwards the time value it held before, and what is returned is a
    new object holding the value of the value model.  On a valid instant and
    an amount of zero, that value is the instant itself: the call returns a
    new object with the time value of its argument. *)
Theorem addBusinessHours_zero_copies (h : Store.heap) (r : Store.ref)
    (d : TimeValue) (amount : JSNumber) (opts : BusinessHoursOptions) :
  h !! r = Some d ->
  (exists ext o,
      Store.addBusinessHours r amount opts h = (h ++ ext, o)
      /\ (h ++ ext) !! r = Some d
      /\ Store.returnsNew h (h ++ ext) o
           (addBusinessHours d amount opts))
  /\ (forall t q, d = Some t -> amount = Finite q -> (q == 0)%Q ->
        addBusinessHours d amount opts = Returns (Some t)
        /\ exists ext r',
             Store.addBusinessHours r amount opts h = (h ++ ext, Returns r')
             /\ (h ++ ext) !! r' = Some (Some t)
             /\ r' <> r).
Proof.
  intros Hr.
  destruct (StoreFacts.addBusinessHours_sim h r d amount opts Hr)
    as (h' & o' & E & [ext ->] & Ag).
  split.
  - exists ext, o'. split; [exact E|]. split; [|exact Ag].
    now apply lookup_app_l_Some.
  - intros t q -> -> Hq.
    assert (Hv : addBusinessHours (Some t) (Finite q) opts
                 = Returns (Some t)).
    { unfold addBusinessHours.
      now replace (Qeq_bool q 0) with true
        by (symmetry; now apply Qeq_bool_iff). }
    split; [exact Hv|].
    rewrite Hv in Ag. destruct o' as [r'|e|]; try contradiction.
    destruct Ag as [Hcell Hnew]. exists ext, r'.
    split; [exact E|]. split; [exact Hcell|].
    apply lookup_lt_Some in Hr. lia.
Qed.

Lemma addBusinessHours_zero_copies_witness :
  addBusinessHours (Some (Date.make 2023 0 2 10 0)) (hours 0) noOptions
  = Returns (Some (Date.make 2023 0 2 10 0))
  /\ exists ext r',
       Store.addBusinessHours 0%nat (hours 0) noOptions
         [Some (Date.make 2023 0 2 10 0)]
       = ([Some (Date.make 2023 0 2 10 0)] ++ ext, Returns r')
       /\ ([Some (Date.make 2023 0 2 10 0)] ++ ext) !! r'
          = Some (Some (Date.make 2023 0 2 10 0))
       /\ r' <> 0%nat.
Proof.
  destruct (addBusinessHours_zero_copies [Some (Date.make 2023 0 2 10 0)]
              0%nat (Some (Date.make 2023 0 2 10 0)) (hours 0) noOptions
              eq_refl) as [_ H].
  apply (H (Date.make 2023 0 2 10 0) 0%Q eq_refl eq_refl). reflexivity.
Defined.

(** * Further properties *)

(** ** Normalization and the daily window *)

Lemma validWorkingDay_integer (d : JSNumber) :
  validWorkingDay d = true ->
  exists (q : Q) (k : Z), d = Finite q /\ (q == inject_Z k)%Q /\ 0 <= k <= 6.
Proof.
  unfold validWorkingDay. destruct d as [| | |q]; try discriminate.
  cbn [isInteger js_lt ofInt]. rewrite !negb_involutive.
  intros H. apply andb_prop in H. destruct H as [H H6].
  apply andb_prop in H. destruct H as [Hint H0].
  apply Pos.eqb_eq in Hint. apply Qle_bool_iff in H0, H6.
  exists q, (Qnum (Qred q)).
  assert (E : (q == inject_Z (Qnum (Qred q)))%Q).
  { rewrite <- (Qred_correct q) at 1.
    destruct (Qred q) as [a b]. cbn in Hint |- *. subst b. reflexivity. }
  split; [reflexivity|]. split; [exact E|].
  rewrite E in H0, H6. rewrite <- !Zle_Qle in H0, H6. lia.
Qed.

(** X1: what normalization returns is a usable calendar: hours within 0-23,
    minutes within 0-59, the end strictly after the start, and working days
    that are a non-empty list of integers between 0 and 6. *)
Theorem normalize_returns_valid (opts : BusinessHoursOptions)
    (n : NormalizedBusinessHoursOptions) :
  normalizeBusinessHoursOptions opts = Returns n ->
  0 <= startHour n <= 23 /\ 0 <= startMinute n <= 59
  /\ 0 <= endHour n <= 23 /\ 0 <= endMinute n <= 59
  /\ startMinuteOfDay n < endMinuteOfDay n
  /\ workingDays n <> []
  /\ (forall d, In d (workingDays n) ->
        exists (q : Q) (k : Z),
          d = Finite q /\ (q == inject_Z k)%Q /\ 0 <= k <= 6).
Proof.
  intros H. destruct (normalize_valid opts n H) as [? ? ? ? ? Hwd ?].
  repeat match goal with |- _ /\ _ => split end; try assumption; try lia.
  intros d Hd. apply validWorkingDay_integer.
  rewrite forallb_forall in Hwd. now apply Hwd.
Qed.

Lemma normalize_returns_valid_witness :
  0 <= startHour defaultNormalized <= 23
  /\ startMinuteOfDay defaultNormalized < endMinuteOfDay defaultNormalized.
Proof.
  destruct (normalize_returns_valid noOptions defaultNormalized eq_refl)
    as (H1 & _ & _ & _ & H5 & _).
  split; assumption.
Defined.

Lemma parseTimeString_throws_kind (time : TimeArg) (e : Error) :
  parseTimeString time = Throws e ->
  e = TimeNotString
  \/ (exists s, e = InvalidTimeFormat s) \/ (exists s, e = InvalidTimeValue s).
Proof.
  unfold parseTimeString. destruct time as [s|]; [|intros [= <-]; now left].
  destruct (split ":" s) as [|p0 [|p1 [|p2 ps]]];
    try (intros [= <-]; right; left; now exists s).
  destruct (parseInt p0) as [x|];
    [|intros [= <-]; right; right; now exists s].
  destruct (parseInt p1) as [y|];
    [|intros [= <-]; right; right; now exists s].
  destruct ((x <? 0) || (23 <? x) || (y <? 0) || (59 <? y));
    [intros [= <-]; right; right; now exists s|discriminate].
Qed.

(** X2: the end-before-start error is thrown exactly when both time strings
    are read and the end, in minutes of the day, is not after the start;
    the working days and the holidays are not looked at before. *)
Theorem normalize_end_not_after_start (opts : BusinessHoursOptions) :
  normalizeBusinessHoursOptions opts = Throws EndNotAfterStart
  <-> exists sh sm eh em,
        parseTimeString
          (default (TimeString "09:00") (opt_startOfDay opts))
        = Returns (sh, sm)
        /\ parseTimeString
             (default (TimeString "17:00") (opt_endOfDay opts))
           = Returns (eh, em)
        /\ eh * 60 + em <= sh * 60 + sm.
Proof.
  unfold normalizeBusinessHoursOptions.
  destruct (parseTimeString
              (default (TimeString "09:00") (opt_startOfDay opts)))
    as [[sh sm]|e|] eqn:Es; cbn [bind].
  - destruct (parseTimeString
                (default (TimeString "17:00") (opt_endOfDay opts)))
      as [[eh em]|e|] eqn:Ee; cbn [bind fst snd].
    + pose proof (parseTimeString_range _ _ _ Es) as [Hsh Hsm].
      pose proof (parseTimeString_range _ _ _ Ee) as [Heh Hem].
      destruct ((eh <? sh) || ((eh =? sh) && (em <=? sm))) eqn:E.
      * split; [|reflexivity]. intros _. exists sh, sm, eh, em.
        repeat split.
        apply orb_prop in E. destruct E as [E|E]; [lia|].
        apply andb_prop in E. lia.
      * split.
        -- destruct (default _ (opt_workingDays opts)) as [[|d ds]|];
             try discriminate.
           destruct (forallb validWorkingDay (d :: ds)); [|discriminate].
           destruct (default _ (opt_holidays opts)); discriminate.
        -- intros (sh' & sm' & eh' & em' & [= <- <-] & [= <- <-] & H).
           apply orb_false_elim in E. destruct E as [E1 E2].
           apply andb_false_iff in E2. lia.
    + split.
      * intros [= ->]. apply parseTimeString_throws_kind in Ee.
        destruct Ee as [?|[[? ?]|[? ?]]]; discriminate.
      * intros (? & ? & ? & ? & _ & H & _). discriminate.
    + split; [discriminate|]. intros (? & ? & ? & ? & _ & H & _). discriminate.
  - split.
    + intros [= ->]. apply parseTimeString_throws_kind in Es.
      destruct Es as [?|[[? ?]|[? ?]]]; discriminate.
    + intros (? & ? & ? & ? & H & _). discriminate.
  - split; [discriminate|]. intros (? & ? & ? & ? & H & _). discriminate.
Qed.

(** X3: every time of day written [HH:MM] with two digits each, the hour
    below 24 and the minute below 60, is read back as that hour and that
    minute; and two such strings in order, given as start and end of day,
    are accepted with the default working days and no holiday. *)
Theorem parseTimeString_reads_time (h m : nat) :
  (h < 24)%nat -> (m < 60)%nat ->
  parseTimeString (TimeString (timeString h m))
  = Returns (Z.of_nat h, Z.of_nat m)
  /\ (forall h' m', (h' < 24)%nat -> (m' < 60)%nat ->
        (h * 60 + m < h' * 60 + m')%nat ->
        normalizeBusinessHoursOptions
          {| opt_startOfDay := Some (TimeString (timeString h m));
             opt_endOfDay := Some (TimeString (timeString h' m'));
             opt_workingDays := None; opt_holidays := None |}
        = Returns {| startHour := Z.of_nat h; startMinute := Z.of_nat m;
                     endHour := Z.of_nat h'; endMinute := Z.of_nat m';
                     workingDays := map ofInt [1; 2; 3; 4; 5];
                     holidays := [] |}).
Proof.
  assert (Hall : forall a b, (a < 24)%nat -> (b < 60)%nat ->
            parseTimeString (TimeString (timeString a b))
            = Returns (Z.of_nat a, Z.of_nat b)).
  { assert (Hc : forallb
                   (fun a =>
                      forallb
                        (fun b =>
                           match parseTimeString (TimeString (timeString a b))
                           with
                           | Returns (x, y) =>
                               (x =? Z.of_nat a) && (y =? Z.of_nat b)
                           | _ => false
                           end) (seq 0 60)) (seq 0 24) = true)
      by (vm_compute; reflexivity).
    intros a b Ha Hb. rewrite forallb_forall in Hc.
    specialize (Hc a ltac:(apply in_seq; lia)).
    rewrite forallb_forall in Hc.
    specialize (Hc b ltac:(apply in_seq; lia)).
    destruct (parseTimeString (TimeString (timeString a b)))
      as [[x y]| |]; try discriminate.
    apply andb_prop in Hc. destruct Hc as [Hx Hy].
    apply Z.eqb_eq in Hx, Hy. now subst. }
  intros Hh Hm. split; [now apply Hall|].
  intros h' m' Hh' Hm' Hord. unfold normalizeBusinessHoursOptions.
  cbn [opt_startOfDay opt_endOfDay opt_workingDays opt_holidays default
       from_option id].
  rewrite (Hall h m Hh Hm), (Hall h' m' Hh' Hm'). cbn [bind fst snd].
  replace ((Z.of_nat h' <? Z.of_nat h)
           || ((Z.of_nat h' =? Z.of_nat h) && (Z.of_nat m' <=? Z.of_nat m)))
    with false; [reflexivity|].
  symmetry. apply orb_false_intro; [lia|].
  apply andb_false_iff.
  destruct (Z.eqb_spec (Z.of_nat h') (Z.of_nat h)); [right|left; reflexivity].
  lia.
Qed.

Lemma parseTimeString_reads_time_witness :
  parseTimeString (TimeString "08:30") = Returns (8, 30).
Proof.
  apply (parseTimeString_reads_time 8 30); lia.
Defined.

Lemma minuteOfDay_ms (t : Z) : minuteOfDay t = Date.msOfDay t / msPerMinute.
Proof.
  unfold minuteOfDay, Date.getHours, Date.getMinutes, Date.msOfDay.
  unfold_ms. Z.div_mod_to_equations. lia.
Qed.

Lemma window_in_day (n : NormalizedBusinessHoursOptions) (t : Z) :
  validConfig n ->
  windowStart n t = DateFns.startOfDay t + startMs n
  /\ windowEnd n t = DateFns.startOfDay t + endMs n
  /\ DateFns.startOfDay t <= windowStart n t
  /\ windowStart n t < windowEnd n t
  /\ windowEnd n t < DateFns.startOfDay t + msPerDay.
Proof.
  intros Hv. pose proof (valid_window n Hv) as Hw.
  unfold windowStart, windowEnd, Date.setHours, DateFns.startOfDay,
    startMs, endMs in *.
  lia.
Qed.

Lemma window_same_day (n : NormalizedBusinessHoursOptions) (t t' : Z) :
  Date.dayNumber t' = Date.dayNumber t ->
  windowStart n t' = windowStart n t /\ windowEnd n t' = windowEnd n t.
Proof.
  intros H. unfold windowStart, windowEnd, Date.setHours. now rewrite H.
Qed.

(** X4: on a valid configuration the two ends of the window are null
    together; when they are not, the window starts at or after midnight of
    the day of the instant, ends after it starts and before the next
    midnight, lasts [getBusinessHoursPerDay] milliseconds, and is the same
    for every instant of that day. *)
Theorem working_window_shape (opts : BusinessHoursOptions)
    (n : NormalizedBusinessHoursOptions) (t : Z) :
  normalizeBusinessHoursOptions opts = Returns n ->
  (getWorkingHoursStart t n = None <-> getWorkingHoursEnd t n = None)
  /\ 0 < getBusinessHoursPerDay n < msPerDay
  /\ (forall ws we,
        getWorkingHoursStart t n = Some ws ->
        getWorkingHoursEnd t n = Some we ->
        DateFns.startOfDay t <= ws /\ ws < we
        /\ we < DateFns.startOfDay t + msPerDay
        /\ we - ws = getBusinessHoursPerDay n
        /\ (forall t', Date.dayNumber t' = Date.dayNumber t ->
              getWorkingHoursStart t' n = Some ws
              /\ getWorkingHoursEnd t' n = Some we)).
Proof.
  intros Hn. pose proof (normalize_valid opts n Hn) as Hv.
  destruct (window_in_day n t Hv) as (Es & Ee & H1 & H2 & H3).
  pose proof (valid_window n Hv) as Hw.
  assert (Hper : getBusinessHoursPerDay n = endMs n - startMs n).
  { unfold getBusinessHoursPerDay, endMs, startMs. unfold_ms. lia. }
  split; [|split].
  - destruct (nonWorking n t) eqn:Eoff.
    + destruct (getWorkingHours_nonWorking n t Eoff) as [-> ->]. tauto.
    + destruct (getWorkingHours_working n t Eoff) as [-> ->].
      split; discriminate.
  - rewrite Hper. lia.
  - intros ws we Hs He.
    destruct (nonWorking n t) eqn:Eoff.
    { destruct (getWorkingHours_nonWorking n t Eoff) as [E _].
      rewrite E in Hs. discriminate. }
    destruct (getWorkingHours_working n t Eoff) as [Es' Ee'].
    rewrite Es' in Hs. rewrite Ee' in He.
    injection Hs as <-. injection He as <-.
    fold (windowStart n t) (windowEnd n t).
    repeat match goal with |- _ /\ _ => split end; try lia.
    intros t' Hday.
    assert (Eoff' : nonWorking n t' = false)
      by (rewrite (nonWorking_same_day n t' t Hday); exact Eoff).
    destruct (getWorkingHours_working n t' Eoff') as [-> ->].
    fold (windowStart n t') (windowEnd n t').
    destruct (window_same_day n t t' Hday) as [-> ->]. split; reflexivity.
Qed.

Lemma working_window_shape_witness :
  0 < getBusinessHoursPerDay defaultNormalized < msPerDay
  /\ Date.make 2023 0 3 17 0 - Date.make 2023 0 3 9 0
     = getBusinessHoursPerDay defaultNormalized.
Proof.
  destruct (working_window_shape noOptions defaultNormalized
              (Date.make 2023 0 3 12 0) eq_refl) as (_ & H & Hw).
  split; [exact H|].
  apply (Hw (Date.make 2023 0 3 9 0) (Date.make 2023 0 3 17 0));
    reflexivity.
Defined.

Lemma isWithinBusinessHours_inWindow (opts : BusinessHoursOptions)
    (n : NormalizedBusinessHoursOptions) (t : Z) :
  normalizeBusinessHoursOptions opts = Returns n ->
  isWithinBusinessHours (Some t) opts = Returns true
  <-> nonWorking n t = false /\ windowStart n t <= t < windowEnd n t.
Proof.
  intros Hn. pose proof (normalize_valid opts n Hn) as Hv.
  assert (Hmin : startMinuteOfDay n <= minuteOfDay t < endMinuteOfDay n
                 <-> windowStart n t <= t < windowEnd n t).
  { rewrite minuteOfDay_ms. destruct Hv as [? ? ? ? _ _ _].
    unfold startMinuteOfDay, endMinuteOfDay, windowStart, windowEnd,
      Date.setHours, Date.msOfDay, Date.dayNumber.
    unfold_ms. Z.div_mod_to_equations. lia. }
  unfold isWithinBusinessHours. rewrite Hn. cbn [bind].
  fold (minuteOfDay t) (startMinuteOfDay n) (endMinuteOfDay n).
  unfold nonWorking.
  destruct (isWorkingDay t (workingDays n)); cbn [negb orb];
    [|split; [discriminate|intros [? _]; discriminate]].
  destruct (isHoliday t (holidays n));
    [split; [discriminate|intros [? _]; discriminate]|].
  split.
  - intros [= H]. apply andb_prop in H.
    split; [reflexivity|]. apply Hmin. lia.
  - intros [_ Hin]. f_equal. apply Hmin in Hin. apply andb_true_intro. lia.
Qed.

(** X5: on a valid configuration the membership test says of a valid
    instant exactly that it is in the window of its day, the start included
    and the end excluded, to the millisecond. *)
Theorem isWithinBusinessHours_window (opts : BusinessHoursOptions)
    (n : NormalizedBusinessHoursOptions) (t : Z) :
  normalizeBusinessHoursOptions opts = Returns n ->
  isWithinBusinessHours (Some t) opts = Returns true
  <-> exists ws we,
        getWorkingHoursStart t n = Some ws
        /\ getWorkingHoursEnd t n = Some we
        /\ ws <= t < we.
Proof.
  intros Hn. rewrite (isWithinBusinessHours_inWindow opts n t Hn).
  destruct (nonWorking n t) eqn:Eoff.
  - destruct (getWorkingHours_nonWorking n t Eoff) as [-> _].
    split; [intros [? _]|intros (? & ? & ? & _)]; discriminate.
  - destruct (getWorkingHours_working n t Eoff) as [-> ->].
    fold (windowStart n t) (windowEnd n t). split.
    + intros [_ Hin]. now exists (windowStart n t), (windowEnd n t).
    + intros (ws & we & [= <-] & [= <-] & Hin). now split.
Qed.

Lemma isWithinBusinessHours_window_witness :
  isWithinBusinessHours (Some (Date.make 2023 0 3 16 59)) noOptions
  = Returns true.
Proof.
  apply (isWithinBusinessHours_window noOptions defaultNormalized
           (Date.make 2023 0 3 16 59) eq_refl).
  exists (Date.make 2023 0 3 9 0), (Date.make 2023 0 3 17 0).
  split; [reflexivity|]. split; [reflexivity|]. vm_compute.
  split; [discriminate|reflexivity].
Defined.

(** ** Hours in an interval *)

Lemma businessHoursInInterval_ms (opts : BusinessHoursOptions)
    (n : NormalizedBusinessHoursOptions) (a c : Z) :
  normalizeBusinessHoursOptions opts = Returns n -> a <= c ->
  exists x,
    businessHoursInInterval (Some a) (Some c) opts = Returns x
    /\ (x == msToHours (businessMs n a c))%Q.
Proof. apply businessHoursInInterval_sum. Qed.

Lemma msToHours_le (a b : Z) :
  a <= b -> (msToHours a <= msToHours b)%Q.
Proof.
  intros H. unfold msToHours, Qdiv.
  apply Qmult_le_compat_r; [now rewrite <- Zle_Qle|discriminate].
Qed.

Lemma dayOverlapMs_nonneg (n : NormalizedBusinessHoursOptions) (a c k : Z) :
  0 <= dayOverlapMs n a c k.
Proof. unfold dayOverlapMs. destruct (nonWorking n _); lia. Qed.

Lemma sumDays_le (f g : Z -> Z) (count : nat) (k : Z) :
  (forall j, k <= j < k + Z.of_nat count -> f j <= g j) ->
  sumDays f count k <= sumDays g count k.
Proof.
  revert k. induction count as [|count IH]; intros k H; [reflexivity|].
  cbn [sumDays]. specialize (H k ltac:(lia)) as Hk.
  specialize (IH (k + 1) ltac:(intros j Hj; apply H; lia)). lia.
Qed.

Lemma businessMs_nonneg (n : NormalizedBusinessHoursOptions) (a c : Z) :
  0 <= businessMs n a c.
Proof.
  unfold businessMs.
  rewrite <- (sumDays_zero (fun _ => 0)
                (Z.to_nat (Date.dayNumber c + 1 - Date.dayNumber a))
                (Date.dayNumber a)) at 1 by reflexivity.
  apply sumDays_le. intros j _. apply dayOverlapMs_nonneg.
Qed.

Lemma businessMs_additive (n : NormalizedBusinessHoursOptions) (a b c : Z) :
  validConfig n -> a <= b -> b <= c ->
  businessMs n a c = businessMs n a b + businessMs n b c.
Proof. intros Hv Hab Hbc. now apply sumDays_additive. Qed.

Lemma businessMs_one_day (n : NormalizedBusinessHoursOptions) (a c : Z) :
  Date.dayNumber a = Date.dayNumber c ->
  businessMs n a c = dayOverlapMs n a c (Date.dayNumber a).
Proof.
  intros H. unfold businessMs. rewrite H.
  replace (Z.to_nat (Date.dayNumber c + 1 - Date.dayNumber c)) with 1%nat
    by lia.
  cbn [sumDays]. lia.
Qed.

(** The days from [k] to the day of [c] fill the time from the later of [a]
    and the midnight of [k] to [c]. *)
Lemma sumDays_elapsed (a c : Z) (count : nat) (k : Z) :
  a <= c -> Date.dayNumber a <= k ->
  Z.of_nat count = Date.dayNumber c + 1 - k -> (0 < count)%nat ->
  sumDays (fun j => Z.max 0 (Z.min c ((j + 1) * msPerDay)
                             - Z.max a (j * msPerDay))) count k
  = c - Z.max a (k * msPerDay).
Proof.
  intros Hac. revert k. induction count as [|count IH]; intros k Hk Hc Hpos;
    [lia|].
  pose proof (dayNumber_bounds a) as Ha. pose proof (dayNumber_bounds c) as Hb.
  cbn [sumDays]. destruct count as [|count'].
  - cbn [sumDays]. assert (k = Date.dayNumber c) by lia. subst k.
    unfold_ms. lia.
  - rewrite (IH (k + 1)) by lia. unfold_ms. lia.
Qed.

Lemma businessMs_le_elapsed (n : NormalizedBusinessHoursOptions) (a c : Z) :
  validConfig n -> a <= c -> businessMs n a c <= c - a.
Proof.
  intros Hv Hac. pose proof (valid_window n Hv) as Hw.
  pose proof (dayNumber_bounds a) as Ha. pose proof (dayNumber_bounds c) as Hc.
  assert (Hd : Date.dayNumber a <= Date.dayNumber c) by (unfold_ms; lia).
  unfold businessMs.
  etransitivity.
  - apply (sumDays_le _
             (fun j => Z.max 0 (Z.min c ((j + 1) * msPerDay)
                                - Z.max a (j * msPerDay)))).
    intros j _. unfold dayOverlapMs.
    destruct (nonWorking n (j * msPerDay)); unfold_ms; lia.
  - rewrite (sumDays_elapsed a c) by lia. lia.
Qed.

(** X6: an interval of no length counts zero hours, on every valid
    configuration and wherever the instant falls. *)
Theorem businessHoursInInterval_zero_length (opts : BusinessHoursOptions)
    (n : NormalizedBusinessHoursOptions) (d : Z) :
  normalizeBusinessHoursOptions opts = Returns n ->
  exists x,
    businessHoursInInterval (Some d) (Some d) opts = Returns x
    /\ (x == 0)%Q.
Proof.
  intros Hn.
  destruct (businessHoursInInterval_ms opts n d d Hn) as (x & Hx & Ex);
    [lia|].
  exists x. split; [exact Hx|]. rewrite Ex.
  pose proof (businessMs_nonneg n d d).
  pose proof (businessMs_le_elapsed n d d (normalize_valid opts n Hn)
                ltac:(lia)).
  replace (businessMs n d d) with 0 by lia. reflexivity.
Qed.

Lemma businessHoursInInterval_zero_length_witness :
  exists x,
    businessHoursInInterval (Some (Date.make 2023 0 2 10 0))
      (Some (Date.make 2023 0 2 10 0)) noOptions = Returns x
    /\ (x == 0)%Q.
Proof.
  apply (businessHoursInInterval_zero_length noOptions defaultNormalized).
  reflexivity.
Defined.

(** X7: on a valid configuration and an interval in order, the hours
    counted are never negative and never more than the time elapsed from
    start to end. *)
Theorem businessHoursInInterval_bounds (opts : BusinessHoursOptions)
    (n : NormalizedBusinessHoursOptions) (a c : Z) :
  normalizeBusinessHoursOptions opts = Returns n -> a <= c ->
  exists x,
    businessHoursInInterval (Some a) (Some c) opts = Returns x
    /\ (0 <= x)%Q /\ (x <= msToHours (c - a))%Q.
Proof.
  intros Hn Hac.
  destruct (businessHoursInInterval_ms opts n a c Hn Hac) as (x & Hx & Ex).
  exists x. split; [exact Hx|]. rewrite Ex. split.
  - rewrite <- msToHours_zero. apply msToHours_le, businessMs_nonneg.
  - apply msToHours_le, businessMs_le_elapsed; [|exact Hac].
    eapply normalize_valid; eassumption.
Qed.

Lemma businessHoursInInterval_bounds_witness :
  exists x,
    businessHoursInInterval (Some (Date.make 2023 0 2 7 0))
      (Some (Date.make 2023 0 2 12 0)) noOptions = Returns x
    /\ (0 <= x)%Q
    /\ (x <= msToHours (Date.make 2023 0 2 12 0 - Date.make 2023 0 2 7 0))%Q.
Proof.
  apply (businessHoursInInterval_bounds noOptions defaultNormalized);
    [reflexivity|vm_compute; discriminate].
Defined.

(** X8: an interval that lies inside the window of one open day counts all
    of its length. *)
Theorem businessHoursInInterval_inside_window (opts : BusinessHoursOptions)
    (n : NormalizedBusinessHoursOptions) (a c ws we : Z) :
  normalizeBusinessHoursOptions opts = Returns n ->
  getWorkingHoursStart a n = Some ws ->
  getWorkingHoursEnd a n = Some we ->
  ws <= a -> a <= c -> c <= we ->
  exists x,
    businessHoursInInterval (Some a) (Some c) opts = Returns x
    /\ (x == msToHours (c - a))%Q.
Proof.
  intros Hn Hs He Hwa Hac Hcw.
  pose proof (normalize_valid opts n Hn) as Hv.
  destruct (businessHoursInInterval_ms opts n a c Hn Hac) as (x & Hx & Ex).
  exists x. split; [exact Hx|]. rewrite Ex.
  destruct (nonWorking n a) eqn:Eoff.
  { destruct (getWorkingHours_nonWorking n a Eoff) as [E _].
    rewrite E in Hs. discriminate. }
  destruct (getWorkingHours_working n a Eoff) as [Es' Ee'].
  rewrite Es' in Hs. rewrite Ee' in He.
  injection Hs as <-. injection He as <-.
  fold (windowStart n a) in Hwa. fold (windowEnd n a) in Hcw.
  destruct (window_in_day n a Hv) as (Ews & Ewe & H1 & H2 & H3).
  unfold DateFns.startOfDay in *.
  assert (Hday : Date.dayNumber a = Date.dayNumber c).
  { symmetry. apply dayNumber_unique. pose proof (dayNumber_bounds a). lia. }
  rewrite (businessMs_one_day n a c Hday). unfold dayOverlapMs.
  rewrite (nonWorking_same_day n (Date.dayNumber a * msPerDay) a)
    by apply dayNumber_dayStart.
  rewrite Eoff.
  replace (Z.max 0 _) with (c - a) by lia. reflexivity.
Qed.

Lemma businessHoursInInterval_inside_window_witness :
  exists x,
    businessHoursInInterval (Some (Date.make 2023 0 2 10 0))
      (Some (Date.make 2023 0 2 15 30)) noOptions = Returns x
    /\ (x == msToHours (Date.make 2023 0 2 15 30 - Date.make 2023 0 2 10 0))%Q.
Proof.
  apply (businessHoursInInterval_inside_window noOptions defaultNormalized
           _ _ (Date.make 2023 0 2 9 0) (Date.make 2023 0 2 17 0));
    try reflexivity; vm_compute; discriminate.
Defined.

(** X9: widening an interval never lowers the count: with
    [a' <= a <= c <= c'], the hours from [a] to [c] are at most the hours
    from [a'] to [c']. *)
Theorem businessHoursInInterval_monotone (opts : BusinessHoursOptions)
    (n : NormalizedBusinessHoursOptions) (a' a c c' : Z) :
  normalizeBusinessHoursOptions opts = Returns n ->
  a' <= a -> a <= c -> c <= c' ->
  exists x x',
    businessHoursInInterval (Some a) (Some c) opts = Returns x
    /\ businessHoursInInterval (Some a') (Some c') opts = Returns x'
    /\ (x <= x')%Q.
Proof.
  intros Hn H1 H2 H3. pose proof (normalize_valid opts n Hn) as Hv.
  destruct (businessHoursInInterval_ms opts n a c Hn H2) as (x & Hx & Ex).
  destruct (businessHoursInInterval_ms opts n a' c' Hn ltac:(lia))
    as (x' & Hx' & Ex').
  exists x, x'. split; [exact Hx|]. split; [exact Hx'|].
  rewrite Ex, Ex'. apply msToHours_le.
  rewrite (businessMs_additive n a' a c' Hv) by lia.
  rewrite (businessMs_additive n a c c' Hv) by lia.
  pose proof (businessMs_nonneg n a' a). pose proof (businessMs_nonneg n c c').
  lia.
Qed.

Lemma businessHoursInInterval_monotone_witness :
  exists x x',
    businessHoursInInterval (Some (Date.make 2023 0 3 10 0))
      (Some (Date.make 2023 0 4 12 0)) noOptions = Returns x
    /\ businessHoursInInterval (Some (Date.make 2023 0 2 9 0))
         (Some (Date.make 2023 0 6 17 0)) noOptions = Returns x'
    /\ (x <= x')%Q.
Proof.
  apply (businessHoursInInterval_monotone noOptions defaultNormalized);
    [reflexivity|vm_compute; discriminate..].
Defined.

Lemma normalize_withHolidays (opts : BusinessHoursOptions)
    (hs hs' : list TimeValue) (n : NormalizedBusinessHoursOptions) :
  normalizeBusinessHoursOptions (withHolidays opts hs) = Returns n ->
  holidays n = hs
  /\ normalizeBusinessHoursOptions (withHolidays opts hs')
     = Returns {| startHour := startHour n; startMinute := startMinute n;
                  endHour := endHour n; endMinute := endMinute n;
                  workingDays := workingDays n; holidays := hs' |}.
Proof.
  unfold normalizeBusinessHoursOptions, withHolidays.
  cbn [opt_startOfDay opt_endOfDay opt_workingDays opt_holidays].
  destruct (parseTimeString (default _ (opt_startOfDay opts)))
    as [[sh sm]| |]; cbn [bind]; try discriminate.
  destruct (parseTimeString (default _ (opt_endOfDay opts)))
    as [[eh em]| |]; cbn [bind fst snd]; try discriminate.
  destruct ((eh <? sh) || ((eh =? sh) && (em <=? sm))); [discriminate|].
  destruct (default _ (opt_workingDays opts)) as [[|d ds]|]; try discriminate.
  destruct (forallb validWorkingDay (d :: ds)); [|discriminate].
  cbn [default from_option id]. intros [= <-]. split; reflexivity.
Qed.

Lemma dayOverlapMs_more_holidays (n n' : NormalizedBusinessHoursOptions)
    (extra : list TimeValue) (a c k : Z) :
  startHour n' = startHour n -> startMinute n' = startMinute n ->
  endHour n' = endHour n -> endMinute n' = endMinute n ->
  workingDays n' = workingDays n -> holidays n' = extra ++ holidays n ->
  dayOverlapMs n' a c k <= dayOverlapMs n a c k.
Proof.
  intros E1 E2 E3 E4 E5 E6. unfold dayOverlapMs, nonWorking, startMs, endMs.
  rewrite E1, E2, E3, E4, E5, E6. unfold isHoliday at 1.
  rewrite existsb_app. fold (isHoliday (k * msPerDay) extra).
  fold (isHoliday (k * msPerDay) (holidays n)).
  destruct (negb (isWorkingDay (k * msPerDay) (workingDays n)));
    cbn [orb]; [reflexivity|].
  destruct (isHoliday (k * msPerDay) extra),
    (isHoliday (k * msPerDay) (holidays n)); cbn [orb]; lia.
Qed.

(** X10: holidays only take hours away: with more holiday entries and the
    rest of the options unchanged, the hours counted on an interval are at
    most what they were. *)
Theorem businessHoursInInterval_more_holidays (opts : BusinessHoursOptions)
    (hs extra : list TimeValue) (n : NormalizedBusinessHoursOptions)
    (a c : Z) :
  normalizeBusinessHoursOptions (withHolidays opts hs) = Returns n ->
  a <= c ->
  exists x x',
    businessHoursInInterval (Some a) (Some c) (withHolidays opts hs)
    = Returns x
    /\ businessHoursInInterval (Some a) (Some c)
         (withHolidays opts (extra ++ hs)) = Returns x'
    /\ (x' <= x)%Q.
Proof.
  intros Hn Hac.
  destruct (normalize_withHolidays opts hs (extra ++ hs) n Hn) as [Eh Hn'].
  destruct (businessHoursInInterval_ms _ n a c Hn Hac) as (x & Hx & Ex).
  destruct (businessHoursInInterval_ms _ _ a c Hn' Hac) as (x' & Hx' & Ex').
  exists x, x'. split; [exact Hx|]. split; [exact Hx'|].
  rewrite Ex, Ex'. apply msToHours_le. unfold businessMs.
  apply sumDays_le. intros j _.
  apply (dayOverlapMs_more_holidays n _ extra); try reflexivity.
  cbn [holidays]. now rewrite Eh.
Qed.

Lemma businessHoursInInterval_more_holidays_witness :
  exists x x',
    businessHoursInInterval (Some (Date.make 2023 0 2 9 0))
      (Some (Date.make 2023 0 4 17 0)) (withHolidays noOptions [])
    = Returns x
    /\ businessHoursInInterval (Some (Date.make 2023 0 2 9 0))
         (Some (Date.make 2023 0 4 17 0))
         (withHolidays noOptions ([Some (Date.make 2023 0 3 0 0)] ++ []))
       = Returns x'
    /\ (x' <= x)%Q.
Proof.
  apply (businessHoursInInterval_more_holidays noOptions []
           [Some (Date.make 2023 0 3 0 0)] defaultNormalized);
    [reflexivity|vm_compute; discriminate].
Defined.

(** ** The walk of [addBusinessHours] *)

Lemma snapped_inWindow (n : NormalizedBusinessHoursOptions) (dir t : Z) :
  snapped n dir t -> inWindow n t.
Proof.
  intros (H1 & H2 & H3). split; [exact H1|]. destruct (0 <? dir); lia.
Qed.

Lemma window_of_boundary (n : NormalizedBusinessHoursOptions) (x : Z) :
  validConfig n ->
  Date.dayNumber (windowStart n x) = Date.dayNumber x
  /\ Date.dayNumber (windowEnd n x) = Date.dayNumber x.
Proof.
  intros [? ? ? ? _ _ _]. unfold windowStart, windowEnd.
  split; now apply dayNumber_setHours.
Qed.

Lemma moveLoop_walk (n : NormalizedBusinessHoursOptions) (dir : Z)
    (fuel : nat) (r a r' a' : Z) :
  validConfig n -> dir = 1 \/ dir = -1 ->
  moveLoop fuel n dir r a = Returns (r', a') ->
  ahead dir r r' /\ (a' < maxAttempts -> snapped n dir r').
Proof.
  intros Hv Hdir. revert r a.
  induction fuel as [|fuel IH]; intros r a; [discriminate|].
  assert (Hstep : forall x,
             ahead dir r x ->
             moveLoop fuel n dir x (a + 1) = Returns (r', a') ->
             ahead dir r r' /\ (a' < maxAttempts -> snapped n dir r')).
  { intros x Hx E. destruct (IH x (a + 1) E) as [H1 H2].
    split; [|exact H2]. unfold ahead in *. destruct (0 <? dir); lia. }
  destruct (window_in_day n r Hv) as (Ews & Ewe & W1 & W2 & W3).
  pose proof (dayNumber_bounds r) as Hr.
  pose proof (valid_window n Hv) as Hw.
  assert (Hclosed : ahead dir r (setBoundary n dir (DateFns.addDays r dir))).
  { unfold ahead, setBoundary, Date.setHours. rewrite dayNumber_addDays.
    fold (startMs n).
    destruct Hdir as [-> | ->]; cbn [Z.ltb Z.compare].
    - rewrite <- Z.add_assoc. fold (startMs n). unfold_ms. lia.
    - rewrite <- Z.add_assoc. fold (endMs n). unfold_ms. lia. }
  cbn [moveLoop]. destruct (Z.ltb_spec a maxAttempts) as [Ha|Ha].
  2:{ intros [= <- <-]. split; [|lia]. unfold ahead. destruct (0 <? dir); lia. }
  fold (nonWorking n r). destruct (nonWorking n r) eqn:Eoff.
  { apply Hstep, Hclosed. }
  destruct (getWorkingHours_working n r Eoff) as [-> ->].
  fold (windowStart n r) (windowEnd n r).
  unfold DateFns.isBefore, DateFns.isAfter.
  destruct (window_of_boundary n r Hv) as [Ds De].
  assert (Hself : forall x, x = r ->
             windowStart n r <= r -> (if 0 <? dir then r < windowEnd n r
                                      else r <= windowEnd n r) ->
             ahead dir r x /\ (a + 1 < maxAttempts -> snapped n dir x)).
  { intros x -> H1 H2. split.
    - unfold ahead. destruct (0 <? dir); lia.
    - intros _. repeat split; assumption. }
  destruct (0 <? dir) eqn:Edir.
  - destruct (Z.ltb_spec r (windowStart n r)) as [Hb|Hb].
    + intros [= <- <-]. split; [unfold ahead; rewrite Edir; lia|].
      intros _. unfold snapped. rewrite Edir.
      rewrite (nonWorking_same_day n _ r Ds).
      destruct (window_same_day n r (windowStart n r) Ds) as [-> ->].
      repeat split; [exact Eoff|lia|lia].
    + destruct (Z.ltb_spec (windowEnd n r) r) as [Hafter|Hafter]; cbn [orb].
      * apply Hstep. unfold ahead. rewrite Edir.
        unfold Date.setHours. rewrite dayNumber_addDays.
        rewrite <- Z.add_assoc. fold (startMs n). unfold_ms. lia.
      * destruct (Z.eqb_spec r (windowEnd n r)) as [Heq|Hne].
        -- apply Hstep. unfold ahead. rewrite Edir.
           unfold Date.setHours. rewrite dayNumber_addDays.
           rewrite <- Z.add_assoc. fold (startMs n). unfold_ms. lia.
        -- intros [= <- <-]. apply Hself; [reflexivity|lia|lia].
  - destruct (Z.ltb_spec (windowEnd n r) r) as [Hafter|Hafter]; cbn [orb].
    + intros [= <- <-]. split; [unfold ahead; rewrite Edir; lia|].
      intros _. unfold snapped. rewrite Edir.
      rewrite (nonWorking_same_day n _ r De).
      destruct (window_same_day n r (windowEnd n r) De) as [-> ->].
      repeat split; [exact Eoff|lia|lia].
    + destruct (Z.eqb_spec r (windowEnd n r)) as [Heq|Hne].
      * intros [= <- <-]. split; [unfold ahead; rewrite Edir; lia|].
        intros _. unfold snapped. rewrite Edir.
        rewrite (nonWorking_same_day n _ r De).
        destruct (window_same_day n r (windowEnd n r) De) as [-> ->].
        repeat split; [exact Eoff|lia|lia].
      * destruct (Z.ltb_spec r (windowStart n r)) as [Hb|Hb].
        -- apply Hstep. unfold ahead. rewrite Edir.
           unfold Date.setHours. rewrite dayNumber_addDays.
           rewrite <- Z.add_assoc. fold (endMs n). unfold_ms. lia.
        -- intros [= <- <-]. apply Hself; [reflexivity|lia|lia].
Qed.

Lemma moveToWorkingTime_walk (n : NormalizedBusinessHoursOptions)
    (dir x s : Z) :
  validConfig n -> dir = 1 \/ dir = -1 ->
  moveToWorkingTime n x dir = Returns s ->
  ahead dir x s /\ snapped n dir s.
Proof.
  intros Hv Hdir. unfold moveToWorkingTime.
  destruct (moveLoop (S (Z.to_nat maxAttempts)) n dir x 0)
    as [[r a]| |] eqn:E; cbn [bind fst snd]; try discriminate.
  destruct (Z.leb_spec maxAttempts a) as [Ha|Ha]; [discriminate|].
  intros [= <-].
  destruct (moveLoop_walk n dir _ _ _ _ _ Hv Hdir E) as [H1 H2].
  split; [exact H1|now apply H2].
Qed.

Lemma minutes_le (a b : Q) :
  (a <= b / inject_Z (1000 * 60) <-> a * inject_Z msPerMinute <= b)%Q.
Proof.
  change (inject_Z (1000 * 60)) with (60000 # 1)%Q.
  change (inject_Z msPerMinute) with (60000 # 1)%Q.
  split; intros H.
  - apply (Qmult_le_compat_r _ _ (60000 # 1)) in H; [|discriminate].
    assert (E : (b / (60000 # 1) * (60000 # 1) == b)%Q) by field.
    rewrite E in H. exact H.
  - apply Qle_shift_div_l; [reflexivity|exact H].
Qed.

Lemma inject_Z_minus (a b : Z) :
  (inject_Z (a - b) == inject_Z a - inject_Z b)%Q.
Proof.
  unfold Z.sub, Qminus. now rewrite inject_Z_plus, inject_Z_opp.
Qed.

Lemma Qtrunc_between (lo hi : Z) (y : Q) :
  (inject_Z lo <= y)%Q -> (y <= inject_Z hi)%Q -> lo <= Qtrunc y <= hi.
Proof.
  intros Hlo Hhi. unfold Qtrunc.
  destruct (Qle_bool 0 y); split.
  - rewrite <- (Qfloor_Z lo). now apply Qfloor_resp_le.
  - rewrite <- (Qfloor_Z hi). now apply Qfloor_resp_le.
  - rewrite <- (Qceiling_Z lo). now apply Qceiling_resp_le.
  - rewrite <- (Qceiling_Z hi). now apply Qceiling_resp_le.
Qed.

Lemma Qle_bool_false_lt (a b : Q) : Qle_bool a b = false -> (b < a)%Q.
Proof.
  intros H. apply Qnot_le_lt. intros Hle. apply Qle_bool_iff in Hle.
  congruence.
Qed.

(** When what is left fits in the window, [addMinutes] stays in it and does
    not go back. *)
Lemma addMinutes_fits (n : NormalizedBusinessHoursOptions)
    (dir cur : Z) (rem : Q) :
  dir = 1 \/ dir = -1 -> windowStart n cur <= cur <= windowEnd n cur ->
  Qle_bool rem 0 = false ->
  Qle_bool rem (availableMinutes n dir cur) = true ->
  ahead dir cur (DateFns.addMinutes cur (rem * inject_Z dir))
  /\ windowStart n cur <= DateFns.addMinutes cur (rem * inject_Z dir)
     <= windowEnd n cur.
Proof.
  intros Hdir Hin Hpos Hfit. apply Qle_bool_false_lt in Hpos.
  apply Qle_bool_iff in Hfit. unfold availableMinutes in Hfit.
  fold (windowStart n cur) (windowEnd n cur) in Hfit.
  unfold DateFns.addMinutes, ahead.
  destruct Hin as [Hs He]. rewrite Zle_Qle in Hs, He.
  destruct Hdir as [-> | ->]; cbn [Z.ltb Z.compare] in *.
  - apply minutes_le in Hfit. rewrite inject_Z_minus in Hfit.
    change (inject_Z 1) with 1%Q.
    pose proof (Qtrunc_between cur (windowEnd n cur)
                  (inject_Z cur + rem * 1 * inject_Z msPerMinute)%Q) as H.
    change (inject_Z msPerMinute) with (60000 # 1)%Q in *.
    destruct H as [H1 H2]; [lra|lra|]. rewrite <- Zle_Qle in Hs. lia.
  - apply minutes_le in Hfit. rewrite inject_Z_minus in Hfit.
    change (inject_Z (-1)) with (-1 # 1)%Q.
    pose proof (Qtrunc_between (windowStart n cur) cur
                  (inject_Z cur + rem * (-1 # 1) * inject_Z msPerMinute)%Q)
      as H.
    change (inject_Z msPerMinute) with (60000 # 1)%Q in *.
    destruct H as [H1 H2]; [lra|lra|]. rewrite <- Zle_Qle in He. lia.
Qed.

Lemma inWindow_same_window (n : NormalizedBusinessHoursOptions) (cur x : Z) :
  validConfig n -> inWindow n cur ->
  windowStart n cur <= x <= windowEnd n cur -> inWindow n x.
Proof.
  intros Hv [Hon Hin] Hx.
  destruct (window_in_day n cur Hv) as (_ & _ & W1 & W2 & W3).
  assert (Hday : Date.dayNumber x = Date.dayNumber cur).
  { apply dayNumber_unique. unfold DateFns.startOfDay in *. lia. }
  split.
  - now rewrite (nonWorking_same_day n x cur Hday).
  - now destruct (window_same_day n cur x Hday) as [-> ->].
Qed.

Lemma ahead_trans (dir a b c : Z) :
  ahead dir a b -> ahead dir b c -> ahead dir a c.
Proof. unfold ahead. destruct (0 <? dir); lia. Qed.

Lemma ahead_nextBoundary (n : NormalizedBusinessHoursOptions) (dir cur : Z) :
  validConfig n -> ahead dir cur (nextBoundary n dir cur).
Proof.
  intros Hv. pose proof (valid_window n Hv) as Hw.
  pose proof (dayNumber_bounds cur) as Hc.
  unfold ahead, nextBoundary, Date.setHours. rewrite !dayNumber_addDays.
  rewrite <- !Z.add_assoc. fold (startMs n) (endMs n).
  destruct (0 <? dir); unfold_ms; lia.
Qed.

Lemma consumeLoop_walk (n : NormalizedBusinessHoursOptions) (dir : Z)
    (fuel : nat) (cur : Z) (rem : Q) (i r i' : Z) :
  validConfig n -> dir = 1 \/ dir = -1 -> inWindow n cur ->
  consumeLoop fuel n dir cur rem i = Returns (r, i') ->
  ahead dir cur r /\ inWindow n r.
Proof.
  intros Hv Hdir. revert cur rem i.
  induction fuel as [|fuel IH]; intros cur rem i Hin; [discriminate|].
  assert (Hrefl : ahead dir cur cur)
    by (unfold ahead; destruct (0 <? dir); lia).
  destruct (Qle_bool rem 0) eqn:Hpos.
  { rewrite consumeLoop_done by exact Hpos. intros [= <- <-]. now split. }
  destruct (Z.ltb_spec i maxIterations) as [Hi|Hi].
  2:{ cbn [consumeLoop]. rewrite Hpos.
      replace (i <? maxIterations) with false
        by (symmetry; now apply Z.ltb_ge).
      cbn [negb andb]. intros [= <- <-]. now split. }
  destruct Hin as [Hon Hw].
  destruct (Qle_bool rem (availableMinutes n dir cur)) eqn:Hfit.
  - rewrite consumeLoop_fits by assumption. intros E.
    destruct (addMinutes_fits n dir cur rem Hdir Hw Hpos Hfit) as [H1 H2].
    destruct (IH _ _ _ (inWindow_same_window n cur _ Hv (conj Hon Hw) H2) E)
      as [H3 H4].
    split; [eapply ahead_trans; eassumption|exact H4].
  - rewrite consumeLoop_spills by assumption.
    destruct (moveToWorkingTime n (nextBoundary n dir cur) dir)
      as [s| |] eqn:Es; cbn [bind]; try discriminate.
    intros E.
    destruct (moveToWorkingTime_walk n dir _ s Hv Hdir Es) as [H1 H2].
    destruct (IH _ _ _ (snapped_inWindow n dir s H2) E) as [H3 H4].
    split; [|exact H4].
    eapply ahead_trans; [apply ahead_nextBoundary, Hv|].
    eapply ahead_trans; eassumption.
Qed.

Lemma addBusinessHours_walk (opts : BusinessHoursOptions)
    (n : NormalizedBusinessHoursOptions) (t : Z) (q : Q) (r : Z) :
  normalizeBusinessHoursOptions opts = Returns n -> ~ (q == 0)%Q ->
  addBusinessHours (Some t) (Finite q) opts = Returns (Some r) ->
  ahead (if Qle_bool 0 (q * 60) then 1 else -1) t r /\ inWindow n r.
Proof.
  intros Hn Hq. pose proof (normalize_valid opts n Hn) as Hv.
  unfold addBusinessHours.
  destruct (Qeq_bool q 0) eqn:E0; [now apply Qeq_bool_iff in E0|].
  rewrite Hn. cbn [bind].
  set (dir := if Qle_bool 0 (q * 60) then 1 else -1).
  assert (Hdir : dir = 1 \/ dir = -1)
    by (unfold dir; destruct (Qle_bool 0 (q * 60)); auto).
  destruct (moveToWorkingTime n t dir) as [s| |] eqn:Es; cbn [bind];
    try discriminate.
  destruct (consumeLoop _ n dir s _ 0) as [[c i]| |] eqn:Ec;
    cbn [bind fst snd]; try discriminate.
  destruct (maxIterations <=? i); [discriminate|]. intros [= <-].
  destruct (moveToWorkingTime_walk n dir t s Hv Hdir Es) as [H1 H2].
  destruct (consumeLoop_walk n dir _ _ _ _ _ _ Hv Hdir
              (snapped_inWindow n dir s H2) Ec) as [H3 H4].
  split; [eapply ahead_trans; eassumption|exact H4].
Qed.



(** X12: the result is never on the wrong side of the starting instant: not
    before it for a positive amount, not after it for a negative one. *)
Theorem addBusinessHours_direction (opts : BusinessHoursOptions)
    (n : NormalizedBusinessHoursOptions) (t : Z) (q : Q) (r : Z) :
  normalizeBusinessHoursOptions opts = Returns n -> ~ (q == 0)%Q ->
  addBusinessHours (Some t) (Finite q) opts = Returns (Some r) ->
  ((0 < q)%Q -> t <= r) /\ ((q < 0)%Q -> r <= t).
Proof.
  intros Hn Hq E.
  destruct (addBusinessHours_walk opts n t q r Hn Hq E) as [H _].
  unfold ahead in H. split; intros Hs.
  - replace (Qle_bool 0 (q * 60)) with true in H; [exact H|].
    symmetry. apply Qle_bool_iff. lra.
  - replace (Qle_bool 0 (q * 60)) with false in H; [exact H|].
    symmetry. destruct (Qle_bool 0 (q * 60)) eqn:E'; [|reflexivity].
    apply Qle_bool_iff in E'. lra.
Qed.

Lemma addBusinessHours_direction_witness :
  Date.make 2023 0 7 10 0 <= Date.make 2023 0 9 14 0
  /\ Date.make 2023 0 6 15 0 <= Date.make 2023 0 9 11 0.
Proof.
  split.
  - apply (addBusinessHours_direction noOptions defaultNormalized
             (Date.make 2023 0 7 10 0) 5%Q (Date.make 2023 0 9 14 0));
      [reflexivity|intros H; discriminate H|vm_compute; reflexivity
      |reflexivity].
  - apply (addBusinessHours_direction noOptions defaultNormalized
             (Date.make 2023 0 9 11 0) (-4)%Q (Date.make 2023 0 6 15 0));
      [reflexivity|intros H; discriminate H|vm_compute; reflexivity
      |reflexivity].
Defined.

(** ** The walk and the count agree *)

Lemma businessMs_idle (n : NormalizedBusinessHoursOptions) (a c : Z) :
  (forall k, Date.dayNumber a <= k <= Date.dayNumber c ->
             nonWorking n (k * msPerDay) = true
             \/ Z.min c (k * msPerDay + endMs n)
                <= Z.max a (k * msPerDay + startMs n)) ->
  businessMs n a c = 0.
Proof.
  intros H. unfold businessMs. apply sumDays_zero. intros j Hj.
  unfold dayOverlapMs. destruct (H j ltac:(lia)) as [-> | Hle];
    [reflexivity|].
  destruct (nonWorking n (j * msPerDay)); lia.
Qed.

Lemma businessMs_inside (n : NormalizedBusinessHoursOptions) (a c : Z) :
  validConfig n -> nonWorking n a = false ->
  windowStart n a <= a -> a <= c -> c <= windowEnd n a ->
  businessMs n a c = c - a.
Proof.
  intros Hv Hon Hwa Hac Hcw.
  destruct (window_in_day n a Hv) as (Ews & Ewe & H1 & H2 & H3).
  unfold DateFns.startOfDay in *.
  assert (Hday : Date.dayNumber a = Date.dayNumber c).
  { symmetry. apply dayNumber_unique. pose proof (dayNumber_bounds a). lia. }
  rewrite (businessMs_one_day n a c Hday). unfold dayOverlapMs.
  rewrite (nonWorking_same_day n (Date.dayNumber a * msPerDay) a)
    by apply dayNumber_dayStart.
  rewrite Hon. lia.
Qed.

Lemma walked_add (n : NormalizedBusinessHoursOptions) (dir a b c : Z) :
  validConfig n -> ahead dir a b -> ahead dir b c ->
  walked n dir a c = walked n dir a b + walked n dir b c.
Proof.
  intros Hv. unfold ahead, walked. destruct (0 <? dir); intros H1 H2.
  - now apply businessMs_additive.
  - rewrite (businessMs_additive n c b a Hv H2 H1). lia.
Qed.

Lemma walked_self (n : NormalizedBusinessHoursOptions) (dir a : Z) :
  validConfig n -> walked n dir a a = 0.
Proof.
  intros Hv. pose proof (businessMs_nonneg n a a).
  pose proof (businessMs_le_elapsed n a a Hv ltac:(lia)).
  unfold walked. destruct (0 <? dir); lia.
Qed.

(** Going to the boundary of the neighbouring day crosses what is left of
    the window of the day, and nothing when the day is closed or the window
    is behind. *)
Lemma walked_to_boundary (n : NormalizedBusinessHoursOptions)
    (dir r x : Z) :
  validConfig n -> dir = 1 \/ dir = -1 ->
  x = (if 0 <? dir
       then (Date.dayNumber r + 1) * msPerDay + startMs n
       else (Date.dayNumber r - 1) * msPerDay + endMs n) ->
  walked n dir r x
  = if nonWorking n r then 0
    else if 0 <? dir
         then Z.max 0 (windowEnd n r - Z.max r (windowStart n r))
         else Z.max 0 (Z.min r (windowEnd n r) - windowStart n r).
Proof.
  intros Hv Hdir ->. pose proof (valid_window n Hv) as Hw.
  pose proof (dayNumber_bounds r) as Hr.
  destruct (window_in_day n r Hv) as (Ews & Ewe & _).
  unfold DateFns.startOfDay in *.
  set (d := Date.dayNumber r) in *.
  assert (Hsame : nonWorking n (d * msPerDay) = nonWorking n r)
    by (apply nonWorking_same_day, dayNumber_dayStart).
  unfold walked. destruct Hdir as [-> | ->]; cbn [Z.ltb Z.compare].
  - assert (Hx : Date.dayNumber ((d + 1) * msPerDay + startMs n) = d + 1)
      by (apply dayNumber_unique; unfold_ms; lia).
    unfold businessMs. rewrite Hx. fold d.
    replace (Z.to_nat (d + 1 + 1 - d)) with 2%nat by lia.
    cbn [sumDays]. unfold dayOverlapMs. rewrite Hsame, Ews, Ewe.
    destruct (nonWorking n r), (nonWorking n ((d + 1) * msPerDay));
      unfold_ms; lia.
  - assert (Hx : Date.dayNumber ((d - 1) * msPerDay + endMs n) = d - 1)
      by (apply dayNumber_unique; unfold_ms; lia).
    unfold businessMs. rewrite Hx. fold d.
    replace (Z.to_nat (d + 1 - (d - 1))) with 2%nat by lia.
    cbn [sumDays]. unfold dayOverlapMs.
    replace (d - 1 + 1) with d by lia. rewrite Hsame, Ews, Ewe.
    destruct (nonWorking n r), (nonWorking n ((d - 1) * msPerDay));
      unfold_ms; lia.
Qed.

Lemma setBoundary_form (n : NormalizedBusinessHoursOptions) (dir r : Z) :
  dir = 1 \/ dir = -1 ->
  setBoundary n dir (DateFns.addDays r dir)
  = (if 0 <? dir
     then (Date.dayNumber r + 1) * msPerDay + startMs n
     else (Date.dayNumber r - 1) * msPerDay + endMs n)
  /\ nextBoundary n dir r
     = (if 0 <? dir
        then (Date.dayNumber r + 1) * msPerDay + startMs n
        else (Date.dayNumber r - 1) * msPerDay + endMs n).
Proof.
  unfold setBoundary, nextBoundary, Date.setHours, startMs, endMs.
  rewrite !dayNumber_addDays.
  intros [-> | ->]; cbn [Z.ltb Z.compare]; split; lia.
Qed.

(** The snap phase crosses no business time. *)
Lemma moveLoop_idle (n : NormalizedBusinessHoursOptions) (dir : Z)
    (fuel : nat) (r a r' a' : Z) :
  validConfig n -> dir = 1 \/ dir = -1 ->
  moveLoop fuel n dir r a = Returns (r', a') ->
  walked n dir r r' = 0.
Proof.
  intros Hv Hdir. revert r a.
  induction fuel as [|fuel IH]; intros r a; [discriminate|].
  destruct (setBoundary_form n dir r Hdir) as [Eb Enb].
  pose proof (walked_to_boundary n dir r _ Hv Hdir eq_refl) as Hgap.
  assert (Hstep : forall x,
             x = (if 0 <? dir
                  then (Date.dayNumber r + 1) * msPerDay + startMs n
                  else (Date.dayNumber r - 1) * msPerDay + endMs n) ->
             walked n dir r x = 0 ->
             moveLoop fuel n dir x (a + 1) = Returns (r', a') ->
             walked n dir r r' = 0).
  { intros x Ex Hx E.
    destruct (moveLoop_walk n dir _ _ _ _ _ Hv Hdir E) as [Hahead _].
    rewrite (walked_add n dir r x r' Hv); [|subst x|exact Hahead].
    - rewrite Hx, (IH x (a + 1) E). reflexivity.
    - rewrite <- Enb. apply ahead_nextBoundary, Hv. }
  destruct (window_in_day n r Hv) as (Ews & Ewe & W1 & W2 & W3).
  cbn [moveLoop]. destruct (Z.ltb_spec a maxAttempts) as [Ha|Ha].
  2:{ intros [= <- <-]. now apply walked_self. }
  fold (nonWorking n r). destruct (nonWorking n r) eqn:Eoff.
  { rewrite Eb. apply Hstep; [reflexivity|exact Hgap]. }
  destruct (getWorkingHours_working n r Eoff) as [-> ->].
  fold (windowStart n r) (windowEnd n r).
  unfold DateFns.isBefore, DateFns.isAfter.
  assert (Enext : Date.setHours (DateFns.addDays r 1) (startHour n)
                    (startMinute n)
                  = (Date.dayNumber r + 1) * msPerDay + startMs n).
  { unfold Date.setHours, startMs. rewrite dayNumber_addDays. lia. }
  assert (Eprev : Date.setHours (DateFns.addDays r (-1)) (endHour n)
                    (endMinute n)
                  = (Date.dayNumber r - 1) * msPerDay + endMs n).
  { unfold Date.setHours, endMs. rewrite dayNumber_addDays. lia. }
  destruct (0 <? dir) eqn:Edir.
  - destruct (Z.ltb_spec r (windowStart n r)) as [Hb|Hb].
    + intros [= <- <-]. unfold walked. rewrite Edir.
      apply businessMs_idle. intros k Hk. right.
      destruct (window_of_boundary n r Hv) as [Ds _].
      assert (k = Date.dayNumber r) by lia. subst k.
      unfold DateFns.startOfDay in *. lia.
    + destruct (Z.ltb_spec (windowEnd n r) r) as [Hafter|Hafter]; cbn [orb].
      * rewrite Enext. apply Hstep; [reflexivity|]. rewrite Hgap. lia.
      * destruct (Z.eqb_spec r (windowEnd n r)) as [Heq|Hne].
        -- rewrite Enext. apply Hstep; [reflexivity|]. rewrite Hgap. lia.
        -- intros [= <- <-]. now apply walked_self.
  - destruct (Z.ltb_spec (windowEnd n r) r) as [Hafter|Hafter]; cbn [orb].
    + intros [= <- <-]. unfold walked. rewrite Edir.
      apply businessMs_idle. intros k Hk. right.
      destruct (window_of_boundary n r Hv) as [_ De].
      assert (k = Date.dayNumber r) by lia. subst k.
      unfold DateFns.startOfDay in *. lia.
    + destruct (Z.eqb_spec r (windowEnd n r)) as [Heq|Hne].
      * intros [= <- <-]. rewrite <- Heq. now apply walked_self.
      * destruct (Z.ltb_spec r (windowStart n r)) as [Hb|Hb].
        -- rewrite Eprev. apply Hstep; [reflexivity|]. rewrite Hgap. lia.
        -- intros [= <- <-]. now apply walked_self.
Qed.

Lemma moveToWorkingTime_idle (n : NormalizedBusinessHoursOptions)
    (dir x s : Z) :
  validConfig n -> dir = 1 \/ dir = -1 ->
  moveToWorkingTime n x dir = Returns s -> walked n dir x s = 0.
Proof.
  intros Hv Hdir. unfold moveToWorkingTime.
  destruct (moveLoop (S (Z.to_nat maxAttempts)) n dir x 0)
    as [[r a]| |] eqn:E; cbn [bind fst snd]; try discriminate.
  destruct (maxAttempts <=? a); [discriminate|]. intros [= <-].
  eapply moveLoop_idle; eassumption.
Qed.

Lemma businessMs_within (n : NormalizedBusinessHoursOptions) (w a c : Z) :
  validConfig n -> inWindow n w ->
  windowStart n w <= a -> a <= c -> c <= windowEnd n w ->
  businessMs n a c = c - a.
Proof.
  intros Hv Hw Ha Hac Hc.
  destruct (inWindow_same_window n w a Hv Hw ltac:(lia)) as [Hon Hin].
  apply businessMs_inside; try assumption; try lia.
  destruct (window_in_day n w Hv) as (_ & _ & W1 & W2 & W3).
  assert (Hday : Date.dayNumber w = Date.dayNumber a).
  { symmetry. apply dayNumber_unique. unfold DateFns.startOfDay in *. lia. }
  destruct (window_same_day n a w Hday) as [_ E]. lia.
Qed.

Lemma availableMinutes_ms (n : NormalizedBusinessHoursOptions) (dir cur : Z) :
  (availableMinutes n dir cur * inject_Z msPerMinute
   == inject_Z (availableMs n dir cur))%Q.
Proof.
  unfold availableMinutes, availableMs.
  fold (windowStart n cur) (windowEnd n cur).
  change (inject_Z (1000 * 60)) with (60000 # 1)%Q.
  change (inject_Z msPerMinute) with (60000 # 1)%Q.
  destruct (0 <? dir); field.
Qed.

Lemma Qle_bool_ms (rem av : Q) (R A : Z) :
  (rem * inject_Z msPerMinute == inject_Z R)%Q ->
  (av * inject_Z msPerMinute == inject_Z A)%Q ->
  Qle_bool rem av = (R <=? A).
Proof.
  intros Hr Ha. change (inject_Z msPerMinute) with (60000 # 1)%Q in *.
  destruct (Z.leb_spec R A) as [H|H].
  - apply Qle_bool_iff. rewrite Zle_Qle in H. lra.
  - destruct (Qle_bool rem av) eqn:E; [|reflexivity].
    apply Qle_bool_iff in E.
    assert (H' : (inject_Z R <= inject_Z A)%Q) by lra.
    rewrite <- Zle_Qle in H'. lia.
Qed.

Lemma addMinutes_ms (cur dir R : Z) (rem : Q) :
  (rem * inject_Z msPerMinute == inject_Z R)%Q ->
  DateFns.addMinutes cur (rem * inject_Z dir) = cur + dir * R.
Proof.
  intros Hr. unfold DateFns.addMinutes, Qtrunc.
  assert (E : (inject_Z cur + rem * inject_Z dir * inject_Z msPerMinute
               == inject_Z (cur + dir * R))%Q).
  { rewrite inject_Z_plus, inject_Z_mult, <- Hr. ring. }
  rewrite (Qfloor_comp _ _ E), (Qceiling_comp _ _ E), Qfloor_Z, Qceiling_Z.
  now destruct (Qle_bool 0 _).
Qed.

(** The consuming loop crosses exactly the business time it was given. *)
Lemma consumeLoop_exact (n : NormalizedBusinessHoursOptions) (dir : Z)
    (fuel : nat) (cur : Z) (rem : Q) (R i r i' : Z) :
  validConfig n -> dir = 1 \/ dir = -1 -> inWindow n cur ->
  (rem * inject_Z msPerMinute == inject_Z R)%Q -> 0 <= R ->
  consumeLoop fuel n dir cur rem i = Returns (r, i') ->
  i' < maxIterations ->
  walked n dir cur r = R.
Proof.
  intros Hv Hdir. revert cur rem R i.
  induction fuel as [|fuel IH]; intros cur rem R i Hin Hrem HR;
    [discriminate|].
  assert (Hzero : (0 * inject_Z msPerMinute == inject_Z 0)%Q) by reflexivity.
  destruct (Qle_bool rem 0) eqn:Hpos.
  { rewrite consumeLoop_done by exact Hpos. intros [= <- <-] _.
    rewrite (Qle_bool_ms rem 0 R 0 Hrem Hzero) in Hpos.
    apply Z.leb_le in Hpos. replace R with 0 by lia.
    now apply walked_self. }
  destruct (Z.ltb_spec i maxIterations) as [Hi|Hi].
  2:{ cbn [consumeLoop]. rewrite Hpos.
      replace (i <? maxIterations) with false
        by (symmetry; now apply Z.ltb_ge).
      cbn [negb andb]. intros [= <- <-] Hlt. lia. }
  destruct Hin as [Hon Hw].
  pose proof (availableMinutes_ms n dir cur) as Hav.
  destruct (Qle_bool rem (availableMinutes n dir cur)) eqn:Hfit.
  - rewrite consumeLoop_fits by assumption. intros E Hlt.
    destruct (addMinutes_fits n dir cur rem Hdir Hw Hpos Hfit) as [H1 H2].
    pose proof (inWindow_same_window n cur _ Hv (conj Hon Hw) H2) as Hin'.
    destruct (consumeLoop_walk n dir _ _ _ _ _ _ Hv Hdir Hin' E) as [H3 _].
    rewrite (walked_add n dir cur _ r Hv H1 H3).
    rewrite (IH _ 0%Q 0 _ Hin' Hzero ltac:(lia) E Hlt).
    rewrite (addMinutes_ms cur dir R rem Hrem) in *.
    rewrite (Qle_bool_ms _ _ _ _ Hrem Hav) in Hfit. apply Z.leb_le in Hfit.
    unfold walked, availableMs in *.
    destruct Hdir as [-> | ->]; cbn [Z.ltb Z.compare] in *.
    + rewrite (businessMs_within n cur cur (cur + 1 * R) Hv (conj Hon Hw));
        lia.
    + rewrite (businessMs_within n cur (cur + -1 * R) cur Hv (conj Hon Hw));
        lia.
  - rewrite consumeLoop_spills by assumption.
    destruct (moveToWorkingTime n (nextBoundary n dir cur) dir)
      as [s| |] eqn:Es; cbn [bind]; try discriminate.
    intros E Hlt.
    destruct (moveToWorkingTime_walk n dir _ s Hv Hdir Es) as [H1 H2].
    pose proof (snapped_inWindow n dir s H2) as Hin'.
    destruct (consumeLoop_walk n dir _ _ _ _ _ _ Hv Hdir Hin' E) as [H3 _].
    rewrite (Qle_bool_ms _ _ _ _ Hrem Hav) in Hfit. apply Z.leb_gt in Hfit.
    assert (Hrem' : ((rem - availableMinutes n dir cur)
                     * inject_Z msPerMinute
                     == inject_Z (R - availableMs n dir cur))%Q).
    { rewrite inject_Z_minus, <- Hrem, <- Hav. ring. }
    assert (Hav0 : 0 <= availableMs n dir cur).
    { unfold availableMs. destruct (0 <? dir); lia. }
    pose proof (IH _ _ _ _ Hin' Hrem' ltac:(lia) E Hlt) as Hrest.
    pose proof (ahead_nextBoundary n dir cur Hv) as H0.
    rewrite (walked_add n dir cur (nextBoundary n dir cur) r Hv H0);
      [|eapply ahead_trans; eassumption].
    rewrite (walked_add n dir _ s r Hv H1 H3).
    rewrite (moveToWorkingTime_idle n dir _ s Hv Hdir Es), Hrest.
    destruct (setBoundary_form n dir cur Hdir) as [_ Enb].
    rewrite (walked_to_boundary n dir cur _ Hv Hdir Enb), Hon.
    unfold availableMs. destruct (0 <? dir); lia.
Qed.

Lemma hours_as_ms (q : Q) (m : Z) :
  (q * inject_Z msPerHour == inject_Z m)%Q ->
  (q == msToHours m)%Q
  /\ (Qabs (q * 60) * inject_Z msPerMinute == inject_Z (Z.abs m))%Q
  /\ Qle_bool 0 (q * 60) = (0 <=? m).
Proof.
  intros H. change (inject_Z msPerHour) with (3600000 # 1)%Q in H.
  assert (E : (q * 60 * inject_Z msPerMinute == inject_Z m)%Q).
  { rewrite <- H. change (inject_Z msPerMinute) with (60000 # 1)%Q. ring. }
  split; [|split].
  - unfold msToHours. rewrite <- H.
    change (inject_Z (1000 * 60 * 60)) with (3600000 # 1)%Q. field.
  - change (inject_Z msPerMinute) with (60000 # 1)%Q in *.
    destruct (Z.leb_spec 0 m) as [Hm|Hm].
    + rewrite Z.abs_eq by exact Hm. rewrite Zle_Qle in Hm.
      rewrite Qabs_pos; [exact E|]. change (inject_Z 0) with 0%Q in Hm. lra.
    + rewrite Z.abs_neq by lia. rewrite inject_Z_opp.
      assert (Hm' : (inject_Z m <= 0)%Q).
      { change 0%Q with (inject_Z 0). rewrite <- Zle_Qle. lia. }
      rewrite Qabs_neg; [lra|lra].
  - change (inject_Z msPerMinute) with (60000 # 1)%Q in *.
    destruct (Z.leb_spec 0 m) as [Hm|Hm].
    + apply Qle_bool_iff. rewrite Zle_Qle in Hm.
      change (inject_Z 0) with 0%Q in Hm. lra.
    + destruct (Qle_bool 0 (q * 60)) eqn:E'; [|reflexivity].
      apply Qle_bool_iff in E'.
      assert (Hm' : (inject_Z 0 <= inject_Z m)%Q)
        by (change (inject_Z 0) with 0%Q; lra).
      rewrite <- Zle_Qle in Hm'. lia.
Qed.

Lemma addBusinessHours_walked (opts : BusinessHoursOptions)
    (n : NormalizedBusinessHoursOptions) (t : Z) (q : Q) (m r : Z) :
  normalizeBusinessHoursOptions opts = Returns n ->
  (q * inject_Z msPerHour == inject_Z m)%Q -> m <> 0 ->
  addBusinessHours (Some t) (Finite q) opts = Returns (Some r) ->
  ahead (if 0 <=? m then 1 else -1) t r
  /\ walked n (if 0 <=? m then 1 else -1) t r = Z.abs m.
Proof.
  intros Hn Hq Hm. pose proof (normalize_valid opts n Hn) as Hv.
  destruct (hours_as_ms q m Hq) as (Eq & Erem & Edir).
  unfold addBusinessHours.
  destruct (Qeq_bool q 0) eqn:E0.
  { apply Qeq_bool_iff in E0. exfalso. apply Hm.
    rewrite E0 in Hq. assert (H : (inject_Z m == inject_Z 0)%Q).
    { rewrite <- Hq. reflexivity. }
    exact (proj1 (inject_Z_injective m 0) H). }
  rewrite Hn. cbn [bind]. rewrite Edir.
  set (dir := if 0 <=? m then 1 else -1).
  assert (Hdir : dir = 1 \/ dir = -1)
    by (unfold dir; destruct (0 <=? m); auto).
  destruct (moveToWorkingTime n t dir) as [s| |] eqn:Es; cbn [bind];
    try discriminate.
  destruct (consumeLoop _ n dir s _ 0) as [[c i]| |] eqn:Ec;
    cbn [bind fst snd]; try discriminate.
  destruct (Z.leb_spec maxIterations i) as [Hi|Hi]; [discriminate|].
  intros [= <-].
  destruct (moveToWorkingTime_walk n dir t s Hv Hdir Es) as [H1 H2].
  pose proof (snapped_inWindow n dir s H2) as Hin.
  destruct (consumeLoop_walk n dir _ _ _ _ _ _ Hv Hdir Hin Ec) as [H3 _].
  split; [eapply ahead_trans; eassumption|].
  rewrite (walked_add n dir t s c Hv H1 H3).
  rewrite (moveToWorkingTime_idle n dir t s Hv Hdir Es).
  rewrite (consumeLoop_exact n dir _ s _ (Z.abs m) 0 c i Hv Hdir Hin Erem
             ltac:(lia) Ec Hi).
  reflexivity.
Qed.



(** ** Same-day offsets, composition and inverse *)

Lemma moveLoop_forward_inside (n : NormalizedBusinessHoursOptions)
    (fuel : nat) (dir r a : Z) :
  a < maxAttempts -> nonWorking n r = false -> 0 < dir ->
  windowStart n r <= r < windowEnd n r ->
  moveLoop (S fuel) n dir r a = Returns (r, a + 1).
Proof.
  intros Ha Hon Hdir Hin. cbn [moveLoop].
  replace (a <? maxAttempts) with true by (symmetry; now apply Z.ltb_lt).
  fold (nonWorking n r). rewrite Hon.
  destruct (getWorkingHours_working n r Hon) as [-> ->].
  fold (windowStart n r) (windowEnd n r).
  replace (0 <? dir) with true by (symmetry; now apply Z.ltb_lt).
  unfold DateFns.isAfter, DateFns.isBefore.
  replace (r <? windowStart n r) with false
    by (symmetry; apply Z.ltb_ge; lia).
  replace (windowEnd n r <? r) with false
    by (symmetry; apply Z.ltb_ge; lia).
  now replace (r =? windowEnd n r) with false
    by (symmetry; apply Z.eqb_neq; lia).
Qed.

(** An instant where the snap phase may stop is left where it is. *)
Lemma moveToWorkingTime_snapped (n : NormalizedBusinessHoursOptions)
    (dir s : Z) :
  dir = 1 \/ dir = -1 -> snapped n dir s ->
  moveToWorkingTime n s dir = Returns s.
Proof.
  intros Hdir (Hon & Hs & He). unfold moveToWorkingTime.
  destruct Hdir as [-> | ->]; cbn [Z.ltb Z.compare] in He.
  - rewrite moveLoop_forward_inside; try assumption; try reflexivity; lia.
  - destruct (Z.eq_dec s (windowEnd n s)) as [Heq|Hne].
    + rewrite moveLoop_backward_after;
        [|reflexivity|exact Hon|lia|fold (windowEnd n s); lia].
      cbn [bind fst snd]. fold (windowEnd n s). now rewrite <- Heq.
    + rewrite moveLoop_backward_inside;
        [reflexivity|reflexivity|exact Hon|lia|].
      fold (windowStart n s) (windowEnd n s). lia.
Qed.

(** X14: the snap phase is idempotent: where [moveToWorkingTime] stops, it
    stops again without moving. *)
Theorem moveToWorkingTime_idempotent (opts : BusinessHoursOptions)
    (n : NormalizedBusinessHoursOptions) (dir x s : Z) :
  normalizeBusinessHoursOptions opts = Returns n ->
  dir = 1 \/ dir = -1 ->
  moveToWorkingTime n x dir = Returns s ->
  moveToWorkingTime n s dir = Returns s.
Proof.
  intros Hn Hdir E. apply moveToWorkingTime_snapped; [exact Hdir|].
  eapply moveToWorkingTime_walk; try eassumption.
  eapply normalize_valid; eassumption.
Qed.

Lemma moveToWorkingTime_idempotent_witness :
  moveToWorkingTime defaultNormalized (Date.make 2023 0 9 9 0) 1
  = Returns (Date.make 2023 0 9 9 0).
Proof.
  apply (moveToWorkingTime_idempotent noOptions defaultNormalized 1
           (Date.make 2023 0 7 10 0));
    [reflexivity|now left|vm_compute; reflexivity].
Defined.

(** X15: an offset that stays inside the window of the day is plain
    addition.  From an instant of an open day, between the two ends of its
    window, an amount of [m] milliseconds that does not leave the window
    gives the instant [m] milliseconds later (earlier, when [m] is
    negative), and the call does return. *)
Theorem addBusinessHours_same_day (opts : BusinessHoursOptions)
    (n : NormalizedBusinessHoursOptions) (t : Z) (q : Q) (m ws we : Z) :
  normalizeBusinessHoursOptions opts = Returns n ->
  (q * inject_Z msPerHour == inject_Z m)%Q -> m <> 0 ->
  getWorkingHoursStart t n = Some ws -> getWorkingHoursEnd t n = Some we ->
  ws <= t <= we -> ws <= t + m <= we ->
  addBusinessHours (Some t) (Finite q) opts = Returns (Some (t + m)).
Proof.
  intros Hn Hq Hm Hs He Ht Htm.
  destruct (hours_as_ms q m Hq) as (_ & Erem & Edir).
  destruct (nonWorking n t) eqn:Hon.
  { destruct (getWorkingHours_nonWorking n t Hon) as [E _].
    rewrite E in Hs. discriminate. }
  destruct (getWorkingHours_working n t Hon) as [Es' Ee'].
  rewrite Es' in Hs. rewrite Ee' in He.
  injection Hs as <-. injection He as <-.
  fold (windowStart n t) (windowEnd n t) in *.
  unfold addBusinessHours.
  destruct (Qeq_bool q 0) eqn:E0.
  { apply Qeq_bool_iff in E0. exfalso. apply Hm.
    rewrite E0 in Hq. assert (H : (inject_Z m == inject_Z 0)%Q).
    { rewrite <- Hq. reflexivity. }
    exact (proj1 (inject_Z_injective m 0) H). }
  rewrite Hn. cbn [bind]. rewrite Edir.
  set (dir := if 0 <=? m then 1 else -1).
  assert (Hdir : dir = 1 \/ dir = -1)
    by (unfold dir; destruct (0 <=? m); auto).
  assert (Hsnap : snapped n dir t).
  { unfold snapped, dir. split; [exact Hon|]. split; [lia|].
    destruct (Z.leb_spec 0 m); cbn [Z.ltb Z.compare]; lia. }
  rewrite (moveToWorkingTime_snapped n dir t Hdir Hsnap). cbn [bind].
  change (Z.to_nat maxIterations) with (S (Z.to_nat 9999)).
  pose proof (availableMinutes_ms n dir t) as Hav.
  assert (Hpos : Qle_bool (Qabs (q * 60)) 0 = false).
  { rewrite (Qle_bool_ms _ 0 (Z.abs m) 0 Erem ltac:(reflexivity)).
    apply Z.leb_gt. lia. }
  rewrite consumeLoop_fits; try assumption; try reflexivity.
  2:{ rewrite (Qle_bool_ms _ _ _ _ Erem Hav). apply Z.leb_le.
      unfold availableMs, dir.
      destruct (Z.leb_spec 0 m); cbn [Z.ltb Z.compare]; lia. }
  rewrite consumeLoop_done by reflexivity. cbn [bind fst snd].
  change (maxIterations <=? 0 + 1) with false. cbv iota.
  rewrite (addMinutes_ms t dir (Z.abs m) _ Erem).
  do 2 f_equal. unfold dir. destruct (Z.leb_spec 0 m); lia.
Qed.

Lemma addBusinessHours_same_day_witness :
  addBusinessHours (Some (Date.make 2023 0 2 10 0)) (hours 3) noOptions
  = Returns (Some (Date.make 2023 0 2 10 0 + 10800000)).
Proof.
  apply (addBusinessHours_same_day noOptions defaultNormalized
           (Date.make 2023 0 2 10 0) 3%Q 10800000
           (Date.make 2023 0 2 9 0) (Date.make 2023 0 2 17 0));
    try reflexivity; try discriminate;
    vm_compute; split; discriminate.
Defined.

Lemma sumDays_ge_term (f : Z -> Z) (count : nat) (k j : Z) :
  (forall i, 0 <= f i) -> k <= j < k + Z.of_nat count ->
  f j <= sumDays f count k.
Proof.
  intros Hf. revert k. induction count as [|count IH]; intros k Hj; [lia|].
  cbn [sumDays].
  assert (H0 : 0 <= sumDays f count (k + 1)).
  { rewrite <- (sumDays_zero (fun _ => 0) count (k + 1)) at 1
      by reflexivity.
    apply sumDays_le. intros i _. apply Hf. }
  destruct (Z.eq_dec j k) as [-> | Hne].
  - lia.
  - specialize (IH (k + 1) ltac:(lia)). specialize (Hf k). lia.
Qed.

Lemma businessMs_ge_day (n : NormalizedBusinessHoursOptions) (x y k : Z) :
  Date.dayNumber x <= k <= Date.dayNumber y ->
  dayOverlapMs n x y k <= businessMs n x y.
Proof.
  intros Hk. unfold businessMs. apply sumDays_ge_term; [|lia].
  intros i. apply dayOverlapMs_nonneg.
Qed.

Lemma businessMs_pos_end (n : NormalizedBusinessHoursOptions) (x y : Z) :
  validConfig n -> x < y -> inWindow n y -> windowStart n y < y ->
  0 < businessMs n x y.
Proof.
  intros Hv Hxy [Hon Hin] Hs.
  pose proof (dayNumber_mono x y ltac:(lia)) as Hd.
  pose proof (businessMs_ge_day n x y (Date.dayNumber y) ltac:(lia)) as H.
  destruct (window_in_day n y Hv) as (Ews & Ewe & _).
  unfold DateFns.startOfDay in *. unfold dayOverlapMs in H.
  rewrite (nonWorking_same_day n (Date.dayNumber y * msPerDay) y) in H
    by apply dayNumber_dayStart.
  rewrite Hon in H. lia.
Qed.

Lemma businessMs_pos_start (n : NormalizedBusinessHoursOptions) (x y : Z) :
  validConfig n -> x < y -> inWindow n x -> x < windowEnd n x ->
  0 < businessMs n x y.
Proof.
  intros Hv Hxy [Hon Hin] Hs.
  pose proof (dayNumber_mono x y ltac:(lia)) as Hd.
  pose proof (businessMs_ge_day n x y (Date.dayNumber x) ltac:(lia)) as H.
  destruct (window_in_day n x Hv) as (Ews & Ewe & _).
  unfold DateFns.startOfDay in *. unfold dayOverlapMs in H.
  rewrite (nonWorking_same_day n (Date.dayNumber x * msPerDay) x) in H
    by apply dayNumber_dayStart.
  rewrite Hon in H. lia.
Qed.


Lemma consumeLoop_lands (n : NormalizedBusinessHoursOptions) (dir : Z)
    (fuel : nat) (cur : Z) (rem : Q) (R i r i' : Z) :
  validConfig n -> dir = 1 \/ dir = -1 -> inWindow n cur ->
  (rem * inject_Z msPerMinute == inject_Z R)%Q -> 0 < R ->
  consumeLoop fuel n dir cur rem i = Returns (r, i') ->
  i' < maxIterations ->
  landed n dir r.
Proof.
  intros Hv Hdir. revert cur rem R i.
  induction fuel as [|fuel IH]; intros cur rem R i Hin Hrem HR;
    [discriminate|].
  assert (Hzero : (0 * inject_Z msPerMinute == inject_Z 0)%Q) by reflexivity.
  assert (Hpos : Qle_bool rem 0 = false).
  { rewrite (Qle_bool_ms rem 0 R 0 Hrem Hzero). apply Z.leb_gt. lia. }
  destruct (Z.ltb_spec i maxIterations) as [Hi|Hi].
  2:{ cbn [consumeLoop]. rewrite Hpos.
      replace (i <? maxIterations) with false
        by (symmetry; now apply Z.ltb_ge).
      cbn [negb andb]. intros [= <- <-] Hlt. lia. }
  destruct Hin as [Hon Hw].
  pose proof (availableMinutes_ms n dir cur) as Hav.
  destruct (Qle_bool rem (availableMinutes n dir cur)) eqn:Hfit.
  - rewrite consumeLoop_fits by assumption. intros E Hlt.
    destruct (addMinutes_fits n dir cur rem Hdir Hw Hpos Hfit) as [H1 H2].
    pose proof (inWindow_same_window n cur _ Hv (conj Hon Hw) H2) as Hin'.
    destruct fuel as [|fuel']; [discriminate|].
    rewrite consumeLoop_done in E by reflexivity. injection E as <- _.
    split; [exact Hin'|].
    rewrite (addMinutes_ms cur dir R rem Hrem) in *.
    destruct (window_in_day n cur Hv) as (_ & _ & W1 & W2 & W3).
    assert (Hday : Date.dayNumber (cur + dir * R) = Date.dayNumber cur).
    { apply dayNumber_unique. unfold DateFns.startOfDay in *. lia. }
    destruct (window_same_day n cur _ Hday) as [-> ->].
    destruct Hdir as [-> | ->]; cbn [Z.ltb Z.compare]; lia.
  - rewrite consumeLoop_spills by assumption.
    destruct (moveToWorkingTime n (nextBoundary n dir cur) dir)
      as [s| |] eqn:Es; cbn [bind]; try discriminate.
    intros E Hlt.
    destruct (moveToWorkingTime_walk n dir _ s Hv Hdir Es) as [H1 H2].
    pose proof (snapped_inWindow n dir s H2) as Hin'.
    rewrite (Qle_bool_ms _ _ _ _ Hrem Hav) in Hfit. apply Z.leb_gt in Hfit.
    assert (Hrem' : ((rem - availableMinutes n dir cur)
                     * inject_Z msPerMinute
                     == inject_Z (R - availableMs n dir cur))%Q).
    { rewrite inject_Z_minus, <- Hrem, <- Hav. ring. }
    exact (IH _ _ _ _ Hin' Hrem' ltac:(lia) E Hlt).
Qed.

Lemma addBusinessHours_lands (opts : BusinessHoursOptions)
    (n : NormalizedBusinessHoursOptions) (t : Z) (q : Q) (m r : Z) :
  normalizeBusinessHoursOptions opts = Returns n ->
  (q * inject_Z msPerHour == inject_Z m)%Q -> m <> 0 ->
  addBusinessHours (Some t) (Finite q) opts = Returns (Some r) ->
  landed n (if 0 <=? m then 1 else -1) r.
Proof.
  intros Hn Hq Hm. pose proof (normalize_valid opts n Hn) as Hv.
  destruct (hours_as_ms q m Hq) as (Eq & Erem & Edir).
  unfold addBusinessHours.
  destruct (Qeq_bool q 0) eqn:E0.
  { apply Qeq_bool_iff in E0. exfalso. apply Hm.
    rewrite E0 in Hq. assert (H : (inject_Z m == inject_Z 0)%Q).
    { rewrite <- Hq. reflexivity. }
    exact (proj1 (inject_Z_injective m 0) H). }
  rewrite Hn. cbn [bind]. rewrite Edir.
  set (dir := if 0 <=? m then 1 else -1).
  assert (Hdir : dir = 1 \/ dir = -1)
    by (unfold dir; destruct (0 <=? m); auto).
  destruct (moveToWorkingTime n t dir) as [s| |] eqn:Es; cbn [bind];
    try discriminate.
  destruct (consumeLoop _ n dir s _ 0) as [[c i]| |] eqn:Ec;
    cbn [bind fst snd]; try discriminate.
  destruct (Z.leb_spec maxIterations i) as [Hi|Hi]; [discriminate|].
  intros [= <-].
  destruct (moveToWorkingTime_walk n dir t s Hv Hdir Es) as [H1 H2].
  exact (consumeLoop_lands n dir _ s _ (Z.abs m) 0 c i Hv Hdir
           (snapped_inWindow n dir s H2) Erem ltac:(lia) Ec Hi).
Qed.





(** ** When the walk returns *)

Lemma window_length (n : NormalizedBusinessHoursOptions) (t : Z) :
  windowEnd n t - windowStart n t = getBusinessHoursPerDay n.
Proof.
  unfold windowEnd, windowStart, Date.setHours, getBusinessHoursPerDay.
  unfold_ms. lia.
Qed.

Lemma isWorkingDay_In (t : Z) (wd : list JSNumber) (q : Q) :
  In (Finite q) wd -> (q == inject_Z (Date.getDay t))%Q ->
  isWorkingDay t wd = true.
Proof.
  intros Hin Hq. unfold isWorkingDay, includes. apply existsb_exists.
  exists (Finite q). split; [exact Hin|].
  cbn [sameValueZero ofInt]. apply Qeq_bool_iff. now symmetry.
Qed.

(** A week without holidays has an open day. *)
Lemma noHolidays_opens (n : NormalizedBusinessHoursOptions) :
  validConfig n -> holidays n = [] -> opensWithin n 7.
Proof.
  intros [_ _ _ _ _ Hwd Hne] Hh x.
  destruct (workingDays n) as [|d wd] eqn:Ewd; [congruence|].
  cbn [forallb] in Hwd. apply andb_prop in Hwd. destruct Hwd as [Hd _].
  destruct (validWorkingDay_integer d Hd) as (q & k & -> & Hq & Hk).
  exists ((k - Date.getDay x) mod 7). split.
  - apply Z.mod_pos_bound. lia.
  - unfold nonWorking. rewrite Hh, Ewd. cbn [isHoliday existsb].
    rewrite orb_false_r. apply negb_false_iff.
    apply (isWorkingDay_In _ _ q); [now left|].
    rewrite Hq, getDay_addDays.
    replace ((Date.getDay x + (k - Date.getDay x) mod 7) mod 7) with k;
      [reflexivity|].
    pose proof (getDay_range x). Z.div_mod_to_equations. lia.
Qed.

Lemma opens_ahead (n : NormalizedBusinessHoursOptions) (w dir x : Z) :
  opensWithin n w -> dir = 1 \/ dir = -1 ->
  exists k, 0 <= k < w /\ nonWorking n (DateFns.addDays x (dir * k)) = false.
Proof.
  intros Ho [-> | ->].
  - destruct (Ho x) as (k & Hk & E). exists k. split; [exact Hk|].
    now replace (1 * k) with k by lia.
  - destruct (Ho (DateFns.addDays x (- (w - 1)))) as (k & Hk & E).
    exists (w - 1 - k). split; [lia|].
    rewrite <- E. apply nonWorking_same_day.
    rewrite !dayNumber_addDays. lia.
Qed.

Lemma setHours_setHours (t h m h' m' : Z) :
  0 <= h <= 23 -> 0 <= m <= 59 ->
  Date.setHours (Date.setHours t h m) h' m' = Date.setHours t h' m'.
Proof.
  intros Hh Hm.
  change (Date.setHours (Date.setHours t h m) h' m')
    with (Date.dayNumber (Date.setHours t h m) * msPerDay + h' * msPerHour
          + m' * msPerMinute).
  now rewrite dayNumber_setHours.
Qed.

Lemma setBoundary_atBoundary (n : NormalizedBusinessHoursOptions)
    (dir r : Z) :
  validConfig n -> dir = 1 \/ dir = -1 ->
  atBoundary n dir (setBoundary n dir r)
  /\ Date.dayNumber (setBoundary n dir r) = Date.dayNumber r.
Proof.
  intros [? ? ? ? _ _ _] Hdir.
  unfold atBoundary, windowStart, windowEnd, setBoundary.
  destruct (0 <? dir).
  - now rewrite setHours_setHours, dayNumber_setHours.
  - now rewrite setHours_setHours, dayNumber_setHours.
Qed.

Lemma nextBoundary_setBoundary (n : NormalizedBusinessHoursOptions)
    (dir r : Z) :
  dir = 1 \/ dir = -1 ->
  nextBoundary n dir r = setBoundary n dir (DateFns.addDays r dir).
Proof. intros [-> | ->]; reflexivity. Qed.

(** From the entering end of a day, the snap loop stops at the entering end
    of the first open day, one turn a day. *)
Lemma moveLoop_opens (n : NormalizedBusinessHoursOptions) (dir : Z)
    (fuel : nat) (k r a : Z) :
  validConfig n -> dir = 1 \/ dir = -1 -> atBoundary n dir r ->
  0 <= k -> nonWorking n (DateFns.addDays r (dir * k)) = false ->
  a + k < maxAttempts -> k < Z.of_nat fuel ->
  exists s a',
    moveLoop fuel n dir r a = Returns (s, a')
    /\ a' <= a + k + 1 /\ atBoundary n dir s /\ nonWorking n s = false.
Proof.
  intros Hv Hdir. revert k r a.
  induction fuel as [|fuel IH]; intros k r a Hb Hk Hopen Ha Hfuel; [lia|].
  destruct (window_in_day n r Hv) as (_ & _ & _ & W & _).
  destruct (nonWorking n r) eqn:Eoff.
  - rewrite moveLoop_closed by (assumption || lia).
    destruct (setBoundary_atBoundary n dir (DateFns.addDays r dir) Hv Hdir)
      as [Hb' Hday].
    assert (Hk0 : k <> 0).
    { intros ->. rewrite (nonWorking_same_day n _ r) in Hopen; [congruence|].
      rewrite dayNumber_addDays. lia. }
    destruct (IH (k - 1) _ (a + 1) Hb' ltac:(lia)) as (s & a' & E & Ha' & H);
      [|lia|lia|].
    + rewrite <- Hopen. apply nonWorking_same_day.
      rewrite !dayNumber_addDays, Hday, dayNumber_addDays. lia.
    + exists s, a'. split; [exact E|]. split; [lia|exact H].
  - exists r, (a + 1). split; [|split; [lia|split; [exact Hb|exact Eoff]]].
    unfold atBoundary in Hb. destruct Hdir as [-> | ->];
      cbn [Z.ltb Z.compare] in Hb.
    + apply moveLoop_forward_inside; try assumption; lia.
    + rewrite moveLoop_backward_after; try assumption; try lia.
      * fold (windowEnd n r). now rewrite <- Hb.
      * fold (windowEnd n r). lia.
Qed.

(** One turn of the snap loop either stops or steps to the entering end of
    the neighbouring day. *)
Lemma moveLoop_turn (n : NormalizedBusinessHoursOptions) (dir : Z)
    (fuel : nat) (r a : Z) :
  dir = 1 \/ dir = -1 -> a < maxAttempts ->
  (exists s, moveLoop (S fuel) n dir r a = Returns (s, a + 1))
  \/ moveLoop (S fuel) n dir r a
     = moveLoop fuel n dir (setBoundary n dir (DateFns.addDays r dir))
         (a + 1).
Proof.
  intros Hdir Ha. cbn [moveLoop].
  replace (a <? maxAttempts) with true by (symmetry; now apply Z.ltb_lt).
  destruct (negb (isWorkingDay r (workingDays n))
            || isHoliday r (holidays n)); [now right|].
  destruct (getWorkingHoursStart r n) as [ws|]; [|now right].
  destruct (getWorkingHoursEnd r n) as [we|]; [|now right].
  destruct Hdir as [-> | ->]; cbn [Z.ltb Z.compare].
  - destruct (DateFns.isBefore r ws); [left; eauto|].
    destruct (DateFns.isAfter r we || (r =? we)); [now right|left; eauto].
  - destruct (DateFns.isAfter r we || (r =? we)); [left; eauto|].
    destruct (DateFns.isBefore r ws); [now right|left; eauto].
Qed.

(** With an open day in every run of 364 days the snap phase returns. *)
Lemma moveToWorkingTime_returns (n : NormalizedBusinessHoursOptions)
    (dir x : Z) :
  validConfig n -> dir = 1 \/ dir = -1 -> opensWithin n 364 ->
  exists s, moveToWorkingTime n x dir = Returns s.
Proof.
  intros Hv Hdir Ho. unfold moveToWorkingTime.
  destruct (moveLoop_turn n dir (Z.to_nat maxAttempts) x 0 Hdir
              ltac:(reflexivity)) as [[s ->] | ->].
  - exists s. reflexivity.
  - destruct (setBoundary_atBoundary n dir (DateFns.addDays x dir) Hv Hdir)
      as [Hb _].
    destruct (opens_ahead n 364 dir (setBoundary n dir (DateFns.addDays x dir))
                Ho Hdir) as (k & Hk & Hopen).
    destruct (moveLoop_opens n dir (Z.to_nat maxAttempts) k _ (0 + 1) Hv Hdir
                Hb ltac:(lia) Hopen)
      as (s & a' & -> & Ha' & _); [unfold maxAttempts; lia..|].
    cbn [bind fst snd].
    replace (maxAttempts <=? a') with false
      by (symmetry; apply Z.leb_gt; unfold maxAttempts; lia).
    now exists s.
Qed.

(** From the entering end of a day it returns the entering end of an open
    day. *)
Lemma moveToWorkingTime_boundary (n : NormalizedBusinessHoursOptions)
    (dir x : Z) :
  validConfig n -> dir = 1 \/ dir = -1 -> opensWithin n 364 ->
  atBoundary n dir x ->
  exists s,
    moveToWorkingTime n x dir = Returns s
    /\ atBoundary n dir s /\ nonWorking n s = false.
Proof.
  intros Hv Hdir Ho Hb. unfold moveToWorkingTime.
  destruct (opens_ahead n 364 dir x Ho Hdir) as (k & Hk & Hopen).
  destruct (moveLoop_opens n dir (S (Z.to_nat maxAttempts)) k x 0 Hv Hdir
              Hb ltac:(lia) Hopen)
    as (s & a' & -> & Ha' & H); [unfold maxAttempts; lia..|].
  cbn [bind fst snd].
  replace (maxAttempts <=? a') with false
    by (symmetry; apply Z.leb_gt; unfold maxAttempts; lia).
  now exists s.
Qed.

Lemma atBoundary_available (n : NormalizedBusinessHoursOptions)
    (dir t : Z) :
  atBoundary n dir t -> availableMs n dir t = getBusinessHoursPerDay n.
Proof.
  unfold atBoundary, availableMs. rewrite <- (window_length n t).
  destruct (0 <? dir); lia.
Qed.

(** From the entering end of an open day, [k] whole windows are consumed in
    at most [k] turns. *)
Lemma consumeLoop_returns (n : NormalizedBusinessHoursOptions) (dir : Z)
    (fuel : nat) (k cur : Z) (rem : Q) (R i : Z) :
  validConfig n -> dir = 1 \/ dir = -1 -> opensWithin n 364 ->
  nonWorking n cur = false -> atBoundary n dir cur ->
  (rem * inject_Z msPerMinute == inject_Z R)%Q ->
  0 < R <= k * getBusinessHoursPerDay n ->
  i + k < maxIterations -> k < Z.of_nat fuel ->
  exists r i',
    consumeLoop fuel n dir cur rem i = Returns (r, i')
    /\ i' < maxIterations.
Proof.
  intros Hv Hdir Ho. revert k cur rem R i.
  induction fuel as [|fuel IH]; intros k cur rem R i Hon Hb Hrem HR Hi Hfuel.
  { pose proof (window_length n cur).
    destruct (window_in_day n cur Hv) as (_ & _ & _ & W & _). nia. }
  pose proof (window_length n cur) as Hlen.
  destruct (window_in_day n cur Hv) as (_ & _ & _ & W & _).
  assert (Hk : 1 <= k) by nia.
  assert (Hzero : (0 * inject_Z msPerMinute == inject_Z 0)%Q) by reflexivity.
  assert (Hpos : Qle_bool rem 0 = false).
  { rewrite (Qle_bool_ms rem 0 R 0 Hrem Hzero). apply Z.leb_gt. lia. }
  pose proof (availableMinutes_ms n dir cur) as Hav.
  pose proof (atBoundary_available n dir cur Hb) as Hfull.
  destruct (Qle_bool rem (availableMinutes n dir cur)) eqn:Hfit.
  - rewrite consumeLoop_fits by (assumption || lia).
    destruct fuel as [|fuel']; [lia|].
    rewrite consumeLoop_done by reflexivity.
    eexists _, _. split; [reflexivity|lia].
  - rewrite consumeLoop_spills by (assumption || lia).
    rewrite (Qle_bool_ms _ _ _ _ Hrem Hav) in Hfit. apply Z.leb_gt in Hfit.
    destruct (moveToWorkingTime_boundary n dir (nextBoundary n dir cur) Hv
                Hdir Ho) as (s & -> & Hb' & Hon').
    { rewrite nextBoundary_setBoundary by exact Hdir.
      now apply setBoundary_atBoundary. }
    cbn [bind].
    assert (Hrem' : ((rem - availableMinutes n dir cur)
                     * inject_Z msPerMinute
                     == inject_Z (R - availableMs n dir cur))%Q).
    { rewrite inject_Z_minus, <- Hrem, <- Hav. ring. }
    apply (IH (k - 1) s _ (R - availableMs n dir cur) (i + 1) Hon' Hb' Hrem');
      [nia|lia|lia].
Qed.

Lemma consumeLoop_first (n : NormalizedBusinessHoursOptions) (dir cur : Z)
    (rem : Q) (R : Z) :
  validConfig n -> dir = 1 \/ dir = -1 -> opensWithin n 364 ->
  inWindow n cur ->
  (rem * inject_Z msPerMinute == inject_Z R)%Q ->
  0 < R <= 9998 * getBusinessHoursPerDay n ->
  exists r i',
    consumeLoop (S (Z.to_nat maxIterations)) n dir cur rem 0 = Returns (r, i')
    /\ i' < maxIterations.
Proof.
  intros Hv Hdir Ho [Hon Hw] Hrem HR.
  assert (Hzero : (0 * inject_Z msPerMinute == inject_Z 0)%Q) by reflexivity.
  assert (Hpos : Qle_bool rem 0 = false).
  { rewrite (Qle_bool_ms rem 0 R 0 Hrem Hzero). apply Z.leb_gt. lia. }
  pose proof (availableMinutes_ms n dir cur) as Hav.
  assert (Hav0 : 0 <= availableMs n dir cur).
  { unfold availableMs. destruct (0 <? dir); lia. }
  destruct (Qle_bool rem (availableMinutes n dir cur)) eqn:Hfit.
  - rewrite consumeLoop_fits by (assumption || reflexivity).
    change (Z.to_nat maxIterations) with (S (Z.to_nat (maxIterations - 1))).
    rewrite consumeLoop_done by reflexivity.
    eexists _, _. split; [reflexivity|reflexivity].
  - rewrite consumeLoop_spills by (assumption || reflexivity).
    rewrite (Qle_bool_ms _ _ _ _ Hrem Hav) in Hfit. apply Z.leb_gt in Hfit.
    destruct (moveToWorkingTime_boundary n dir (nextBoundary n dir cur) Hv
                Hdir Ho) as (s & -> & Hb' & Hon').
    { rewrite nextBoundary_setBoundary by exact Hdir.
      now apply setBoundary_atBoundary. }
    cbn [bind].
    assert (Hrem' : ((rem - availableMinutes n dir cur)
                     * inject_Z msPerMinute
                     == inject_Z (R - availableMs n dir cur))%Q).
    { rewrite inject_Z_minus, <- Hrem, <- Hav. ring. }
    apply (consumeLoop_returns n dir _ 9998 s _ (R - availableMs n dir cur)
             (0 + 1) Hv Hdir Ho Hon' Hb' Hrem');
      [lia|reflexivity|unfold maxIterations; lia].
Qed.

(** X18: when the calendar has an open day in every run of 364 days, an
    offset of at most 9998 daily windows returns an instant: neither limit
    of the walk is reached. *)
Theorem addBusinessHours_returns (opts : BusinessHoursOptions)
    (n : NormalizedBusinessHoursOptions) (t : Z) (q : Q) (m : Z) :
  normalizeBusinessHoursOptions opts = Returns n ->
  opensWithin n 364 ->
  (q * inject_Z msPerHour == inject_Z m)%Q ->
  Z.abs m <= 9998 * getBusinessHoursPerDay n ->
  exists r, addBusinessHours (Some t) (Finite q) opts = Returns (Some r).
Proof.
  intros Hn Ho Hq Hm. pose proof (normalize_valid opts n Hn) as Hv.
  destruct (hours_as_ms q m Hq) as (Eq & Erem & Edir).
  unfold addBusinessHours.
  destruct (Qeq_bool q 0) eqn:E0; [now exists t|].
  assert (Hm0 : m <> 0).
  { intros ->. apply Qeq_bool_neq in E0. apply E0. rewrite Eq. reflexivity. }
  rewrite Hn. cbn [bind]. rewrite Edir.
  set (dir := if 0 <=? m then 1 else -1).
  assert (Hdir : dir = 1 \/ dir = -1)
    by (unfold dir; destruct (0 <=? m); auto).
  destruct (moveToWorkingTime_returns n dir t Hv Hdir Ho) as (s & Es).
  rewrite Es. cbn [bind].
  destruct (moveToWorkingTime_walk n dir t s Hv Hdir Es) as [_ Hs].
  destruct (consumeLoop_first n dir s _ (Z.abs m) Hv Hdir Ho
              (snapped_inWindow n dir s Hs) Erem ltac:(lia))
    as (r & i' & -> & Hi).
  cbn [bind fst snd].
  replace (maxIterations <=? i') with false
    by (symmetry; apply Z.leb_gt; exact Hi).
  now exists r.
Qed.

Lemma addBusinessHours_returns_witness :
  exists r,
    addBusinessHours (Some (Date.make 2023 0 6 15 0)) (Finite 4) noOptions
    = Returns (Some r).
Proof.
  apply (addBusinessHours_returns noOptions defaultNormalized
           (Date.make 2023 0 6 15 0) 4 14400000).
  - reflexivity.
  - intros x.
    destruct (noHolidays_opens defaultNormalized
                (normalize_valid noOptions defaultNormalized eq_refl)
                eq_refl x) as (k & Hk & E).
    exists k. split; [lia|exact E].
  - reflexivity.
  - vm_compute. discriminate.
Defined.

(** X19: a calendar without holidays has an open day in every week,
    whatever its working days; the snap phase then returns from every
    instant, in both directions, and never reports that no working time
    was found. *)
Theorem no_holidays_always_snaps (opts : BusinessHoursOptions)
    (n : NormalizedBusinessHoursOptions) (x dir : Z) :
  normalizeBusinessHoursOptions opts = Returns n ->
  holidays n = [] -> dir = 1 \/ dir = -1 ->
  (exists k, 0 <= k < 7 /\ nonWorking n (DateFns.addDays x (dir * k)) = false)
  /\ exists s, moveToWorkingTime n x dir = Returns s.
Proof.
  intros Hn Hh Hdir. pose proof (normalize_valid opts n Hn) as Hv.
  pose proof (noHolidays_opens n Hv Hh) as Ho. split.
  - now apply opens_ahead.
  - apply moveToWorkingTime_returns; [exact Hv|exact Hdir|].
    intros y. destruct (Ho y) as (k & Hk & E). exists k. split; [lia|exact E].
Qed.

Lemma no_holidays_always_snaps_witness :
  (exists k, 0 <= k < 7
             /\ nonWorking defaultNormalized
                  (DateFns.addDays (Date.make 2023 0 7 12 0) (1 * k)) = false)
  /\ exists s,
       moveToWorkingTime defaultNormalized (Date.make 2023 0 7 12 0) 1
       = Returns s.
Proof.
  apply (no_holidays_always_snaps noOptions defaultNormalized
           (Date.make 2023 0 7 12 0) 1); [reflexivity|reflexivity|now left].
Defined.



(** ** Order, holidays and whole weeks *)

Lemma addBusinessHours_zero (opts : BusinessHoursOptions) (t : Z) (q : Q)
    (r : Z) :
  (q * inject_Z msPerHour == inject_Z 0)%Q ->
  addBusinessHours (Some t) (Finite q) opts = Returns (Some r) -> r = t.
Proof.
  intros Hq. destruct (hours_as_ms q 0 Hq) as (Eq & _).
  unfold addBusinessHours.
  replace (Qeq_bool q 0) with true
    by (symmetry; apply Qeq_bool_iff; rewrite Eq; reflexivity).
  now intros [= <-].
Qed.

Lemma businessMs_more_holidays (n n' : NormalizedBusinessHoursOptions)
    (extra : list TimeValue) (a c : Z) :
  startHour n' = startHour n -> startMinute n' = startMinute n ->
  endHour n' = endHour n -> endMinute n' = endMinute n ->
  workingDays n' = workingDays n -> holidays n' = extra ++ holidays n ->
  businessMs n' a c <= businessMs n a c.
Proof.
  intros E1 E2 E3 E4 E5 E6. unfold businessMs. apply sumDays_le.
  intros j _. now apply (dayOverlapMs_more_holidays n n' extra).
Qed.

(** X21: a larger amount never gives an earlier instant.  For two amounts
    of whole milliseconds, of any signs, the results from one starting
    instant are in the order of the amounts. *)
Theorem addBusinessHours_monotone_in_amount (opts : BusinessHoursOptions)
    (n : NormalizedBusinessHoursOptions) (t : Z) (q1 q2 : Q)
    (m1 m2 r1 r2 : Z) :
  normalizeBusinessHoursOptions opts = Returns n ->
  (q1 * inject_Z msPerHour == inject_Z m1)%Q ->
  (q2 * inject_Z msPerHour == inject_Z m2)%Q ->
  m1 <= m2 ->
  addBusinessHours (Some t) (Finite q1) opts = Returns (Some r1) ->
  addBusinessHours (Some t) (Finite q2) opts = Returns (Some r2) ->
  r1 <= r2.
Proof.
  intros Hn H1 H2 Hle E1 E2. pose proof (normalize_valid opts n Hn) as Hv.
  destruct (Z.eq_dec m1 0) as [-> | N1].
  { rewrite (addBusinessHours_zero opts t q1 r1 H1 E1).
    destruct (Z.eq_dec m2 0) as [-> | N2].
    - rewrite (addBusinessHours_zero opts t q2 r2 H2 E2). lia.
    - destruct (addBusinessHours_walked opts n t q2 m2 r2 Hn H2 N2 E2)
        as [A _].
      replace (0 <=? m2) with true in A by (symmetry; apply Z.leb_le; lia).
      exact A. }
  destruct (addBusinessHours_walked opts n t q1 m1 r1 Hn H1 N1 E1)
    as [A1 W1].
  pose proof (addBusinessHours_lands opts n t q1 m1 r1 Hn H1 N1 E1)
    as [I1 L1].
  destruct (Z.eq_dec m2 0) as [-> | N2].
  { rewrite (addBusinessHours_zero opts t q2 r2 H2 E2).
    replace (0 <=? m1) with false in A1 by (symmetry; apply Z.leb_gt; lia).
    exact A1. }
  destruct (addBusinessHours_walked opts n t q2 m2 r2 Hn H2 N2 E2)
    as [A2 W2].
  pose proof (addBusinessHours_lands opts n t q2 m2 r2 Hn H2 N2 E2)
    as [I2 L2].
  unfold ahead, walked in *.
  destruct (Z.leb_spec 0 m1) as [P1|P1], (Z.leb_spec 0 m2) as [P2|P2];
    cbn [Z.ltb Z.compare] in *; try lia.
  - destruct (Z.le_gt_cases r1 r2) as [H|H]; [exact H|exfalso].
    rewrite (businessMs_additive n t r2 r1 Hv) in W1 by lia.
    pose proof (businessMs_pos_end n r2 r1 Hv ltac:(lia) I1 L1). lia.
  - destruct (Z.le_gt_cases r1 r2) as [H|H]; [exact H|exfalso].
    rewrite (businessMs_additive n r2 r1 t Hv) in W2 by lia.
    pose proof (businessMs_pos_start n r2 r1 Hv ltac:(lia) I2 L2). lia.
Qed.

Lemma addBusinessHours_monotone_in_amount_witness :
  Date.make 2023 0 6 12 0 <= Date.make 2023 0 9 13 0.
Proof.
  apply (addBusinessHours_monotone_in_amount noOptions defaultNormalized
           (Date.make 2023 0 9 9 0) (-5) 4 (-18000000) 14400000);
    try reflexivity. discriminate.
Defined.

(** X22: a later start never gives an earlier result: for one amount of
    whole milliseconds, the results from two starting instants are in the
    order of the instants. *)
Theorem addBusinessHours_monotone_in_start (opts : BusinessHoursOptions)
    (n : NormalizedBusinessHoursOptions) (t1 t2 : Z) (q : Q)
    (m r1 r2 : Z) :
  normalizeBusinessHoursOptions opts = Returns n ->
  (q * inject_Z msPerHour == inject_Z m)%Q ->
  t1 <= t2 ->
  addBusinessHours (Some t1) (Finite q) opts = Returns (Some r1) ->
  addBusinessHours (Some t2) (Finite q) opts = Returns (Some r2) ->
  r1 <= r2.
Proof.
  intros Hn Hq Hle E1 E2. pose proof (normalize_valid opts n Hn) as Hv.
  destruct (Z.eq_dec m 0) as [-> | N].
  { rewrite (addBusinessHours_zero opts t1 q r1 Hq E1).
    now rewrite (addBusinessHours_zero opts t2 q r2 Hq E2). }
  destruct (addBusinessHours_walked opts n t1 q m r1 Hn Hq N E1) as [A1 W1].
  destruct (addBusinessHours_walked opts n t2 q m r2 Hn Hq N E2) as [A2 W2].
  pose proof (addBusinessHours_lands opts n t1 q m r1 Hn Hq N E1) as [I1 L1].
  pose proof (addBusinessHours_lands opts n t2 q m r2 Hn Hq N E2) as [I2 L2].
  unfold ahead, walked in *.
  destruct (Z.le_gt_cases r1 r2) as [H|H]; [exact H|exfalso].
  destruct (Z.leb_spec 0 m) as [P|P]; cbn [Z.ltb Z.compare] in *.
  - rewrite (businessMs_additive n t1 t2 r1 Hv) in W1 by lia.
    rewrite (businessMs_additive n t2 r2 r1 Hv) in W1 by lia.
    pose proof (businessMs_pos_end n r2 r1 Hv ltac:(lia) I1 L1).
    pose proof (businessMs_nonneg n t1 t2). lia.
  - rewrite (businessMs_additive n r2 t1 t2 Hv) in W2 by lia.
    rewrite (businessMs_additive n r2 r1 t1 Hv) in W2 by lia.
    pose proof (businessMs_pos_start n r2 r1 Hv ltac:(lia) I2 L2).
    pose proof (businessMs_nonneg n t1 t2). lia.
Qed.

Lemma addBusinessHours_monotone_in_start_witness :
  Date.make 2023 0 9 11 0 <= Date.make 2023 0 9 13 0.
Proof.
  apply (addBusinessHours_monotone_in_start noOptions defaultNormalized
           (Date.make 2023 0 6 15 0) (Date.make 2023 0 9 9 0) 4 14400000);
    try reflexivity. discriminate.
Defined.

(** X23: holidays push the result away from the start.  With more holiday
    entries and the rest of the options unchanged, a forward offset of whole
    milliseconds ends no earlier than it did, and a backward offset no
    later. *)
Theorem addBusinessHours_more_holidays (opts : BusinessHoursOptions)
    (hs extra : list TimeValue) (n : NormalizedBusinessHoursOptions)
    (t : Z) (q : Q) (m r r' : Z) :
  normalizeBusinessHoursOptions (withHolidays opts hs) = Returns n ->
  (q * inject_Z msPerHour == inject_Z m)%Q -> m <> 0 ->
  addBusinessHours (Some t) (Finite q) (withHolidays opts hs)
  = Returns (Some r) ->
  addBusinessHours (Some t) (Finite q) (withHolidays opts (extra ++ hs))
  = Returns (Some r') ->
  (0 < m -> r <= r') /\ (m < 0 -> r' <= r).
Proof.
  intros Hn Hq N E E'. pose proof (normalize_valid _ n Hn) as Hv.
  destruct (normalize_withHolidays opts hs (extra ++ hs) n Hn) as [Eh Hn'].
  set (n' := {| startHour := startHour n; startMinute := startMinute n;
                endHour := endHour n; endMinute := endMinute n;
                workingDays := workingDays n; holidays := extra ++ hs |})
    in *.
  assert (Hless : forall a c, businessMs n' a c <= businessMs n a c).
  { intros a c. apply (businessMs_more_holidays n n' extra);
      try reflexivity. cbn [holidays n']. now rewrite Eh. }
  destruct (addBusinessHours_walked _ n t q m r Hn Hq N E) as [A W].
  destruct (addBusinessHours_walked _ n' t q m r' Hn' Hq N E') as [A' W'].
  pose proof (addBusinessHours_lands _ n t q m r Hn Hq N E) as [I L].
  unfold ahead, walked in *.
  destruct (Z.leb_spec 0 m) as [P|P]; cbn [Z.ltb Z.compare] in *;
    (split; intros Hs; [try lia|try lia]).
  - destruct (Z.le_gt_cases r r') as [H|H]; [exact H|exfalso].
    rewrite (businessMs_additive n t r' r Hv) in W by lia.
    pose proof (businessMs_pos_end n r' r Hv ltac:(lia) I L).
    pose proof (Hless t r'). lia.
  - destruct (Z.le_gt_cases r' r) as [H|H]; [exact H|exfalso].
    rewrite (businessMs_additive n r r' t Hv) in W by lia.
    pose proof (businessMs_pos_start n r r' Hv ltac:(lia) I L).
    pose proof (Hless r' t). lia.
Qed.

Lemma addBusinessHours_more_holidays_witness :
  (0 < 14400000 -> Date.make 2023 0 9 11 0 <= Date.make 2023 0 10 11 0)
  /\ (14400000 < 0 -> Date.make 2023 0 10 11 0 <= Date.make 2023 0 9 11 0).
Proof.
  apply (addBusinessHours_more_holidays noOptions []
           [Some (Date.make 2023 0 9 0 0)] defaultNormalized
           (Date.make 2023 0 6 15 0) 4 14400000);
    try reflexivity. discriminate.
Defined.

Lemma nonWorking_week (n : NormalizedBusinessHoursOptions) (t t' k : Z) :
  holidays n = [] -> Date.dayNumber t' = Date.dayNumber t + 7 * k ->
  nonWorking n t' = nonWorking n t.
Proof.
  intros Hh Hd. unfold nonWorking, isWorkingDay, Date.getDay.
  rewrite Hh, Hd. cbn [isHoliday existsb].
  replace ((Date.dayNumber t + 7 * k + 4) mod 7)
    with ((Date.dayNumber t + 4) mod 7)
    by (Z.div_mod_to_equations; lia).
  reflexivity.
Qed.

Lemma sumDays_shift (f g : Z -> Z) (s : Z) (count : nat) (k : Z) :
  (forall j, g (j + s) = f j) ->
  sumDays g count (k + s) = sumDays f count k.
Proof.
  intros H. revert k. induction count as [|count IH]; intros k;
    [reflexivity|].
  cbn [sumDays]. rewrite H. f_equal.
  replace (k + s + 1) with (k + 1 + s) by lia. apply IH.
Qed.

Lemma businessMs_week (n : NormalizedBusinessHoursOptions) (a c k : Z) :
  holidays n = [] ->
  businessMs n (DateFns.addDays a (7 * k)) (DateFns.addDays c (7 * k))
  = businessMs n a c.
Proof.
  intros Hh. unfold businessMs. rewrite !dayNumber_addDays.
  replace (Date.dayNumber c + 7 * k + 1 - (Date.dayNumber a + 7 * k))
    with (Date.dayNumber c + 1 - Date.dayNumber a) by lia.
  apply sumDays_shift. intros j. unfold dayOverlapMs.
  rewrite (nonWorking_week n (j * msPerDay) ((j + 7 * k) * msPerDay) k Hh)
    by (rewrite !dayNumber_dayStart; reflexivity).
  unfold DateFns.addDays. destruct (nonWorking n (j * msPerDay)); lia.
Qed.

(** X24: without holidays the count is the same every week: moving both
    ends of an interval by a whole number of weeks leaves the business hours
    counted unchanged. *)
Theorem businessHoursInInterval_weekly (opts : BusinessHoursOptions)
    (n : NormalizedBusinessHoursOptions) (a c k : Z) :
  normalizeBusinessHoursOptions opts = Returns n -> holidays n = [] ->
  a <= c ->
  exists x x',
    businessHoursInInterval (Some a) (Some c) opts = Returns x
    /\ businessHoursInInterval (Some (DateFns.addDays a (7 * k)))
         (Some (DateFns.addDays c (7 * k))) opts = Returns x'
    /\ (x' == x)%Q.
Proof.
  intros Hn Hh Hac.
  destruct (businessHoursInInterval_ms opts n a c Hn Hac) as (x & Hx & Ex).
  destruct (businessHoursInInterval_ms opts n (DateFns.addDays a (7 * k))
              (DateFns.addDays c (7 * k)) Hn) as (x' & Hx' & Ex').
  { unfold DateFns.addDays. lia. }
  exists x, x'. split; [exact Hx|]. split; [exact Hx'|].
  now rewrite Ex, Ex', (businessMs_week n a c k Hh).
Qed.

Lemma businessHoursInInterval_weekly_witness :
  exists x x',
    businessHoursInInterval (Some (Date.make 2023 0 6 15 0))
      (Some (Date.make 2023 0 9 11 0)) noOptions = Returns x
    /\ businessHoursInInterval
         (Some (DateFns.addDays (Date.make 2023 0 6 15 0) (7 * 3)))
         (Some (DateFns.addDays (Date.make 2023 0 9 11 0) (7 * 3)))
         noOptions = Returns x'
    /\ (x' == x)%Q.
Proof.
  apply (businessHoursInInterval_weekly noOptions defaultNormalized
           (Date.make 2023 0 6 15 0) (Date.make 2023 0 9 11 0) 3);
    [reflexivity|reflexivity|vm_compute; discriminate].
Defined.



